(** * Template processor of the C++20 project generator

    A shallow embedding of [helpers/template_processor.py] and the
    properties of its variable-resolution and file-generation pipeline. *)

From Stdlib Require Import ZArith Ascii String List Lia.
From stdpp Require Import base option list strings gmap fin_maps.

#[local] Set Warnings "-register-all".

Local Open Scope string_scope.
Local Open Scope list_scope.

(** ** Python values

    The values a variable dictionary can hold: what [json.load] returns and
    what [get_default_variables] builds.  A float is kept by the bit
    pattern of its IEEE-754 double; nothing in the program computes on it.
    [VUndefined] is the object [jinja2.Undefined] that the rendering
    environment hands to a filter for a variable that is not defined; no
    dictionary read from a file or built by the program holds it. *)

Inductive value : Type :=
| VNone
| VBool (b : bool)
| VInt (n : Z)
| VFloat (bits : Z)
| VStr (s : string)
| VList (l : list value)
| VDict (d : gmap string value)
| VUndefined.

(** A variable dictionary, [Dict[str, Any]]. *)
Abbreviation variables := (gmap string value).

Module Dict.

(** [result.update(var_dict)]: every key of [var_dict] is set in
    [result] to the value [var_dict] gives it; the other keys of [result]
    stay. *)
Definition update (result var_dict : variables) : variables :=
  var_dict ∪ result.

End Dict.

(** [TemplateProcessor.merge_variables]: the dictionaries are folded from
    the first (lowest precedence) to the last, starting from [{}]. *)
Definition merge_variables (variable_dicts : list variables) : variables :=
  fold_left Dict.update variable_dicts ∅.

(** ** Python strings

    A [str] is a [string]; its characters are read as the code points
    below 256.  The operations of [str] the program calls are written out
    here. *)

Module Str.

Definition eqb (a b : string) : bool := bool_decide (a = b).

Definition ascii_eqb (a b : ascii) : bool := bool_decide (a = b).

(** [s.startswith(p)] *)
Fixpoint startswith (s p : string) : bool :=
  match p, s with
  | EmptyString, _ => true
  | String _ _, EmptyString => false
  | String a p', String b s' => ascii_eqb a b && startswith s' p'
  end.

(** [s[n:]] *)
Fixpoint skip (n : nat) (s : string) : string :=
  match n, s with
  | O, _ => s
  | S _, EmptyString => EmptyString
  | S n', String _ s' => skip n' s'
  end.

(** [s[:n]] *)
Fixpoint take (n : nat) (s : string) : string :=
  match n, s with
  | O, _ => EmptyString
  | S _, EmptyString => EmptyString
  | S n', String c s' => String c (take n' s')
  end.

(** [s.endswith(p)] *)
Definition endswith (s p : string) : bool :=
  (String.length p <=? String.length s)%nat
  && eqb (skip (String.length s - String.length p) s) p.

(** The scan of [s.replace(old, new)] for a non-empty [old]: occurrences
    are taken from the left and do not overlap.  [pending] counts the
    characters of the occurrence just replaced that are still ahead. *)
Fixpoint replace_scan (old new : string) (pending : nat) (s : string) : string :=
  match s with
  | EmptyString => EmptyString
  | String c s' =>
      match pending with
      | S k => replace_scan old new k s'
      | O =>
          if startswith s old
          then new +:+ replace_scan old new (String.length old - 1) s'
          else String c (replace_scan old new 0 s')
      end
  end.

(** [s.replace("", new)] puts [new] before every character and at the end. *)
Fixpoint intersperse (new s : string) : string :=
  match s with
  | EmptyString => new
  | String c s' => new +:+ String c (intersperse new s')
  end.

(** [s.replace(old, new)] *)
Definition replace (old new s : string) : string :=
  match old with
  | EmptyString => intersperse new s
  | String _ _ => replace_scan old new 0 s
  end.

(** [s.rfind(c)] for a single character [c]; [None] stands for [-1]. *)
Fixpoint rfind (c : ascii) (s : string) : option nat :=
  match s with
  | EmptyString => None
  | String a s' =>
      match rfind c s' with
      | Some i => Some (S i)
      | None => if ascii_eqb a c then Some O else None
      end
  end.

(** [c.isalpha()] on the code points below 256: the ASCII letters, the
    two ordinal indicators, the micro sign, and the Latin-1 letters
    (everything from U+00C0 on but the multiplication and division
    signs). *)
Definition isalpha (c : ascii) : bool :=
  let n := nat_of_ascii c in
  ((65 <=? n) && (n <=? 90)
   || (97 <=? n) && (n <=? 122)
   || (n =? 170) || (n =? 181) || (n =? 186)
   || (192 <=? n) && negb (n =? 215) && negb (n =? 247))%nat.

(** ["/".join(parts)] and its like *)
Fixpoint join (sep : string) (parts : list string) : string :=
  match parts with
  | [] => EmptyString
  | [p] => p
  | p :: rest => p +:+ sep +:+ join sep rest
  end.

(** [s.split(sep)] for a single character [sep]: never empty; [cur] is
    the field being read, reversed. *)
Fixpoint split_acc (sep : ascii) (cur : string) (s : string) : list string :=
  match s with
  | EmptyString => [String.rev cur]
  | String c s' =>
      if ascii_eqb c sep
      then String.rev cur :: split_acc sep EmptyString s'
      else split_acc sep (String c cur) s'
  end.

Definition split (sep : ascii) (s : string) : list string :=
  split_acc sep EmptyString s.

End Str.

(** ** The two template filters *)

(** [value != ''] on the values above: only the empty [str] equals [''];
    an undefined value is equal to undefined values only. *)
Definition ne_empty_str (v : value) : bool :=
  match v with
  | VStr s => negb (Str.eqb s "")
  | _ => true
  end.

Definition is_not_None (v : value) : bool :=
  match v with
  | VNone => false
  | _ => true
  end.

(** [TemplateProcessor._default_filter] *)
Definition _default_filter (v default_value : value) : value :=
  if is_not_None v && ne_empty_str v then v else default_value.

(** [result[0].isalpha() or result[0] == '_'] for a non-empty [result];
    the guard [result and ...] makes the test fail on the empty string. *)
Definition starts_alpha_or_underscore (result : string) : bool :=
  match result with
  | EmptyString => false
  | String c _ => Str.isalpha c || Str.ascii_eqb c "_"%char
  end.

(** [TemplateProcessor._to_cpp_identifier_filter] *)
Definition _to_cpp_identifier_filter (v : string) : string :=
  match v with
  | EmptyString => v
  | String _ _ =>
      let result := Str.replace "-" "_" v in
      match result with
      | EmptyString => result
      | String _ _ =>
          if negb (starts_alpha_or_underscore result)
          then "_" +:+ result
          else result
      end
  end.

(** ** Paths

    A [pathlib] path is the list of its parts, as [PurePosixPath.parts]
    gives them; an absolute path starts with the part ["/"]. *)

Module Path.

Abbreviation t := (list string).

Definition is_absolute (p : t) : bool :=
  match p with
  | root :: _ => Str.eqb root "/"
  | [] => false
  end.

(** [Path(s)]: the text is cut at the slashes; empty parts and [.] parts
    go away; a leading slash gives the root part. *)
Definition of_string (s : string) : t :=
  let parts :=
    filter (fun x => x ≠ "" ∧ x ≠ ".") (Str.split "/"%char s) in
  if Str.startswith s "/" then "/" :: parts else parts.

(** [str(p)] *)
Definition str (p : t) : string :=
  match p with
  | [] => "."
  | root :: rest =>
      if Str.eqb root "/" then "/" +:+ Str.join "/" rest
      else Str.join "/" p
  end.

(** [p / q] *)
Definition join (p q : t) : t :=
  if is_absolute q then q else p ++ q.

(** [p.name], the last part ([""] when there is none) *)
Definition name (p : t) : string :=
  match last p with
  | Some n => if Str.eqb n "/" then "" else n
  | None => ""
  end.

(** The suffix of a file name: from its last dot on, unless that dot is
    the first or the last character. *)
Definition name_suffix (n : string) : string :=
  match Str.rfind "."%char n with
  | Some i =>
      if ((0 <? i) && (i <? String.length n - 1))%nat
      then Str.skip i n
      else ""
  | None => ""
  end.

(** [p.suffix] *)
Definition suffix (p : t) : string := name_suffix (name p).

(** [p.with_suffix('')]: the suffix is cut from the last part; a path
    whose name has no suffix stays. *)
Definition drop_suffix (p : t) : t :=
  match last p with
  | Some n =>
      removelast p
      ++ [Str.take (String.length n - String.length (suffix p)) n]
  | None => p
  end.

End Path.

(** ** The template library on disk

    A directory lists its entries in the order [os.scandir] gives them. *)

Inductive node : Type :=
| File (content : string)
| Dir (entries : list (string * node)).

Module Tree.

Definition is_dir (n : node) : bool :=
  match n with
  | Dir _ => true
  | File _ => false
  end.

(** The entry called [name] in a directory listing *)
Fixpoint entry (name : string) (es : list (string * node)) : option node :=
  match es with
  | [] => None
  | (n, c) :: es' => if Str.eqb n name then Some c else entry name es'
  end.

(** What the relative path [p] names below [n], if anything *)
Fixpoint find (n : node) (p : Path.t) : option node :=
  match p with
  | [] => Some n
  | name :: p' =>
      match n with
      | Dir es =>
          match entry name es with
          | Some c => find c p'
          | None => None
          end
      | File _ => None
      end
  end.

Definition dirnames (es : list (string * node)) : list string :=
  map fst (filter (fun e => is_dir (snd e) = true) es).

Definition filenames (es : list (string * node)) : list string :=
  map fst (filter (fun e => is_dir (snd e) = false) es).

(** [os.walk(top)], top-down: one triple [(root, dirs, files)] for the
    directory itself, then the walks of its sub-directories in listing
    order.  [root] is kept relative to [top].  Walking something that is
    not a directory yields nothing. *)
Fixpoint walk (root : Path.t) (n : node) : list (Path.t * list string * list string) :=
  match n with
  | File _ => []
  | Dir es =>
      (root, dirnames es, filenames es)
      :: flat_map (fun e => walk (root ++ [fst e]) (snd e)) es
  end.

(** The files a walk meets, each as [root / file] relative to the top,
    in the order the two nested loops [for root, dirs, files in
    os.walk(top): for file in files:] visit them. *)
Definition walk_files (n : node) : list Path.t :=
  flat_map (fun '(root, _, files) => map (fun f => root ++ [f]) files)
           (walk [] n).

(** [p] names a regular file below [n]. *)
Inductive file_at : node -> Path.t -> Prop :=
| file_here es name content :
    In (name, File content) es -> file_at (Dir es) [name]
| file_below es name sub p :
    In (name, Dir sub) es -> file_at (Dir sub) p ->
    file_at (Dir es) (name :: p).

(** No directory lists two entries of the same name. *)
Fixpoint wf (n : node) : bool :=
  match n with
  | File _ => true
  | Dir es =>
      bool_decide (NoDup (map fst es)) && forallb (fun e => wf (snd e)) es
  end.

(** The content of the regular file that [p] names below [n] *)
Definition read (n : node) (p : Path.t) : option string :=
  match find n p with
  | Some (File content) => Some content
  | _ => None
  end.

End Tree.

(** ** Exceptions, the world, and the monad of the processor *)

Inductive exn : Type :=
| FileNotFoundError (msg : string)
| RuntimeError (msg : string)
| ValueError (msg : string)
| FileExistsError (msg : string)
| NotADirectoryError (msg : string)
| IsADirectoryError (msg : string)
| PermissionError (msg : string)
| UnicodeDecodeError (msg : string).

(** [str(e)] *)
Definition exn_str (e : exn) : string :=
  match e with
  | FileNotFoundError msg | RuntimeError msg | ValueError msg
  | FileExistsError msg | NotADirectoryError msg | IsADirectoryError msg
  | PermissionError msg | UnicodeDecodeError msg => msg
  end.

(** [str(e)] for an [OSError] raised by the operating system on a path *)
Definition os_error (errno strerror : string) (path : Path.t) : string :=
  "[Errno " +:+ errno +:+ "] " +:+ strerror +:+ ": '" +:+ Path.str path +:+ "'".

Inductive result (A : Type) : Type :=
| Ok (a : A)
| Raise (e : exn).

Arguments Ok {A} a.
Arguments Raise {A} e.

(** What the processor changes or emits while it runs: the files of the
    output tree with their contents (directories are implicit, and writing
    does not fail here), the modes set by [chmod], the lines printed, and
    the template names handed to the rendering engine, in call order.  On
    this store the [mkdir] calls of the program have nothing to do and are
    left out; the file system on which they and the writes can fail is
    that of [Fs] further down. *)
Record world : Type := World {
  files : gmap (list string) string;
  modes : gmap (list string) Z;
  stdout : list string;
  requested : list string
}.

Definition empty_world : world := World ∅ ∅ [] [].

Definition M (A : Type) : Type := world -> result A * world.

Definition ret {A} (a : A) : M A := fun w => (Ok a, w).

Definition bind {A B} (m : M A) (k : A -> M B) : M B :=
  fun w =>
    match m w with
    | (Ok a, w') => k a w'
    | (Raise e, w') => (Raise e, w')
    end.

Definition raise {A} (e : exn) : M A := fun w => (Raise e, w).

(** [try: body except Exception as e: handler]; what [body] did before it
    raised stays done. *)
Definition try_except {A} (body : M A) (handler : exn -> M A) : M A :=
  fun w =>
    match body w with
    | (Ok a, w') => (Ok a, w')
    | (Raise e, w') => handler e w'
    end.

#[global] Instance M_ret : MRet M := @ret.
#[global] Instance M_bind : MBind M := fun A B k m => bind m k.

(** [print(line)] *)
Definition print (line : string) : M unit :=
  fun w => (Ok tt, World (files w) (modes w) (stdout w ++ [line]) (requested w)).

(** [with open(path, 'w') as f: f.write(content)] *)
Definition write_text (path : Path.t) (content : string) : M unit :=
  fun w => (Ok tt, World (<[path := content]> (files w)) (modes w) (stdout w) (requested w)).

(** [path.chmod(mode)] *)
Definition chmod (path : Path.t) (mode : Z) : M unit :=
  fun w => (Ok tt, World (files w) (<[path := mode]> (modes w)) (stdout w) (requested w)).

Definition note_request (template_path : string) : M unit :=
  fun w => (Ok tt, World (files w) (modes w) (stdout w) (requested w ++ [template_path])).

(** A [for] loop that appends to a list: [f] is the body, it gives the
    entry the pass appends. *)
Fixpoint for_each {A B} (f : A -> M B) (l : list A) : M (list B) :=
  match l with
  | [] => mret []
  | x :: l' =>
      y ← f x;
      ys ← for_each f l';
      mret (y :: ys)
  end.

(** ** The external collaborators *)

(** What [env.get_template(path)] followed by [template.render] on the
    variables comes to. *)
Inductive rendering : Type :=
| Rendered (text : string)
| TemplateNotFound
| EngineError (e : string).

(** What [json.load] comes to on the text of a file. *)
Inductive parsing : Type :=
| Parsed (v : value)
| JSONDecodeError (e : string).

Class Json : Type := {
  json_load : string -> parsing
}.

(** ** The processor

    A [TemplateProcessor] after [__init__] went through: the path of the
    templates directory, the directory found there, and the rendering
    environment built over it.  The output directory is taken to lie
    outside the templates directory, so that writing does not change the
    library while it is walked. *)

Record TemplateProcessor : Type := {
  templates_dir : Path.t;
  library : node;
  env : string -> variables -> rendering
}.

Definition marker : string := ".template".

Section Processor.

Context (self : TemplateProcessor).

(** [TemplateProcessor.process_template] *)
Definition process_template (template_path : string) (vars : variables) : M string :=
  note_request template_path;;
  match env self template_path vars with
  | Rendered text => mret text
  | TemplateNotFound =>
      raise (FileNotFoundError
               ("Template '" +:+ template_path +:+ "' not found in '"
                +:+ Path.str (templates_dir self) +:+ "'"))
  | EngineError e =>
      raise (RuntimeError
               ("Error processing template '" +:+ template_path +:+ "': " +:+ e))
  end.

(** [TemplateProcessor.get_template_files].  The project type is read as
    a relative path without [..] parts below the templates directory;
    [rel_path] is the file's path relative to the templates directory. *)
Definition get_template_files (project_type : string) : M (list string) :=
  let project_dir := Path.of_string project_type in
  match Tree.find (library self) project_dir with
  | None =>
      raise (ValueError
               ("Project type '" +:+ project_type +:+ "' not found in templates"))
  | Some top =>
      mret
        (flat_map
           (fun '(root, _, files) =>
              map (fun file => Str.join "/" (project_dir ++ root ++ [file]))
                  (filter (fun file => Str.endswith file marker = true) files))
           (Tree.walk [] top))
  end.

(** The output path of a project template, relative to the output
    directory, as [generate_project_files] computes it. *)
Definition rel_output_path (project_type template_file : string) : string :=
  Str.replace marker "" (Str.replace (project_type +:+ "/") "" template_file).

(** [output_path / rel_output_path] *)
Definition output_file (output_path : Path.t) (project_type template_file : string) : Path.t :=
  Path.join output_path
    (Path.of_string (rel_output_path project_type template_file)).

(** One pass of the loop over the project templates *)
Definition generate_one (output_path : Path.t) (project_type : string)
    (vars : variables) (template_file : string) : M string :=
  content ← process_template template_file vars;
  let output_file := output_file output_path project_type template_file in
  write_text output_file content;;
  print ("Generated: " +:+ Path.str output_file);;
  mret (Path.str output_file).

(** The destination of a shared file, given by its path [rel] below the
    shared directory *)
Definition shared_dest (output_path : Path.t) (rel : Path.t) : Path.t :=
  let rel_dest_path :=
    if Str.eqb (Path.suffix rel) marker then Path.drop_suffix rel else rel in
  Path.join output_path rel_dest_path.

(** [shutil.copy2(src, dest)], the source being a file of the library *)
Definition copy2 (src : Path.t) (dest : Path.t) : M unit :=
  match Tree.read (library self) src with
  | Some content => write_text dest content
  | None =>
      raise (FileNotFoundError
               ("No such file or directory: '"
                +:+ Path.str (templates_dir self ++ src) +:+ "'"))
  end.

(** The warning printed when a shared script does not render *)
Definition fallback_warning (src_file : Path.t) (e : exn) : string :=
  "Warning: Failed to process shared script " +:+ Path.str src_file
  +:+ " as template: " +:+ exn_str e +:+ ". Copying directly.".

(** One pass of the loops over the shared files *)
Definition copy_shared_one (output_path : Path.t) (vars : variables)
    (rel : Path.t) : M string :=
  let src_file := templates_dir self ++ "shared" :: rel in
  let dest_file := shared_dest output_path rel in
  let template_path_for_processing := Path.str ("shared" :: rel) in
  try_except
    (content ← process_template template_path_for_processing vars;
     write_text dest_file content;;
     print ("Processed shared file: " +:+ Path.str dest_file))
    (fun e =>
       (if Str.eqb (Path.suffix dest_file) ".sh"
        then print (fallback_warning src_file e)
        else mret tt);;
       copy2 ("shared" :: rel) dest_file;;
       print ("Copied shared file (fallback): " +:+ Path.str dest_file));;
  (if Str.eqb (Path.suffix dest_file) ".sh"
   then chmod dest_file 493
   else mret tt);;
  mret (Path.str dest_file).

(** [TemplateProcessor._copy_shared_files] *)
Definition _copy_shared_files (output_path : Path.t) (vars : variables) : M (list string) :=
  match Tree.find (library self) ["shared"] with
  | None => mret []
  | Some shared_dir =>
      for_each (copy_shared_one output_path vars) (Tree.walk_files shared_dir)
  end.

(** [TemplateProcessor.generate_project_files] *)
Definition generate_project_files (output_dir project_type : string)
    (vars : variables) (copy_shared : bool) : M (list string) :=
  let output_path := Path.of_string output_dir in
  template_files ← get_template_files project_type;
  generated_files ← for_each (generate_one output_path project_type vars) template_files;
  if copy_shared
  then shared_files ← _copy_shared_files output_path vars;
       mret (generated_files ++ shared_files)
  else mret generated_files.

End Processor.

(** What [open(config_file, 'r', encoding='utf-8')] and reading the whole
    file come to: the file is not there, [open] fails because the path is a
    directory or may not be read, the bytes are not UTF-8, or the text is
    read. *)
Inductive reading : Type :=
| NoSuchFile
| IsDirectory
| NoPermission
| NotUtf8 (e : string)
| Text (text : string).

(** [TemplateProcessor.load_variables_from_file]; [disk] tells what reading
    each path comes to.  Only [FileNotFoundError] and [json.JSONDecodeError]
    are caught. *)
Definition load_variables_from_file `{Json} (disk : string -> reading)
    (config_file : string) : M value :=
  match disk config_file with
  | NoSuchFile =>
      print ("Warning: Configuration file '" +:+ config_file
             +:+ "' not found. Using defaults.");;
      mret (VDict ∅)
  | IsDirectory =>
      raise (IsADirectoryError
               ("[Errno 21] Is a directory: '" +:+ config_file +:+ "'"))
  | NoPermission =>
      raise (PermissionError
               ("[Errno 13] Permission denied: '" +:+ config_file +:+ "'"))
  | NotUtf8 e => raise (UnicodeDecodeError e)
  | Text text =>
      match json_load text with
      | Parsed v => mret v
      | JSONDecodeError e =>
          print ("Error: Invalid JSON in '" +:+ config_file +:+ "': " +:+ e);;
          mret (VDict ∅)
      end
  end.

(** ** The claims in the words of the specification *)

(** The validity rule of the identifier filter: the string is empty, or it
    holds no hyphen and starts with a letter or an underscore. *)
Fixpoint has_hyphen (s : string) : bool :=
  match s with
  | EmptyString => false
  | String c s' => Str.ascii_eqb c "-"%char || has_hyphen s'
  end.

Definition valid_identifier (s : string) : bool :=
  match s with
  | EmptyString => true
  | String _ _ => negb (has_hyphen s) && starts_alpha_or_underscore s
  end.

(** Every hyphen replaced by an underscore, character by character *)
Fixpoint hyphens_to_underscores (s : string) : string :=
  match s with
  | EmptyString => EmptyString
  | String c s' =>
      String (if Str.ascii_eqb c "-"%char then "_"%char else c)
             (hyphens_to_underscores s')
  end.

(** The identifier filter as the specification words it. *)
Definition identifier_filter_spec (s : string) : string :=
  match s with
  | EmptyString => EmptyString
  | String _ _ =>
      let r := hyphens_to_underscores s in
      if starts_alpha_or_underscore r then r else String "_"%char r
  end.

(** * Properties *)

(** ** Variable merging *)

Lemma lookup_update (result var_dict : variables) (k : string) :
  Dict.update result var_dict !! k =
  match var_dict !! k with
  | Some v => Some v
  | None => result !! k
  end.
Proof.
  unfold Dict.update.
  destruct (var_dict !! k) as [v|] eqn:Hk.
  - by apply lookup_union_Some_l.
  - by rewrite lookup_union_r.
Qed.

Lemma merge_variables_snoc (ds : list variables) (d : variables) :
  merge_variables (ds ++ [d]) = Dict.update (merge_variables ds) d.
Proof. unfold merge_variables. by rewrite fold_left_app. Qed.

Lemma merge_variables_three (D C O : variables) (k : string) :
  merge_variables [D; C; O] !! k =
  match O !! k with
  | Some v => Some v
  | None => match C !! k with
            | Some v => Some v
            | None => D !! k
            end
  end.
Proof.
  change [D; C; O] with ((([] ++ [D]) ++ [C]) ++ [O]).
  rewrite !merge_variables_snoc, !lookup_update.
  destruct (O !! k), (C !! k), (D !! k); try done.
Qed.

Lemma proper_deep_merge_differs (mc mo : variables) :
  mc ≠ ∅ -> mc ##ₘ mo -> VDict mo ≠ VDict (mo ∪ mc).
Proof.
  intros Hne Hdisj Heq.
  destruct (map_choose mc Hne) as (i & x & Hi).
  assert (Hmo : mo !! i = None) by (eapply map_disjoint_Some_l; eauto).
  assert (Hu : (mo ∪ mc) !! i = Some x) by (by rewrite lookup_union_r).
  injection Heq as Heq. rewrite <- Heq in Hu. congruence.
Qed.

(** C1. Merging defaults [D], configuration [C] and overrides [O] is a
    shallow overwrite by precedence: a key of all three gets the value of
    [O]; a key of [D] and [C] only gets the value of [C]; and when [C] and
    [O] both give nested mappings at the key, the result is the mapping of
    [O] itself, which, for disjoint sub-keys and a non-empty mapping of
    [C], is not the deep merge of the two. *)
Theorem merge_variables_shallow_precedence (D C O : variables) (k : string) :
  (forall vd vc vo,
      D !! k = Some vd -> C !! k = Some vc -> O !! k = Some vo ->
      merge_variables [D; C; O] !! k = Some vo)
  /\ (forall vd vc,
         D !! k = Some vd -> C !! k = Some vc -> O !! k = None ->
         merge_variables [D; C; O] !! k = Some vc)
  /\ (forall mc mo,
         C !! k = Some (VDict mc) -> O !! k = Some (VDict mo) ->
         merge_variables [D; C; O] !! k = Some (VDict mo)
         /\ (mc ≠ ∅ -> mc ##ₘ mo ->
             merge_variables [D; C; O] !! k ≠ Some (VDict (mo ∪ mc)))).
Proof.
  split; [|split].
  - intros vd vc vo _ _ HO. by rewrite merge_variables_three, HO.
  - intros vd vc _ HC HO. by rewrite merge_variables_three, HO, HC.
  - intros mc mo _ HO. rewrite merge_variables_three, HO. split; [done|].
    intros Hne Hdisj Heq.
    apply (proper_deep_merge_differs mc mo Hne Hdisj). congruence.
Qed.

Lemma merge_variables_shallow_precedence_witness :
  let D : variables :=
    {[ "project_author" := VStr "Developer";
       "optional_libraries" := VDict {[ "fmt" := VBool true ]} ]} in
  let C : variables :=
    {[ "project_author" := VStr "Ada";
       "optional_libraries" := VDict {[ "boost" := VBool true ]} ]} in
  let O : variables :=
    {[ "optional_libraries" := VDict {[ "openssl" := VBool true ]} ]} in
  merge_variables [D; C; O] !! "optional_libraries"
    = Some (VDict {[ "openssl" := VBool true ]})
  /\ merge_variables [D; C; O] !! "optional_libraries"
       ≠ Some (VDict ({[ "openssl" := VBool true ]} ∪ {[ "boost" := VBool true ]}))
  /\ merge_variables [D; C; O] !! "project_author" = Some (VStr "Ada").
Proof.
  intros D C O.
  destruct (merge_variables_shallow_precedence D C O "optional_libraries")
    as (Hall & _ & Hnested).
  destruct (merge_variables_shallow_precedence D C O "project_author")
    as (_ & Honly & _).
  split; [|split].
  - apply (Hall (VDict {[ "fmt" := VBool true ]})
                (VDict {[ "boost" := VBool true ]})); reflexivity.
  - refine (proj2 (Hnested {[ "boost" := VBool true ]}
                           {[ "openssl" := VBool true ]} _ _) _ _);
      try reflexivity.
    + intros Hempty.
      apply (f_equal (fun m : variables => m !! "boost")) in Hempty.
      discriminate Hempty.
    + apply map_disjoint_singleton_l_2. reflexivity.
  - apply (Honly (VStr "Developer") (VStr "Ada")); reflexivity.
Defined.

(** ** The default filter *)

(** C4, as the code has it. The default filter gives the fallback when the
    value is [None] or the empty string, and gives the value back unchanged
    in every other case; the undefined value that stands for an absent
    variable is such a case and comes back as it is. *)
Theorem default_filter_fallback (v fallback : value) :
  (v = VNone \/ v = VStr "" -> _default_filter v fallback = fallback)
  /\ (v ≠ VNone -> v ≠ VStr "" -> _default_filter v fallback = v)
  /\ _default_filter VUndefined fallback = VUndefined
  /\ _default_filter VNone (VStr "x") = VStr "x"
  /\ _default_filter (VStr "") (VStr "x") = VStr "x"
  /\ _default_filter (VStr "y") (VStr "x") = VStr "y".
Proof.
  split; [|split; [|repeat split]].
  - intros [-> | ->]; reflexivity.
  - intros HNone Hempty. unfold _default_filter.
    destruct v as [ | | | | s | | | ]; try reflexivity; [congruence|].
    destruct s; [congruence | reflexivity].
Qed.

Lemma default_filter_fallback_witness :
  _default_filter (VStr "") (VStr "MyProject") = VStr "MyProject"
  /\ _default_filter (VBool false) (VStr "MyProject") = VBool false.
Proof.
  destruct (default_filter_fallback (VStr "") (VStr "MyProject")) as (Hfb & _).
  destruct (default_filter_fallback (VBool false) (VStr "MyProject"))
    as (_ & Hkeep & _).
  split.
  - apply Hfb. right. reflexivity.
  - apply Hkeep; discriminate.
Defined.

(** For an absent variable the filter does not give the fallback: the
    undefined value is neither [None] nor equal to the empty string. *)
Lemma default_filter_keeps_undefined :
  _default_filter VUndefined (VStr "x") = VUndefined
  /\ _default_filter VUndefined (VStr "x") ≠ VStr "x".
Proof. split; [reflexivity | discriminate]. Qed.

(** ** The identifier filter *)

Lemma ascii_eqb_sym (a b : ascii) : Str.ascii_eqb a b = Str.ascii_eqb b a.
Proof. unfold Str.ascii_eqb. repeat case_bool_decide; congruence. Qed.

Lemma replace_hyphen_chars (s : string) :
  Str.replace "-" "_" s = hyphens_to_underscores s.
Proof.
  unfold Str.replace.
  induction s as [|c s IH]; [reflexivity|].
  cbn [Str.replace_scan Str.startswith hyphens_to_underscores String.length].
  rewrite (ascii_eqb_sym "-" c).
  destruct (Str.ascii_eqb c "-") eqn:Hc.
  - destruct s; cbn [andb Nat.sub String.app]; rewrite IH; reflexivity.
  - cbn [andb]. by rewrite IH.
Qed.

Lemma hyphens_to_underscores_clean (s : string) :
  has_hyphen (hyphens_to_underscores s) = false.
Proof.
  induction s as [|c s IH]; [reflexivity|].
  cbn [hyphens_to_underscores has_hyphen]. rewrite IH.
  destruct (Str.ascii_eqb c "-") eqn:Hc; [reflexivity|].
  by rewrite Hc.
Qed.

Lemma hyphens_to_underscores_id (s : string) :
  has_hyphen s = false -> hyphens_to_underscores s = s.
Proof.
  induction s as [|c s IH]; [reflexivity|].
  cbn [has_hyphen hyphens_to_underscores].
  intros [Hc Hs]%orb_false_iff. by rewrite Hc, IH.
Qed.

Lemma identifier_filter_refines (s : string) :
  _to_cpp_identifier_filter s = identifier_filter_spec s.
Proof.
  destruct s as [|c s]; [reflexivity|].
  unfold _to_cpp_identifier_filter, identifier_filter_spec.
  rewrite replace_hyphen_chars.
  cbn [hyphens_to_underscores].
  destruct (starts_alpha_or_underscore _); reflexivity.
Qed.

Lemma identifier_filter_spec_valid (s : string) :
  valid_identifier (identifier_filter_spec s) = true.
Proof.
  destruct s as [|c s]; [reflexivity|].
  unfold identifier_filter_spec.
  pose proof (hyphens_to_underscores_clean (String c s)) as Hclean.
  destruct (starts_alpha_or_underscore (hyphens_to_underscores (String c s)))
    eqn:Hstart.
  - cbn [hyphens_to_underscores] in *. unfold valid_identifier.
    by rewrite Hclean, Hstart.
  - unfold valid_identifier.
    change (has_hyphen (String "_" ?r)) with (has_hyphen r).
    cbn [has_hyphen]. change (Str.ascii_eqb "_" "-") with false.
    cbn [orb]. rewrite Hclean. reflexivity.
Qed.

Lemma identifier_filter_fixes_valid (x : string) :
  valid_identifier x = true -> _to_cpp_identifier_filter x = x.
Proof.
  rewrite identifier_filter_refines.
  destruct x as [|c x]; [reflexivity|].
  unfold valid_identifier, identifier_filter_spec.
  intros [Hclean%negb_true_iff Hstart]%andb_true_iff.
  rewrite (hyphens_to_underscores_id _ Hclean). by rewrite Hstart.
Qed.

(** C5. The identifier filter replaces every hyphen by an underscore and
    then puts one underscore in front when the first character is neither a
    letter nor an underscore; the empty string comes back unchanged; the
    result always meets the validity rule. *)
Theorem identifier_filter_correct (s : string) :
  _to_cpp_identifier_filter s = identifier_filter_spec s
  /\ valid_identifier (_to_cpp_identifier_filter s) = true
  /\ _to_cpp_identifier_filter "my-project" = "my_project"
  /\ _to_cpp_identifier_filter "123abc" = "_123abc"
  /\ _to_cpp_identifier_filter "" = "".
Proof.
  split; [apply identifier_filter_refines|].
  split; [|repeat split].
  rewrite identifier_filter_refines. apply identifier_filter_spec_valid.
Qed.

(** C6. On an input that already meets the validity rule, applying the
    identifier filter twice is the same as applying it once. *)
Theorem identifier_filter_idempotent_on_valid (x : string) :
  valid_identifier x = true ->
  _to_cpp_identifier_filter (_to_cpp_identifier_filter x)
  = _to_cpp_identifier_filter x.
Proof.
  intros Hvalid. by rewrite !(identifier_filter_fixes_valid x Hvalid).
Qed.

Lemma identifier_filter_idempotent_on_valid_witness :
  valid_identifier "my_project" = true
  /\ _to_cpp_identifier_filter (_to_cpp_identifier_filter "my_project")
     = _to_cpp_identifier_filter "my_project".
Proof.
  split; [reflexivity|].
  apply (identifier_filter_idempotent_on_valid "my_project"). reflexivity.
Defined.

(** ** Output paths of project templates *)

(** A library whose console category nests a directory that is again
    called [console]. *)
Definition nested_console_library : node :=
  Dir [("console",
        Dir [("src",
              Dir [("console", Dir [("main.cpp.template", File "int main() {}")]);
                   ("main.cpp.template", File "int main() {}")])])].

Definition nested_console_processor : TemplateProcessor :=
  {| templates_dir := ["templates"];
     library := nested_console_library;
     env := fun template_path _ => Rendered template_path |}.

(** C2. The output path of [console/src/main.cpp.template] is
    [src/main.cpp]; but the derivation takes out every occurrence of the
    category segment and of the marker, not the leading and the trailing
    one only: the template [console/src/console/main.cpp.template], which
    discovery does return, is sent to [src/main.cpp] as well, and the file
    written for it lands there. *)
Theorem rel_output_path_strips_every_occurrence :
  rel_output_path "console" "console/src/main.cpp.template" = "src/main.cpp"
  /\ fst (get_template_files nested_console_processor "console" empty_world)
     = Ok ["console/src/main.cpp.template";
           "console/src/console/main.cpp.template"]
  /\ rel_output_path "console" "console/src/console/main.cpp.template"
     = "src/main.cpp"
  /\ rel_output_path "console" "console/src/console/main.cpp.template"
     ≠ "src/console/main.cpp"
  /\ rel_output_path "console" "console/doc.template.d/notes.md.template"
     = "doc.d/notes.md"
  /\ fst (generate_project_files nested_console_processor "out" "console" ∅
            false empty_world)
     = Ok ["out/src/main.cpp"; "out/src/main.cpp"].
Proof. repeat split; try reflexivity. discriminate. Qed.

(** Where the derivation does what the specification says: *)

(** [old] occurs somewhere in [s]. *)
Fixpoint occurs (old s : string) : bool :=
  Str.startswith s old
  || match s with
     | EmptyString => false
     | String _ s' => occurs old s'
     end.

(** The marker occurs in [stem +:+ marker] at the very end only. *)
Fixpoint marker_only_last (stem : string) : bool :=
  match stem with
  | EmptyString => true
  | String _ stem' =>
      negb (Str.startswith (stem +:+ marker) marker) && marker_only_last stem'
  end.

Lemma append_cons (c : ascii) (p s : string) :
  String c p +:+ s = String c (p +:+ s).
Proof. reflexivity. Qed.

Lemma append_assoc (p q s : string) : (p +:+ q) +:+ s = p +:+ q +:+ s.
Proof.
  induction p as [|c p IH]; [reflexivity|].
  by rewrite !append_cons, IH.
Qed.

Lemma startswith_app (p s : string) : Str.startswith (p +:+ s) p = true.
Proof.
  induction p as [|c p IH]; [by destruct s|].
  rewrite append_cons. cbn [Str.startswith]. rewrite IH.
  unfold Str.ascii_eqb. by rewrite bool_decide_eq_true_2.
Qed.

Lemma replace_scan_pending (old new p s : string) :
  Str.replace_scan old new (String.length p) (p +:+ s)
  = Str.replace_scan old new 0 s.
Proof.
  induction p as [|c p IH]; [by destruct s|].
  rewrite append_cons. cbn [String.length Str.replace_scan]. exact IH.
Qed.

Lemma replace_scan_prefix (c : ascii) (old new s : string) :
  Str.replace_scan (String c old) new 0 (String c old +:+ s)
  = new +:+ Str.replace_scan (String c old) new 0 s.
Proof.
  pose proof (startswith_app (String c old) s) as Hstart.
  change (String c old +:+ s) with (String c (old +:+ s)) in *.
  cbn [Str.replace_scan]. rewrite Hstart.
  cbn [String.length Nat.sub]. rewrite Nat.sub_0_r.
  by rewrite replace_scan_pending.
Qed.

Lemma replace_scan_absent (old new s : string) :
  occurs old s = false -> Str.replace_scan old new 0 s = s.
Proof.
  induction s as [|c s IH]; [reflexivity|].
  cbn [occurs Str.replace_scan]. intros [Hhere Hlater]%orb_false_iff.
  by rewrite Hhere, IH.
Qed.

Lemma replace_marker_last (stem : string) :
  marker_only_last stem = true ->
  Str.replace_scan marker "" 0 (stem +:+ marker) = stem.
Proof.
  induction stem as [|c stem IH]; [reflexivity|].
  cbn [marker_only_last]. intros [Hhere%negb_true_iff Hlater]%andb_true_iff.
  change (String c stem +:+ marker) with (String c (stem +:+ marker)) in *.
  cbn [Str.replace_scan]. by rewrite Hhere, IH.
Qed.

(** X9. For a template path [category/stem.template] in which the category
    segment and the marker occur nowhere else, the output path is [stem]. *)
Lemma rel_output_path_single_occurrence (project_type stem : string) :
  occurs (project_type +:+ "/") (stem +:+ marker) = false ->
  marker_only_last stem = true ->
  rel_output_path project_type (project_type +:+ "/" +:+ stem +:+ marker) = stem.
Proof.
  intros Habsent Hlast. unfold rel_output_path.
  assert (Hfirst :
            Str.replace (project_type +:+ "/") ""
                        (project_type +:+ "/" +:+ stem +:+ marker)
            = stem +:+ marker).
  { rewrite <- (append_assoc project_type "/" (stem +:+ marker)).
    revert Habsent.
    destruct (project_type +:+ "/") as [|c old] eqn:Hold;
      [by destruct project_type|].
    intros Habsent. unfold Str.replace.
    rewrite replace_scan_prefix.
    by apply replace_scan_absent. }
  rewrite Hfirst. by apply replace_marker_last.
Qed.

(** ** Template discovery *)

(** Induction over a directory tree, with the hypothesis for every entry
    of a directory. *)
Fixpoint node_induction (P : node -> Prop)
    (HFile : forall content, P (File content))
    (HDir : forall es, List.Forall (fun e => P (snd e)) es -> P (Dir es))
    (n : node) {struct n} : P n :=
  match n with
  | File content => HFile content
  | Dir es =>
      HDir es
        ((fix entries (l : list (string * node)) : List.Forall (fun e => P (snd e)) l :=
            match l with
            | [] => @List.Forall_nil _ (fun e => P (snd e))
            | e :: l' =>
                @List.Forall_cons _ (fun e => P (snd e)) e l'
                  (match e return P (snd e) with
                   | (_, child) => node_induction P HFile HDir child
                   end)
                  (entries l')
            end) es)
  end.

(** The files met by a walk that starts at [root] *)
Definition walk_paths (root : Path.t) (n : node) : list Path.t :=
  flat_map (fun '(r, _, files) => map (fun f => r ++ [f]) files)
           (Tree.walk root n).

Lemma flat_map_flat_map {A B C} (g : B -> list C) (h : A -> list B) (l : list A) :
  flat_map g (flat_map h l) = flat_map (fun x => flat_map g (h x)) l.
Proof.
  induction l as [|x l IH]; [reflexivity|].
  cbn [flat_map]. by rewrite flat_map_app, IH.
Qed.

Lemma walk_paths_dir (root : Path.t) (es : list (string * node)) :
  walk_paths root (Dir es) =
  map (fun f => root ++ [f]) (Tree.filenames es)
  ++ flat_map (fun e => walk_paths (root ++ [fst e]) (snd e)) es.
Proof.
  unfold walk_paths. cbn [Tree.walk flat_map].
  by rewrite flat_map_flat_map.
Qed.

Lemma in_filenames (f : string) (es : list (string * node)) :
  In f (Tree.filenames es) <-> exists content, In (f, File content) es.
Proof.
  unfold Tree.filenames. rewrite in_map_iff. split.
  - intros ([name n] & <- & Hin).
    apply list_elem_of_In, list_elem_of_filter in Hin as [Hfile Hin].
    destruct n as [content|]; [|discriminate].
    exists content. by apply list_elem_of_In.
  - intros (content & Hin). exists (f, File content). split; [done|].
    apply list_elem_of_In, list_elem_of_filter. split; [done|].
    by apply list_elem_of_In.
Qed.

Lemma in_walk_paths (n : node) :
  forall root p,
    In p (walk_paths root n) <-> exists q, p = root ++ q /\ Tree.file_at n q.
Proof.
  induction n as [content|es IH] using node_induction; intros root p.
  - split; [intros []|]. intros (q & _ & Hq). inversion Hq.
  - rewrite walk_paths_dir, in_app_iff, in_map_iff, in_flat_map. split.
    + intros [(f & <- & Hf) | ([name child] & Hin & Hp)].
      * apply in_filenames in Hf as (content & Hf).
        exists [f]. split; [done|]. by econstructor.
      * rewrite List.Forall_forall in IH.
        apply (IH _ Hin) in Hp as (q & -> & Hq). cbn [fst snd] in *.
        exists (name :: q). split; [by rewrite <- app_assoc|].
        destruct child as [|sub]; [inversion Hq|]. by econstructor.
    + intros (q & -> & Hq). inversion Hq as [es' name content Hin|es' name sub q' Hin Hq']; subst.
      * left. exists name. split; [done|]. apply in_filenames. eauto.
      * right. exists (name, Dir sub). split; [done|].
        rewrite List.Forall_forall in IH. apply (IH _ Hin).
        exists q'. split; [|done]. cbn [fst]. by rewrite <- app_assoc.
Qed.

(** The files below [top] that discovery keeps: those of a walk whose
    file name ends with the marker. *)
Definition ends_with_marker (p : Path.t) : Prop :=
  exists file, last p = Some file /\ Str.endswith file marker = true.

Definition discovered (top : node) : list Path.t :=
  flat_map
    (fun '(r, _, files) =>
       map (fun f => r ++ [f])
           (filter (fun f => Str.endswith f marker = true) files))
    (Tree.walk [] top).

Lemma in_discovered_walk (triples : list (Path.t * list string * list string)) (p : Path.t) :
  In p (flat_map
          (fun '(r, _, files) =>
             map (fun f => r ++ [f])
                 (filter (fun f => Str.endswith f marker = true) files))
          triples)
  <-> In p (flat_map (fun '(r, _, files) => map (fun f => r ++ [f]) files) triples)
      /\ ends_with_marker p.
Proof.
  rewrite !in_flat_map. split.
  - intros ([[r dirs] files] & Hin & Hp).
    apply in_map_iff in Hp as (f & <- & Hf).
    apply list_elem_of_In, list_elem_of_filter in Hf as [Hend Hf].
    split.
    + exists (r, dirs, files). split; [done|].
      apply in_map_iff. exists f. split; [done|]. by apply list_elem_of_In.
    + exists f. split; [apply last_snoc | done].
  - intros [([[r dirs] files] & Hin & Hp) (file & Hlast & Hend)].
    apply in_map_iff in Hp as (f & <- & Hf).
    rewrite last_snoc in Hlast. injection Hlast as ->.
    exists (r, dirs, files). split; [done|].
    apply in_map_iff. exists file. split; [done|].
    apply list_elem_of_In, list_elem_of_filter. split; [done|].
    by apply list_elem_of_In.
Qed.

Lemma in_discovered (top : node) (p : Path.t) :
  In p (discovered top) <-> Tree.file_at top p /\ ends_with_marker p.
Proof.
  unfold discovered. rewrite in_discovered_walk.
  fold (walk_paths [] top). rewrite in_walk_paths. split.
  - intros [(q & -> & Hq) Hend]. done.
  - intros [Hq Hend]. split; [|done]. by exists p.
Qed.

Lemma discovered_names (project_dir : Path.t)
    (triples : list (Path.t * list string * list string)) :
  flat_map
    (fun '(root, _, files) =>
       map (fun file => Str.join "/" (project_dir ++ root ++ [file]))
           (filter (fun file => Str.endswith file marker = true) files))
    triples
  = map (fun p => Str.join "/" (project_dir ++ p))
        (flat_map
           (fun '(r, _, files) =>
              map (fun f => r ++ [f])
                  (filter (fun f => Str.endswith f marker = true) files))
           triples).
Proof.
  induction triples as [|[[r dirs] files] triples IH]; [reflexivity|].
  cbn [flat_map]. by rewrite map_app, IH, map_map.
Qed.

Lemma get_template_files_found (self : TemplateProcessor)
    (project_type : string) (top : node) (w : world) :
  Tree.find (library self) (Path.of_string project_type) = Some top ->
  get_template_files self project_type w =
  (Ok (map (fun p => Str.join "/" (Path.of_string project_type ++ p))
           (discovered top)), w).
Proof.
  intros Hfind. unfold get_template_files. rewrite Hfind.
  by rewrite discovered_names.
Qed.

(** C7. Discovery for a category fails, with the error that says the
    project type was not found, exactly when the category root does not
    exist below the templates directory.  When it exists, discovery
    returns one entry per kept path, the path joined below the category,
    and a file below the category root is kept if and only if its file
    name ends with the marker. *)
Theorem get_template_files_discovers (self : TemplateProcessor)
    (project_type : string) (w : world) :
  let project_dir := Path.of_string project_type in
  (Tree.find (library self) project_dir = None
   <-> exists msg, get_template_files self project_type w = (Raise (ValueError msg), w))
  /\ (forall e w', get_template_files self project_type w = (Raise e, w') ->
                   Tree.find (library self) project_dir = None)
  /\ (forall top,
         Tree.find (library self) project_dir = Some top ->
         exists kept,
           get_template_files self project_type w
           = (Ok (map (fun p => Str.join "/" (project_dir ++ p)) kept), w)
           /\ (forall p, In p kept -> Tree.file_at top p)
           /\ (forall p, Tree.file_at top p ->
                         (In p kept <-> ends_with_marker p))).
Proof.
  intros project_dir. split; [|split].
  - unfold get_template_files. fold project_dir.
    destruct (Tree.find (library self) project_dir) as [top|]; split.
    + discriminate.
    + intros (msg & Hraise). discriminate Hraise.
    + intros _. eexists. reflexivity.
    + done.
  - intros e w'. unfold get_template_files. fold project_dir.
    destruct (Tree.find (library self) project_dir) as [top|]; [|done].
    discriminate.
  - intros top Hfind. exists (discovered top). split; [|split].
    + by apply get_template_files_found.
    + intros p Hp. by apply in_discovered in Hp as [Hp _].
    + intros p Hp. rewrite in_discovered. tauto.
Qed.

(** A small template library, an engine over it, and a parser, to run the
    processor on. *)
Definition sample_library : node :=
  Dir [("console",
        Dir [("CMakeLists.txt.template", File "project({{ project_name }})");
             ("README.md", File "read me");
             ("src", Dir [("main.cpp.template", File "int main() {}")])]);
       ("shared",
        Dir [("build.sh.template", File "cmake --build {{ build_dir }");
             ("cmake", Dir [("Warnings.cmake", File "add_compile_options(-Wall)")]);
             ("run.sh", File "exec ./app")])].

Definition sample_engine (template_path : string) (vars : variables) : rendering :=
  if Str.endswith template_path ".sh.template"
  then EngineError "unexpected '}'"
  else if Str.endswith template_path ".cmake"
       then TemplateNotFound
       else Rendered ("rendered " +:+ template_path).

Definition sample_processor : TemplateProcessor :=
  {| templates_dir := ["templates"];
     library := sample_library;
     env := sample_engine |}.

Definition sample_json : Json :=
  {| json_load text :=
       if Str.eqb text "{}" then Parsed (VDict ∅)
       else JSONDecodeError "Expecting value: line 1 column 1 (char 0)" |}.

Lemma get_template_files_discovers_witness :
  (exists msg,
      get_template_files sample_processor "library" empty_world
      = (Raise (ValueError msg), empty_world))
  /\ exists kept,
      get_template_files sample_processor "console" empty_world
      = (Ok (map (fun p => Str.join "/" (["console"] ++ p)) kept), empty_world)
      /\ (forall p, In p kept ->
                    Tree.file_at
                      (Dir [("CMakeLists.txt.template", File "project({{ project_name }})");
                            ("README.md", File "read me");
                            ("src", Dir [("main.cpp.template", File "int main() {}")])])
                      p)
      /\ (forall p,
             Tree.file_at
               (Dir [("CMakeLists.txt.template", File "project({{ project_name }})");
                     ("README.md", File "read me");
                     ("src", Dir [("main.cpp.template", File "int main() {}")])])
               p ->
             (In p kept <-> ends_with_marker p)).
Proof.
  split.
  - apply (proj1 (proj1 (get_template_files_discovers
                           sample_processor "library" empty_world))).
    reflexivity.
  - apply (proj2 (proj2 (get_template_files_discovers
                           sample_processor "console" empty_world))).
    reflexivity.
Defined.

(** ** Loading the configuration file *)

Lemma merge_variables_empty_config (vars : variables) :
  merge_variables [vars; ∅] = vars.
Proof.
  unfold merge_variables, Dict.update. cbn [fold_left].
  by rewrite (left_id_L ∅ (∪)), (right_id_L ∅ (∪)).
Qed.

(** C9, as the code has it. A missing configuration file gives the empty
    mapping and one warning line; a file whose text does not parse gives
    the empty mapping and one line that holds the parse error; merging the
    empty mapping over the variables leaves them as they were, so
    generation goes on with them.  The loader raises into its caller
    exactly when the path is a directory, may not be read, or holds bytes
    that are not UTF-8, and then it has printed nothing. *)
Theorem load_variables_from_file_degrades `{Json}
    (disk : string -> reading) (config_file : string) (w : world) :
  (disk config_file = NoSuchFile ->
   load_variables_from_file disk config_file w
   = (Ok (VDict ∅),
      World (files w) (modes w)
            (stdout w ++ ["Warning: Configuration file '" +:+ config_file
                          +:+ "' not found. Using defaults."])
            (requested w)))
  /\ (forall text e,
         disk config_file = Text text ->
         json_load text = JSONDecodeError e ->
         load_variables_from_file disk config_file w
         = (Ok (VDict ∅),
            World (files w) (modes w)
                  (stdout w ++ ["Error: Invalid JSON in '" +:+ config_file
                                +:+ "': " +:+ e])
                  (requested w)))
  /\ (forall vars, merge_variables [vars; ∅] = vars)
  /\ ((exists e w', load_variables_from_file disk config_file w = (Raise e, w'))
      <-> (disk config_file = IsDirectory \/ disk config_file = NoPermission
           \/ exists msg, disk config_file = NotUtf8 msg))
  /\ (forall e w',
         load_variables_from_file disk config_file w = (Raise e, w') -> w' = w).
Proof.
  unfold load_variables_from_file.
  split; [|split; [|split; [|split]]].
  - by intros ->.
  - by intros text e -> ->.
  - apply merge_variables_empty_config.
  - destruct (disk config_file) as [ | | |msg|text] eqn:Hread.
    + split; [by intros (e & w' & [=]) | ]. intros [? | [? | [? ?]]]; done.
    + split; [by left | by eexists _, _].
    + split; [by right; left | by eexists _, _].
    + split; [by right; right; eexists | by eexists _, _].
    + split; [|intros [? | [? | [? ?]]]; done].
      destruct (json_load text); by intros (e' & w' & [=]).
  - intros e w'. destruct (disk config_file) as [ | | |msg|text].
    + by intros [=].
    + by intros [= _ <-].
    + by intros [= _ <-].
    + by intros [= _ <-].
    + destruct (json_load text); by intros [=].
Qed.

Lemma load_variables_from_file_degrades_witness :
  load_variables_from_file (H := sample_json) (fun _ => NoSuchFile)
    "project.json" empty_world
  = (Ok (VDict ∅),
     World ∅ ∅
           ["Warning: Configuration file 'project.json' not found. Using defaults."]
           [])
  /\ load_variables_from_file (H := sample_json) (fun _ => Text "{ not json")
       "project.json" empty_world
     = (Ok (VDict ∅),
        World ∅ ∅
              ["Error: Invalid JSON in 'project.json': Expecting value: line 1 column 1 (char 0)"]
              []).
Proof.
  split.
  - apply (proj1 (load_variables_from_file_degrades
                    (H := sample_json) (fun _ => NoSuchFile)
                    "project.json" empty_world)).
    reflexivity.
  - apply (proj1 (proj2 (load_variables_from_file_degrades
                           (H := sample_json) (fun _ => Text "{ not json")
                           "project.json" empty_world))
             "{ not json" "Expecting value: line 1 column 1 (char 0)");
      reflexivity.
Defined.

(** The loader does raise: a configuration file that is not UTF-8 text
    sends [UnicodeDecodeError] to the caller, and so does a path that is a
    directory with [IsADirectoryError]. *)
Lemma load_variables_from_file_raises :
  load_variables_from_file (H := sample_json)
    (fun _ => NotUtf8 "'utf-8' codec can't decode byte 0xff in position 0: invalid start byte")
    "project.json" empty_world
  = (Raise (UnicodeDecodeError
              "'utf-8' codec can't decode byte 0xff in position 0: invalid start byte"),
     empty_world)
  /\ load_variables_from_file (H := sample_json) (fun _ => IsDirectory)
       "configs" empty_world
     = (Raise (IsADirectoryError "[Errno 21] Is a directory: 'configs'"),
        empty_world).
Proof. split; reflexivity. Qed.

(** ** Running the processor *)

Ltac run := unfold mbind, M_bind, mret, M_ret, bind, ret, raise in *.

Lemma for_each_cons {A B} (f : A -> M B) (x : A) (l : list A) (w : world) :
  for_each f (x :: l) w =
  match f x w with
  | (Ok y, w1) =>
      match for_each f l w1 with
      | (Ok ys, w2) => (Ok (y :: ys), w2)
      | (Raise e, w2) => (Raise e, w2)
      end
  | (Raise e, w1) => (Raise e, w1)
  end.
Proof.
  cbn [for_each]. run.
  destruct (f x w) as [[y|e] w1]; [|reflexivity].
  destruct (for_each f l w1) as [[ys|e] w2]; reflexivity.
Qed.


(** A loop whose every pass returns, returns: one entry per element, in
    the order of the list. *)
Lemma for_each_returns {A B} (f : A -> M B) (g : A -> B) (l : list A) :
  (forall x, In x l -> forall w, exists w', f x w = (Ok (g x), w')) ->
  forall w, exists w', for_each f l w = (Ok (map g l), w').
Proof.
  induction l as [|x l IH]; intros Hf w.
  - by exists w.
  - rewrite for_each_cons.
    destruct (Hf x (or_introl eq_refl) w) as (w1 & ->).
    destruct (IH (fun y Hy => Hf y (or_intror Hy)) w1) as (w2 & ->).
    by exists w2.
Qed.






(** ** Project generation aborts at the first template that fails *)




(** ** Shared files *)

Lemma eqb_true (a b : string) : Str.eqb a b = true <-> a = b.
Proof. unfold Str.eqb. by rewrite bool_decide_eq_true. Qed.

(** ** Reading the shared files of a library *)

Lemma entry_in (name : string) (es : list (string * node)) (child : node) :
  Tree.entry name es = Some child -> In (name, child) es.
Proof.
  induction es as [|[n c] es IH]; [discriminate|].
  cbn [Tree.entry]. destruct (Str.eqb n name) eqn:Hn.
  - apply eqb_true in Hn as ->. intros [= ->]. by left.
  - intros Hentry. right. by apply IH.
Qed.

Lemma in_entry (name : string) (es : list (string * node)) (child : node) :
  NoDup (map fst es) -> In (name, child) es -> Tree.entry name es = Some child.
Proof.
  induction es as [|[n c] es IH]; [intros _ []|].
  cbn [map fst Tree.entry]. intros [Hfresh Hnodup]%NoDup_cons.
  intros [[= -> ->] | Hin].
  - by rewrite (proj2 (eqb_true name name) eq_refl).
  - destruct (Str.eqb n name) eqn:Hn; [|by apply IH].
    apply eqb_true in Hn as ->. destruct Hfresh.
    apply list_elem_of_In, in_map_iff. by exists (name, child).
Qed.

Lemma wf_dir (es : list (string * node)) :
  Tree.wf (Dir es) = true ->
  NoDup (map fst es)
  /\ forall name child, In (name, child) es -> Tree.wf child = true.
Proof.
  cbn [Tree.wf]. intros [Hnodup Hall]%andb_true_iff.
  apply bool_decide_eq_true in Hnodup. split; [done|].
  intros name child Hin. rewrite forallb_forall in Hall.
  by apply (Hall (name, child)).
Qed.

Lemma file_at_read (n : node) (p : Path.t) :
  Tree.file_at n p -> Tree.wf n = true -> exists content, Tree.read n p = Some content.
Proof.
  unfold Tree.read.
  induction 1 as [es name content Hin|es name sub p Hin Hp IH]; intros Hwf;
    apply wf_dir in Hwf as [Hnodup Hall]; cbn [Tree.find].
  - rewrite (in_entry _ _ _ Hnodup Hin). by exists content.
  - rewrite (in_entry _ _ _ Hnodup Hin). apply IH. by apply (Hall name).
Qed.

Lemma shared_file_readable (lib shared_dir : node) (rel : Path.t) :
  Tree.wf lib = true ->
  Tree.find lib ["shared"] = Some shared_dir ->
  In rel (Tree.walk_files shared_dir) ->
  exists content, Tree.read lib ("shared" :: rel) = Some content.
Proof.
  intros Hwf Hfind Hrel.
  destruct lib as [|es]; [discriminate|].
  cbn [Tree.find] in Hfind.
  destruct (Tree.entry "shared" es) as [child|] eqn:Hentry; [|discriminate].
  injection Hfind as ->.
  apply wf_dir in Hwf as [_ Hall].
  apply (in_walk_paths shared_dir [] rel) in Hrel as (q & -> & Hq).
  destruct (file_at_read shared_dir q Hq) as (content & Hread).
  - apply (Hall "shared"). by apply entry_in.
  - exists content. unfold Tree.read in *. cbn [Tree.find app].
    by rewrite Hentry.
Qed.

(** The shared files in the order the two loops of [_copy_shared_files]
    visit them *)
Definition shared_files (self : TemplateProcessor) : list Path.t :=
  match Tree.find (library self) ["shared"] with
  | Some shared_dir => Tree.walk_files shared_dir
  | None => []
  end.

(** * Further properties of the module *)

(** ** Merging any number of dictionaries *)

Lemma merge_variables_nil : merge_variables [] = ∅.
Proof. reflexivity. Qed.

Lemma lookup_merge_snoc (ds : list variables) (d : variables) (k : string) :
  merge_variables (ds ++ [d]) !! k =
  match d !! k with
  | Some v => Some v
  | None => merge_variables ds !! k
  end.
Proof. by rewrite merge_variables_snoc, lookup_update. Qed.

(** X1. The value of a key in the merge of any number of dictionaries is
    the value given by the last dictionary that has the key. *)
Theorem merge_variables_last_wins (ds : list variables) (k : string) (v : value) :
  merge_variables ds !! k = Some v
  <-> exists i d,
      ds !! i = Some d /\ d !! k = Some v
      /\ forall j d', (i < j)%nat -> ds !! j = Some d' -> d' !! k = None.
Proof.
  induction ds as [|d0 ds IH] using rev_ind.
  - rewrite merge_variables_nil, lookup_empty. split; [discriminate|].
    intros (i & d & Hi & _). by rewrite lookup_nil in Hi.
  - rewrite lookup_merge_snoc.
    destruct (d0 !! k) as [v0|] eqn:Hk0.
    + split.
      * intros [= ->]. exists (length ds), d0. split; [|split; [done|]].
        { by rewrite lookup_app_r, Nat.sub_diag by lia. }
        intros j d' Hj Hd'. apply lookup_lt_Some in Hd'.
        rewrite length_app in Hd'. cbn in Hd'. lia.
      * intros (i & d & Hi & Hv & Hlast).
        destruct (decide (i < length ds)%nat) as [Hlt|Hge].
        { specialize (Hlast (length ds) d0 Hlt).
          rewrite lookup_app_r, Nat.sub_diag in Hlast by lia.
          specialize (Hlast eq_refl). congruence. }
        pose proof (lookup_lt_Some _ _ _ Hi) as Hbound.
        rewrite length_app in Hbound. cbn in Hbound.
        assert (i = length ds) as -> by lia.
        rewrite lookup_app_r, Nat.sub_diag in Hi by lia.
        injection Hi as <-. congruence.
    + rewrite IH. split.
      * intros (i & d & Hi & Hv & Hlast). exists i, d.
        split; [by apply lookup_app_l_Some|]. split; [done|].
        intros j d' Hj Hd'.
        destruct (decide (j < length ds)%nat) as [Hlt|Hge].
        { rewrite lookup_app_l in Hd' by done. by apply (Hlast j). }
        pose proof (lookup_lt_Some _ _ _ Hd') as Hbound.
        rewrite length_app in Hbound. cbn in Hbound.
        assert (j = length ds) as -> by lia.
        rewrite lookup_app_r, Nat.sub_diag in Hd' by lia.
        injection Hd' as <-. done.
      * intros (i & d & Hi & Hv & Hlast).
        destruct (decide (i < length ds)%nat) as [Hlt|Hge].
        { exists i, d. rewrite lookup_app_l in Hi by done.
          split; [done|]. split; [done|].
          intros j d' Hj Hd'. apply (Hlast j d' Hj).
          by apply lookup_app_l_Some. }
        pose proof (lookup_lt_Some _ _ _ Hi) as Hbound.
        rewrite length_app in Hbound. cbn in Hbound.
        assert (i = length ds) as -> by lia.
        rewrite lookup_app_r, Nat.sub_diag in Hi by lia.
        injection Hi as <-. congruence.
Qed.

(** X2. The keys of the merge are the keys of the merged dictionaries
    taken together: no key is dropped and none appears from nowhere. *)
Theorem merge_variables_keys (ds : list variables) (k : string) :
  is_Some (merge_variables ds !! k) <-> exists d, In d ds /\ is_Some (d !! k).
Proof.
  induction ds as [|d0 ds IH] using rev_ind.
  - rewrite merge_variables_nil, lookup_empty. split.
    + by intros [? ?].
    + by intros (d & [] & _).
  - rewrite lookup_merge_snoc. destruct (d0 !! k) as [v0|] eqn:Hk0.
    + split; [|by eexists]. intros _. exists d0.
      split; [apply in_or_app; right; by left | by rewrite Hk0].
    + rewrite IH. split.
      * intros (d & Hd & Hk). exists d. split; [|done].
        apply in_or_app. by left.
      * intros (d & Hd & Hk). apply in_app_or in Hd as [Hd | [<- | []]].
        -- by exists d.
        -- rewrite Hk0 in Hk. by destruct Hk.
Qed.

Lemma fold_update_acc (ds : list variables) (acc : variables) :
  fold_left Dict.update ds acc = merge_variables ds ∪ acc.
Proof.
  unfold merge_variables.
  induction ds as [|d ds IH] using rev_ind.
  - cbn. by rewrite (left_id_L ∅ (∪)).
  - rewrite !fold_left_app. cbn [fold_left]. unfold Dict.update at 1 3.
    by rewrite IH, (assoc_L (∪)).
Qed.

Lemma merge_variables_pair (a b : variables) : merge_variables [a; b] = b ∪ a.
Proof.
  unfold merge_variables, Dict.update. cbn [fold_left].
  by rewrite (right_id_L ∅ (∪)).
Qed.

Lemma merge_variables_app (ds1 ds2 : list variables) :
  merge_variables (ds1 ++ ds2) = merge_variables ds2 ∪ merge_variables ds1.
Proof.
  unfold merge_variables at 1. rewrite fold_left_app.
  apply (fold_update_acc ds2 (fold_left Dict.update ds1 ∅)).
Qed.

(** X3. Merging in stages is the same as merging at once: the merge of
    two merges is the merge of the two lists put end to end.  So the two
    successive two-way merges of [main] give the three-way merge. *)
Theorem merge_variables_in_stages (ds1 ds2 : list variables) (D C O : variables) :
  merge_variables [merge_variables ds1; merge_variables ds2]
  = merge_variables (ds1 ++ ds2)
  /\ merge_variables [merge_variables [D; C]; O] = merge_variables [D; C; O].
Proof.
  split.
  - by rewrite merge_variables_pair, merge_variables_app.
  - rewrite merge_variables_pair.
    change [D; C; O] with ([D; C] ++ [O]).
    rewrite merge_variables_app. f_equal.
    unfold merge_variables, Dict.update. cbn [fold_left].
    by rewrite (right_id_L ∅ (∪)).
Qed.

(** ** More on the two filters *)

(** X4. The identifier filter is idempotent on every string, valid or
    not: a second application changes nothing. *)
Theorem identifier_filter_idempotent (s : string) :
  _to_cpp_identifier_filter (_to_cpp_identifier_filter s)
  = _to_cpp_identifier_filter s.
Proof.
  apply identifier_filter_fixes_valid.
  rewrite identifier_filter_refines. apply identifier_filter_spec_valid.
Qed.

(** X5. The strings the identifier filter leaves unchanged are exactly
    the strings that meet the validity rule. *)
Theorem identifier_filter_fixed_points (s : string) :
  _to_cpp_identifier_filter s = s <-> valid_identifier s = true.
Proof.
  split; [|apply identifier_filter_fixes_valid].
  intros Hfix. rewrite <- Hfix, identifier_filter_refines.
  apply identifier_filter_spec_valid.
Qed.

Lemma hyphens_to_underscores_length (s : string) :
  String.length (hyphens_to_underscores s) = String.length s.
Proof.
  induction s as [|c s IH]; [reflexivity|].
  cbn [hyphens_to_underscores String.length]. by rewrite IH.
Qed.

(** X6. The identifier filter never shortens its input and adds at most
    one character. *)
Theorem identifier_filter_length (s : string) :
  (String.length s <= String.length (_to_cpp_identifier_filter s)
   <= S (String.length s))%nat.
Proof.
  rewrite identifier_filter_refines.
  destruct s as [|c s]; [cbn; lia|].
  unfold identifier_filter_spec.
  pose proof (hyphens_to_underscores_length (String c s)) as Hlen.
  destruct (starts_alpha_or_underscore _);
    cbn [String.length] in *; lia.
Qed.

(** X7. Fallbacks chain: filtering with one fallback and then with a
    second is filtering once with the first fallback, itself filtered
    with the second. *)
Theorem default_filter_chain (v d1 d2 : value) :
  _default_filter (_default_filter v d1) d2
  = _default_filter v (_default_filter d1 d2).
Proof.
  unfold _default_filter.
  destruct (is_not_None v && ne_empty_str v) eqn:Hv; [|reflexivity].
  by rewrite Hv.
Qed.

(** X8. With a fallback that is neither [None] nor the empty string, the
    default filter never gives [None] or the empty string. *)
Theorem default_filter_result_usable (v fallback : value) :
  fallback ≠ VNone -> fallback ≠ VStr "" ->
  _default_filter v fallback ≠ VNone /\ _default_filter v fallback ≠ VStr "".
Proof.
  intros HNone Hempty. unfold _default_filter.
  destruct v as [ | | | | s | | | ]; cbn; try (split; congruence).
  unfold Str.eqb. case_bool_decide as Hs; cbn; split; congruence.
Qed.

Lemma default_filter_result_usable_witness :
  _default_filter (VStr "") (VStr "Developer") ≠ VNone
  /\ _default_filter (VStr "") (VStr "Developer") ≠ VStr "".
Proof.
  apply (default_filter_result_usable (VStr "") (VStr "Developer"));
    discriminate.
Defined.

(** ** More on output paths and discovery *)

Lemma rel_output_path_single_occurrence_witness :
  rel_output_path "library"
    ("library" +:+ "/" +:+ "include/widgets.hpp" +:+ marker)
  = "include/widgets.hpp".
Proof.
  apply (rel_output_path_single_occurrence "library" "include/widgets.hpp");
    reflexivity.
Defined.

Lemma length_append (a b : string) :
  String.length (a +:+ b) = (String.length a + String.length b)%nat.
Proof.
  induction a as [|c a IH]; [reflexivity|].
  rewrite append_cons. cbn [String.length]. by rewrite IH.
Qed.

Lemma skip_append (a b : string) : Str.skip (String.length a) (a +:+ b) = b.
Proof.
  induction a as [|c a IH]; [by destruct b|].
  rewrite append_cons. cbn [String.length Str.skip]. exact IH.
Qed.

Lemma take_skip (n : nat) (s : string) : Str.take n s +:+ Str.skip n s = s.
Proof.
  revert s. induction n as [|n IH]; intros s; [by destruct s|].
  destruct s as [|c s]; [reflexivity|].
  cbn [Str.take Str.skip]. by rewrite append_cons, IH.
Qed.

Lemma endswith_append (a p : string) : Str.endswith (a +:+ p) p = true.
Proof.
  unfold Str.endswith. rewrite length_append. apply andb_true_iff. split.
  - apply Nat.leb_le. lia.
  - replace (String.length a + String.length p - String.length p)%nat
      with (String.length a) by lia.
    rewrite skip_append. by apply eqb_true.
Qed.

Lemma endswith_split (s p : string) :
  Str.endswith s p = true -> exists a, s = a +:+ p.
Proof.
  unfold Str.endswith. intros [_ Hskip%eqb_true]%andb_true_iff.
  exists (Str.take (String.length s - String.length p) s).
  pose proof (take_skip (String.length s - String.length p) s) as Hsplit.
  rewrite Hskip in Hsplit. by symmetry.
Qed.

Lemma join_snoc (sep : string) (parts : list string) (f : string) :
  exists a, Str.join sep (parts ++ [f]) = a +:+ f.
Proof.
  induction parts as [|x parts (a & IH)]; [by exists ""|].
  cbn [app Str.join]. rewrite IH.
  destruct (parts ++ [f]) as [|y rest] eqn:Hparts.
  - by destruct parts.
  - exists (x +:+ sep +:+ a). by rewrite !append_assoc.
Qed.

Lemma endswith_join (sep : string) (parts : list string) (f p : string) :
  Str.endswith f p = true -> Str.endswith (Str.join sep (parts ++ [f])) p = true.
Proof.
  intros (b & ->)%endswith_split.
  destruct (join_snoc sep parts (b +:+ p)) as (a & ->).
  rewrite <- append_assoc. apply endswith_append.
Qed.

(** X10. Discovery only looks: it leaves the world as it was, whatever it
    returns.  Every path it returns ends with the marker.  A category
    root that exists but is a regular file gives the empty list, not an
    error. *)
Theorem get_template_files_only_markers (self : TemplateProcessor)
    (project_type : string) (w : world) :
  snd (get_template_files self project_type w) = w
  /\ (forall l w', get_template_files self project_type w = (Ok l, w') ->
                   forall s, In s l -> Str.endswith s marker = true)
  /\ (forall content,
         Tree.find (library self) (Path.of_string project_type) = Some (File content) ->
         get_template_files self project_type w = (Ok [], w)).
Proof.
  unfold get_template_files.
  destruct (Tree.find (library self) (Path.of_string project_type)) as [top|].
  - split; [reflexivity|]. split.
    + intros l w' [= <- _] s Hs.
      apply in_flat_map in Hs as ([[root dirs] fs] & _ & Hs).
      apply in_map_iff in Hs as (file & <- & Hfile).
      apply list_elem_of_In, list_elem_of_filter in Hfile as [Hend _].
      rewrite app_assoc. by apply endswith_join.
    + by intros content [= ->].
  - split; [reflexivity|]. split; [discriminate | discriminate].
Qed.

Lemma get_template_files_only_markers_witness :
  (forall s,
      In s ["console/CMakeLists.txt.template"; "console/src/main.cpp.template"] ->
      Str.endswith s marker = true)
  /\ get_template_files
       {| templates_dir := ["templates"];
          library := Dir [("console", File "not a directory")];
          env := sample_engine |}
       "console" empty_world
     = (Ok [], empty_world).
Proof.
  split.
  - apply (proj1 (proj2 (get_template_files_only_markers
                           sample_processor "console" empty_world))
             _ empty_world).
    reflexivity.
  - apply (proj2 (proj2 (get_template_files_only_markers
                           {| templates_dir := ["templates"];
                              library := Dir [("console", File "not a directory")];
                              env := sample_engine |}
                           "console" empty_world))
             "not a directory").
    reflexivity.
Defined.

(** ** The variables that [main] hands to generation *)

(** [TemplateProcessor.get_default_variables] *)
Definition get_default_variables (project_type : string) : variables :=
  {[ "project_name" := VStr "MyProject";
     "project_version" := VStr "1.0.0";
     "project_description" :=
       VStr ("A modern C++20 " +:+ project_type +:+ " application");
     "project_author" := VStr "Developer";
     "project_type" := VStr project_type;
     "cpp_standard" := VStr "20";
     "cmake_version" := VStr "3.20";
     "enable_sanitizers" := VBool true;
     "enable_warnings" := VBool true;
     "use_vcpkg" := VBool true;
     "optional_libraries" :=
       VDict {[ "fmt" := VBool true;
                "spdlog" := VBool true;
                "catch2" := VBool true;
                "boost" := VBool false;
                "openssl" := VBool false ]} ]}.

Module Cli.

(** The namespace [parser.parse_args()] returns; an option that was not
    given is [None]. *)
Record args : Type := {
  project_type : string;
  project_name : string;
  output : string;
  config : option string;
  templates_dir : string;
  no_shared : bool;
  author : option string;
  version : option string;
  description : option string
}.

(** [if args.x: cli_vars[key] = args.x]: an option that was not given, or
    was given empty, sets nothing. *)
Definition set_if_given (key : string) (o : option string) (d : variables) : variables :=
  match o with
  | Some s => if Str.eqb s "" then d else <[key := VStr s]> d
  | None => d
  end.

(** The dictionary [cli_vars] of [main] *)
Definition cli_vars (a : args) : variables :=
  set_if_given "project_description" (description a)
    (set_if_given "project_version" (version a)
       (set_if_given "project_author" (author a) ∅)).

(** The variables of [main] once the configuration is merged in and before
    the overrides of the command line.  [config_vars] is the dictionary
    that [load_variables_from_file] returned for [args.config], and [None]
    when no configuration file was named. *)
Definition configured_variables (a : args) (config_vars : option variables) : variables :=
  let variables := get_default_variables (project_type a) in
  let variables := <["project_name" := VStr (project_name a)]> variables in
  match config_vars with
  | Some c => merge_variables [variables; c]
  | None => variables
  end.

(** The variables [main] passes to [generate_project_files] *)
Definition main_variables (a : args) (config_vars : option variables) : variables :=
  let variables := configured_variables a config_vars in
  if bool_decide (cli_vars a = ∅) then variables
  else merge_variables [variables; cli_vars a].

End Cli.

Lemma lookup_merge_pair (a b : variables) (k : string) :
  merge_variables [a; b] !! k =
  match b !! k with
  | Some v => Some v
  | None => a !! k
  end.
Proof.
  rewrite merge_variables_pair. destruct (b !! k) as [v|] eqn:Hk.
  - by apply lookup_union_Some_l.
  - by rewrite lookup_union_r.
Qed.

Lemma lookup_main_variables (a : Cli.args) (config_vars : option variables) (k : string) :
  Cli.main_variables a config_vars !! k =
  match Cli.cli_vars a !! k with
  | Some v => Some v
  | None => Cli.configured_variables a config_vars !! k
  end.
Proof.
  unfold Cli.main_variables. case_bool_decide as Hcli.
  - by rewrite Hcli, lookup_empty.
  - apply lookup_merge_pair.
Qed.

Lemma lookup_set_if_given_ne (key : string) (o : option string) (d : variables) (k : string) :
  key ≠ k -> Cli.set_if_given key o d !! k = d !! k.
Proof.
  intros Hne. unfold Cli.set_if_given. destruct o as [s|]; [|done].
  destruct (Str.eqb s ""); [done|]. by rewrite lookup_insert_ne.
Qed.

Lemma lookup_set_if_given_eq (key : string) (o : option string) (d : variables) :
  Cli.set_if_given key o d !! key =
  match o with
  | Some s => if Str.eqb s "" then d !! key else Some (VStr s)
  | None => d !! key
  end.
Proof.
  unfold Cli.set_if_given. destruct o as [s|]; [|done].
  destruct (Str.eqb s ""); [done|]. by rewrite lookup_insert_eq.
Qed.

Lemma lookup_configured_variables (a : Cli.args) (config_vars : option variables) (k : string) :
  Cli.configured_variables a config_vars !! k =
  match config_vars with
  | Some c =>
      match c !! k with
      | Some v => Some v
      | None =>
          <["project_name" := VStr (Cli.project_name a)]>
            (get_default_variables (Cli.project_type a)) !! k
      end
  | None =>
      <["project_name" := VStr (Cli.project_name a)]>
        (get_default_variables (Cli.project_type a)) !! k
  end.
Proof.
  unfold Cli.configured_variables. destruct config_vars as [c|]; [|done].
  apply lookup_merge_pair.
Qed.

(** X16. The project name: the name on the command line replaces the
    default [MyProject], and a [project_name] in the configuration file
    replaces the name on the command line. *)
Theorem main_project_name (a : Cli.args) (config_vars : option variables) :
  Cli.main_variables a config_vars !! "project_name" =
  match config_vars with
  | Some c =>
      match c !! "project_name" with
      | Some v => Some v
      | None => Some (VStr (Cli.project_name a))
      end
  | None => Some (VStr (Cli.project_name a))
  end.
Proof.
  rewrite lookup_main_variables. unfold Cli.cli_vars.
  rewrite !lookup_set_if_given_ne, lookup_empty by done.
  rewrite lookup_configured_variables.
  destruct config_vars as [c|]; by rewrite lookup_insert_eq.
Qed.

(** X17. An author, a version or a description given on the command line
    and not empty is the value of its variable, whatever the
    configuration file and the defaults say. *)
Theorem main_flags_override (a : Cli.args) (config_vars : option variables)
    (s : string) :
  s ≠ "" ->
  (Cli.author a = Some s ->
   Cli.main_variables a config_vars !! "project_author" = Some (VStr s))
  /\ (Cli.version a = Some s ->
      Cli.main_variables a config_vars !! "project_version" = Some (VStr s))
  /\ (Cli.description a = Some s ->
      Cli.main_variables a config_vars !! "project_description" = Some (VStr s)).
Proof.
  intros Hs.
  assert (Heqb : Str.eqb s "" = false).
  { unfold Str.eqb. by apply bool_decide_eq_false. }
  split; [|split]; intros Hflag; rewrite lookup_main_variables;
    unfold Cli.cli_vars.
  - rewrite !lookup_set_if_given_ne by done.
    by rewrite lookup_set_if_given_eq, Hflag, Heqb.
  - rewrite lookup_set_if_given_ne by done.
    by rewrite lookup_set_if_given_eq, Hflag, Heqb.
  - by rewrite lookup_set_if_given_eq, Hflag, Heqb.
Qed.

Definition sample_args : Cli.args :=
  {| Cli.project_type := "console";
     Cli.project_name := "Widgets";
     Cli.output := ".";
     Cli.config := Some "project.json";
     Cli.templates_dir := "templates";
     Cli.no_shared := false;
     Cli.author := Some "Ada";
     Cli.version := Some "";
     Cli.description := None |}.

Lemma main_flags_override_witness :
  Cli.main_variables sample_args
    (Some {[ "project_author" := VStr "From the file" ]})
  !! "project_author" = Some (VStr "Ada").
Proof.
  apply (proj1 (main_flags_override sample_args
                  (Some {[ "project_author" := VStr "From the file" ]})
                  "Ada" ltac:(discriminate))).
  reflexivity.
Defined.

(** X18. A version that is not given on the command line, or is given
    empty, leaves the variable to the configuration file, and to the
    default [1.0.0] when the file does not set it; the same holds for the
    author, with the default [Developer]. *)
Theorem main_flag_not_given (a : Cli.args) (config_vars : option variables) :
  (Cli.version a = None \/ Cli.version a = Some "" ->
   Cli.main_variables a config_vars !! "project_version" =
   match config_vars with
   | Some c =>
       match c !! "project_version" with
       | Some v => Some v
       | None => Some (VStr "1.0.0")
       end
   | None => Some (VStr "1.0.0")
   end)
  /\ (Cli.author a = None \/ Cli.author a = Some "" ->
      Cli.main_variables a config_vars !! "project_author" =
      match config_vars with
      | Some c =>
          match c !! "project_author" with
          | Some v => Some v
          | None => Some (VStr "Developer")
          end
      | None => Some (VStr "Developer")
      end).
Proof.
  split; intros Hflag; rewrite lookup_main_variables; unfold Cli.cli_vars.
  - rewrite lookup_set_if_given_ne by done.
    rewrite lookup_set_if_given_eq.
    assert (Hnone :
              match Cli.version a with
              | Some s =>
                  if Str.eqb s ""
                  then Cli.set_if_given "project_author" (Cli.author a) ∅
                       !! "project_version"
                  else Some (VStr s)
              | None =>
                  Cli.set_if_given "project_author" (Cli.author a) ∅
                  !! "project_version"
              end = None).
    { rewrite lookup_set_if_given_ne, lookup_empty by done.
      by destruct Hflag as [-> | ->]. }
    rewrite Hnone, lookup_configured_variables.
    by destruct config_vars as [c|].
  - rewrite !lookup_set_if_given_ne by done.
    rewrite lookup_set_if_given_eq, lookup_empty.
    assert (Hnone :
              match Cli.author a with
              | Some s => if Str.eqb s "" then None else Some (VStr s)
              | None => None
              end = @None value).
    { by destruct Hflag as [-> | ->]. }
    rewrite Hnone, lookup_configured_variables.
    by destruct config_vars as [c|].
Qed.

Lemma main_flag_not_given_witness :
  Cli.main_variables sample_args (Some {[ "cpp_standard" := VStr "23" ]})
  !! "project_version" = Some (VStr "1.0.0").
Proof.
  exact (proj1 (main_flag_not_given sample_args
                  (Some {[ "cpp_standard" := VStr "23" ]}))
               (or_intror eq_refl)).
Defined.

(** X19. Every variable that the defaults define is defined in the
    variables handed to generation, whatever the configuration file and
    the command line hold. *)
Theorem main_defaults_defined (a : Cli.args) (config_vars : option variables)
    (k : string) :
  is_Some (get_default_variables (Cli.project_type a) !! k) ->
  is_Some (Cli.main_variables a config_vars !! k).
Proof.
  intros Hdefault. rewrite lookup_main_variables.
  destruct (Cli.cli_vars a !! k); [by eexists|].
  rewrite lookup_configured_variables.
  assert (Hnamed :
            is_Some (<["project_name" := VStr (Cli.project_name a)]>
                       (get_default_variables (Cli.project_type a)) !! k)).
  { rewrite lookup_insert. case_decide; [by eexists | done]. }
  destruct config_vars as [c|]; [|done].
  destruct (c !! k); [by eexists | done].
Qed.

Lemma main_defaults_defined_witness :
  is_Some (Cli.main_variables sample_args (Some ∅) !! "optional_libraries").
Proof.
  apply (main_defaults_defined sample_args (Some ∅) "optional_libraries").
  eexists. reflexivity.
Defined.

(** * The processor on a file system

    The definitions above take the output tree as a store that accepts
    every write.  Here the processor runs on a file system with
    directories, regular files and their permission bits, as one process
    that owns what it creates sees it: a path component that is a regular
    file, a directory opened for writing, and a file that may not be
    written all make the call fail as the operating system makes it fail.
    The pure parts ([rel_output_path], [output_file], [shared_dest],
    [fallback_warning]) are the ones above.  The templates directory is
    taken to lie outside the output directory.  Permission bits of
    directories, links and full disks are left out. *)

Module Fs.

Inductive entry : Type :=
| Directory
| Regular (content : string) (mode : Z).

(** What the host decides: the mode [open] gives a file it creates (0o666
    without the bits of the umask), whether the process may open a file of
    a given mode for writing (the owner's write bit, or always for the
    superuser), and the mode of each file of the templates directory, by
    its path below that directory. *)
Class Host : Type := {
  new_file_mode : Z;
  may_write : Z -> bool;
  source_mode : Path.t -> Z
}.

(** The entries of the file system by path, the lines printed, and the
    template names handed to the rendering engine. *)
Record world : Type := World {
  tree : gmap (list string) entry;
  stdout : list string;
  requested : list string
}.

Definition empty_world : world := World ∅ [] [].

Definition M (A : Type) : Type := world -> result A * world.

Definition ret {A} (a : A) : M A := fun w => (Ok a, w).

Definition bind {A B} (m : M A) (k : A -> M B) : M B :=
  fun w =>
    match m w with
    | (Ok a, w') => k a w'
    | (Raise e, w') => (Raise e, w')
    end.

Definition raise {A} (e : exn) : M A := fun w => (Raise e, w).

Definition try_except {A} (body : M A) (handler : exn -> M A) : M A :=
  fun w =>
    match body w with
    | (Ok a, w') => (Ok a, w')
    | (Raise e, w') => handler e w'
    end.

#[global] Instance M_ret : MRet M := @ret.
#[global] Instance M_bind : MBind M := fun A B k m => bind m k.

Fixpoint for_each {A B} (f : A -> M B) (l : list A) : M (list B) :=
  match l with
  | [] => mret []
  | x :: l' =>
      y ← f x;
      ys ← for_each f l';
      mret (y :: ys)
  end.

Definition print (line : string) : M unit :=
  fun w => (Ok tt, World (tree w) (stdout w ++ [line]) (requested w)).

Definition note_request (template_path : string) : M unit :=
  fun w => (Ok tt, World (tree w) (stdout w) (requested w ++ [template_path])).

Definition set_entry (p : Path.t) (e : entry) : M unit :=
  fun w => (Ok tt, World (<[p := e]> (tree w)) (stdout w) (requested w)).

(** The current directory and the root directory are always there. *)
Definition is_root (p : Path.t) : bool := bool_decide (p = [] \/ p = ["/"]).

(** What is at [p] *)
Definition kind (t : gmap (list string) entry) (p : Path.t) : option entry :=
  if is_root p then Some Directory else t !! p.

(** [p.parent] *)
Definition parent (p : Path.t) : Path.t :=
  if is_root p then p else removelast p.

(** [p] and the paths above it, the shortest first *)
Definition prefixes (p : Path.t) : list Path.t :=
  map (fun n => take n p) (seq 1 (length p)).

Definition is_regular (o : option entry) : bool :=
  match o with
  | Some (Regular _ _) => true
  | _ => false
  end.

(** Some component of [p] before the last is a regular file: the system
    answers [ENOTDIR] to every call on [p]. *)
Definition blocked (t : gmap (list string) entry) (p : Path.t) : bool :=
  existsb (fun q => is_regular (kind t q)) (prefixes (removelast p)).

(** [p] and every missing directory above it made *)
Definition add_dirs (t : gmap (list string) entry) (p : Path.t) : gmap (list string) entry :=
  foldr (fun q t' => if is_root q then t' else <[q := Directory]> t') t
        (prefixes p).

Section Calls.

Context `{Host}.

(** [p.mkdir(parents=True, exist_ok=True)]: nothing to do for a directory
    that exists; [FileExistsError] for a regular file; [NotADirectoryError]
    below a regular file; else [p] and the missing directories above it
    are made. *)
Definition mkdir_parents (p : Path.t) : M unit :=
  fun w =>
    match kind (tree w) p with
    | Some Directory => (Ok tt, w)
    | Some (Regular _ _) =>
        (Raise (FileExistsError (os_error "17" "File exists" p)), w)
    | None =>
        if blocked (tree w) p
        then (Raise (NotADirectoryError (os_error "20" "Not a directory" p)), w)
        else (Ok tt, World (add_dirs (tree w) p) (stdout w) (requested w))
    end.

(** [open(p, 'w')] as far as it can fail: it gives the mode of the file
    when the file is there already, and [None] when it is to be made. *)
Definition open_for_writing (p : Path.t) : M (option Z) :=
  fun w =>
    match kind (tree w) p with
    | Some Directory =>
        (Raise (IsADirectoryError (os_error "21" "Is a directory" p)), w)
    | Some (Regular _ mode) =>
        if may_write mode then (Ok (Some mode), w)
        else (Raise (PermissionError (os_error "13" "Permission denied" p)), w)
    | None =>
        if blocked (tree w) p
        then (Raise (NotADirectoryError (os_error "20" "Not a directory" p)), w)
        else match kind (tree w) (parent p) with
             | Some Directory => (Ok None, w)
             | _ =>
                 (Raise (FileNotFoundError
                           (os_error "2" "No such file or directory" p)), w)
             end
    end.

(** [with open(p, 'w', encoding='utf-8') as f: f.write(content)]: a file
    that is there keeps its mode. *)
Definition write_text (p : Path.t) (content : string) : M unit :=
  old ← open_for_writing p;
  set_entry p (Regular content (default new_file_mode old)).

(** [p.chmod(mode)]; the modes of directories are not kept. *)
Definition chmod (p : Path.t) (mode : Z) : M unit :=
  fun w =>
    match kind (tree w) p with
    | Some (Regular content _) =>
        (Ok tt, World (<[p := Regular content mode]> (tree w)) (stdout w) (requested w))
    | Some Directory => (Ok tt, w)
    | None =>
        (Raise (FileNotFoundError (os_error "2" "No such file or directory" p)), w)
    end.

Context (self : TemplateProcessor).

(** [TemplateProcessor.process_template] *)
Definition process_template (template_path : string) (vars : variables) : M string :=
  note_request template_path;;
  match env self template_path vars with
  | Rendered text => mret text
  | TemplateNotFound =>
      raise (FileNotFoundError
               ("Template '" +:+ template_path +:+ "' not found in '"
                +:+ Path.str (templates_dir self) +:+ "'"))
  | EngineError e =>
      raise (RuntimeError
               ("Error processing template '" +:+ template_path +:+ "': " +:+ e))
  end.

(** [TemplateProcessor.get_template_files] *)
Definition get_template_files (project_type : string) : M (list string) :=
  let project_dir := Path.of_string project_type in
  match Tree.find (library self) project_dir with
  | None =>
      raise (ValueError
               ("Project type '" +:+ project_type +:+ "' not found in templates"))
  | Some top =>
      mret
        (flat_map
           (fun '(root, _, files) =>
              map (fun file => Str.join "/" (project_dir ++ root ++ [file]))
                  (filter (fun file => Str.endswith file marker = true) files))
           (Tree.walk [] top))
  end.

(** One pass of the loop over the project templates *)
Definition generate_one (output_path : Path.t) (project_type : string)
    (vars : variables) (template_file : string) : M string :=
  content ← process_template template_file vars;
  let output_file := output_file output_path project_type template_file in
  mkdir_parents (parent output_file);;
  write_text output_file content;;
  print ("Generated: " +:+ Path.str output_file);;
  mret (Path.str output_file).

(** [shutil.copy2(src, dest)], [src] being a file of the library by its
    path below the templates directory: a destination that is a directory
    receives the file under the name of the source; the copy has the
    content and the mode of the source. *)
Definition copy2 (src : Path.t) (dest : Path.t) : M unit :=
  match Tree.read (library self) src with
  | None =>
      raise (FileNotFoundError
               (os_error "2" "No such file or directory" (templates_dir self ++ src)))
  | Some content =>
      fun w =>
        let dst :=
          match kind (tree w) dest with
          | Some Directory => dest ++ [Path.name src]
          | _ => dest
          end in
        (open_for_writing dst;;
         set_entry dst (Regular content (source_mode src))) w
  end.

(** One pass of the loops over the shared files *)
Definition copy_shared_one (output_path : Path.t) (vars : variables)
    (rel : Path.t) : M string :=
  let src_file := templates_dir self ++ "shared" :: rel in
  let dest_file := shared_dest output_path rel in
  mkdir_parents (parent dest_file);;
  let template_path_for_processing := Path.str ("shared" :: rel) in
  try_except
    (content ← process_template template_path_for_processing vars;
     write_text dest_file content;;
     print ("Processed shared file: " +:+ Path.str dest_file))
    (fun e =>
       (if Str.eqb (Path.suffix dest_file) ".sh"
        then print (fallback_warning src_file e)
        else mret tt);;
       copy2 ("shared" :: rel) dest_file;;
       print ("Copied shared file (fallback): " +:+ Path.str dest_file));;
  (if Str.eqb (Path.suffix dest_file) ".sh"
   then chmod dest_file 493
   else mret tt);;
  mret (Path.str dest_file).

(** [TemplateProcessor._copy_shared_files] *)
Definition _copy_shared_files (output_path : Path.t) (vars : variables) : M (list string) :=
  match Tree.find (library self) ["shared"] with
  | None => mret []
  | Some shared_dir =>
      for_each (copy_shared_one output_path vars) (Tree.walk_files shared_dir)
  end.

(** [TemplateProcessor.generate_project_files] *)
Definition generate_project_files (output_dir project_type : string)
    (vars : variables) (copy_shared : bool) : M (list string) :=
  let output_path := Path.of_string output_dir in
  mkdir_parents output_path;;
  template_files ← get_template_files project_type;
  generated_files ← for_each (generate_one output_path project_type vars) template_files;
  if copy_shared
  then shared_files ← _copy_shared_files output_path vars;
       mret (generated_files ++ shared_files)
  else mret generated_files.

End Calls.

End Fs.

(** ** Paths above a path *)

(** [d] lies below [q]: [q] is a directory on the way to [d]. *)
Definition below (d q : Path.t) : Prop :=
  q ≠ [] /\ exists k, k ≠ [] /\ d = q ++ k.

Lemma in_prefixes (p q : Path.t) :
  In q (Fs.prefixes p) <-> q ≠ [] /\ exists k, p = q ++ k.
Proof.
  unfold Fs.prefixes. rewrite in_map_iff. split.
  - intros (n & <- & Hn%in_seq). split.
    + intros Hnil%(f_equal length). rewrite length_take in Hnil.
      cbn in Hnil. lia.
    + exists (drop n p). by rewrite take_drop.
  - intros (Hq & k & ->). exists (length q). split.
    + by rewrite take_app_length.
    + apply in_seq. rewrite length_app. destruct q; [done|]. cbn. lia.
Qed.

Lemma in_prefixes_self (p : Path.t) : p ≠ [] -> In p (Fs.prefixes p).
Proof. intros Hp. apply in_prefixes. split; [done|]. exists []. by rewrite app_nil_r. Qed.

Lemma in_prefixes_removelast (d q : Path.t) :
  In q (Fs.prefixes (removelast d)) <-> below d q.
Proof.
  rewrite in_prefixes. unfold below. split.
  - intros (Hq & k & Hk). split; [done|].
    destruct d as [|x d] using rev_ind.
    + cbn in Hk. by destruct q.
    + rewrite removelast_last in Hk. subst d.
      exists (k ++ [x]). split; [by destruct k | by rewrite app_assoc].
  - intros (Hq & k & Hk & ->). split; [done|].
    exists (removelast k). by rewrite removelast_app.
Qed.

Lemma below_irrefl (d : Path.t) : ~ below d d.
Proof.
  intros (_ & k & Hk & Heq). apply (f_equal length) in Heq.
  rewrite length_app in Heq. destruct k; [done|]. cbn in Heq. lia.
Qed.

Lemma below_trans (a b c : Path.t) : below a b -> below b c -> below a c.
Proof.
  intros (_ & k1 & Hk1 & ->) (Hc & k2 & Hk2 & ->). split; [done|].
  exists (k2 ++ k1). split; [by destruct k2 | by rewrite app_assoc].
Qed.

Lemma below_parent (d : Path.t) :
  Fs.is_root d = false -> removelast d ≠ [] -> below d (removelast d).
Proof.
  intros Hroot Hparent. apply in_prefixes_removelast.
  by apply in_prefixes_self.
Qed.

Lemma parent_not_root (d : Path.t) :
  Fs.is_root d = false -> Fs.parent d = removelast d.
Proof. unfold Fs.parent. by intros ->. Qed.

(** ** The calls on the file system *)

Lemma kind_insert_ne (t : gmap (list string) Fs.entry) (d q : Path.t) (e : Fs.entry) :
  q ≠ d -> Fs.kind (<[d := e]> t) q = Fs.kind t q.
Proof. intros Hq. unfold Fs.kind. by rewrite lookup_insert_ne. Qed.

Lemma kind_insert_eq (t : gmap (list string) Fs.entry) (d : Path.t) (e : Fs.entry) :
  Fs.is_root d = false -> Fs.kind (<[d := e]> t) d = Some e.
Proof. intros Hroot. unfold Fs.kind. by rewrite Hroot, lookup_insert_eq. Qed.

Lemma kind_add_dirs_in (t : gmap (list string) Fs.entry) (p q : Path.t) :
  In q (Fs.prefixes p) -> Fs.kind (Fs.add_dirs t p) q = Some Fs.Directory.
Proof.
  unfold Fs.add_dirs. generalize (Fs.prefixes p). intros l.
  induction l as [|x l IH]; [intros []|].
  unfold Fs.kind in *. destruct (Fs.is_root q) eqn:Hq; [done|].
  cbn [foldr]. intros [-> | Hin].
  - by rewrite Hq, lookup_insert_eq.
  - destruct (Fs.is_root x); [by apply IH|].
    destruct (decide (x = q)) as [->|Hne].
    + by rewrite lookup_insert_eq.
    + rewrite lookup_insert_ne by done. by apply IH.
Qed.

Lemma kind_add_dirs_out (t : gmap (list string) Fs.entry) (p q : Path.t) :
  ~ In q (Fs.prefixes p) -> Fs.kind (Fs.add_dirs t p) q = Fs.kind t q.
Proof.
  unfold Fs.add_dirs. generalize (Fs.prefixes p). intros l.
  induction l as [|x l IH]; [done|].
  unfold Fs.kind in *. destruct (Fs.is_root q) eqn:Hq; [done|].
  cbn [foldr]. intros Hin.
  destruct (Fs.is_root x).
  - apply IH. intros Hl. apply Hin. by right.
  - rewrite lookup_insert_ne by (intros ->; apply Hin; by left).
    apply IH. intros Hl. apply Hin. by right.
Qed.

Lemma blocked_false (t : gmap (list string) Fs.entry) (d : Path.t) :
  Fs.blocked t d = false
  <-> forall q, below d q -> Fs.is_regular (Fs.kind t q) = false.
Proof.
  unfold Fs.blocked. split.
  - intros Hnone q Hq%in_prefixes_removelast.
    destruct (Fs.is_regular (Fs.kind t q)) eqn:Hreg; [|done].
    assert (existsb (fun q => Fs.is_regular (Fs.kind t q))
                    (Fs.prefixes (removelast d)) = true) as Hex.
    { apply existsb_exists. by exists q. }
    congruence.
  - intros Hall.
    destruct (existsb _ _) eqn:Hex; [|done].
    apply existsb_exists in Hex as (q & Hq%in_prefixes_removelast & Hreg).
    rewrite (Hall q Hq) in Hreg. done.
Qed.

(** The file [d] can be written with the directories above it made: [d]
    is not the current or the root directory, nothing is at [d] or a file
    that may be written, and no component above [d] is a regular file. *)
Definition ready `{Fs.Host} (t : gmap (list string) Fs.entry) (d : Path.t) : bool :=
  negb (Fs.is_root d)
  && match Fs.kind t d with
     | None => true
     | Some (Fs.Regular _ mode) => Fs.may_write mode
     | Some Fs.Directory => false
     end
  && negb (Fs.blocked t d).

(** From [t] to [t'] the file [d] was written with the content [c]:
    nothing changed but [d] and the directories above it, and no regular
    file appeared elsewhere. *)
Definition placed (t t' : gmap (list string) Fs.entry) (d : Path.t) (c : string) : Prop :=
  (exists mode, Fs.kind t' d = Some (Fs.Regular c mode))
  /\ (forall q, q ≠ d -> ~ below d q -> Fs.kind t' q = Fs.kind t q)
  /\ (forall q, q ≠ d -> Fs.is_regular (Fs.kind t q) = false ->
                Fs.is_regular (Fs.kind t' q) = false).

Ltac fs_run :=
  unfold mbind, mret, Fs.M_bind, Fs.M_ret, Fs.bind, Fs.ret, Fs.raise in *.

Section FsCalls.

Context `{Fs.Host}.

Lemma ready_inv (t : gmap (list string) Fs.entry) (d : Path.t) :
  ready t d = true ->
  Fs.is_root d = false
  /\ (Fs.kind t d = None
      \/ exists c mode, Fs.kind t d = Some (Fs.Regular c mode)
                        /\ Fs.may_write mode = true)
  /\ Fs.blocked t d = false.
Proof.
  unfold ready. intros [[Hroot Hkind]%andb_true_iff Hblocked]%andb_true_iff.
  apply negb_true_iff in Hroot, Hblocked. split; [done|]. split; [|done].
  destruct (Fs.kind t d) as [[|c mode]|]; [done | right; by eexists _, _ | by left].
Qed.

Lemma mkdir_parents_ok (p : Path.t) (w : Fs.world) :
  Fs.is_regular (Fs.kind (Fs.tree w) p) = false ->
  Fs.blocked (Fs.tree w) p = false ->
  exists w',
    Fs.mkdir_parents p w = (Ok tt, w')
    /\ Fs.stdout w' = Fs.stdout w
    /\ Fs.requested w' = Fs.requested w
    /\ Fs.kind (Fs.tree w') p = Some Fs.Directory
    /\ (forall q, ~ In q (Fs.prefixes p) ->
                  Fs.kind (Fs.tree w') q = Fs.kind (Fs.tree w) q)
    /\ (forall q, Fs.is_regular (Fs.kind (Fs.tree w') q)
                  = Fs.is_regular (Fs.kind (Fs.tree w) q)).
Proof.
  intros Hnotfile Hfree. unfold Fs.mkdir_parents.
  destruct (Fs.kind (Fs.tree w) p) as [[|c mode]|] eqn:Hkind; [|done|].
  - exists w. by repeat split.
  - rewrite Hfree. eexists. split; [reflexivity|]. cbn [Fs.tree Fs.stdout Fs.requested].
    assert (Hp : p ≠ []) by (intros ->; done).
    split; [done|]. split; [done|].
    split; [by apply kind_add_dirs_in, in_prefixes_self|].
    split; [by intros q Hq; apply kind_add_dirs_out|].
    intros q. destruct (decide (q ∈ Fs.prefixes p)) as [Hin%list_elem_of_In|Hout].
    + rewrite kind_add_dirs_in by done. cbn.
      apply in_prefixes in Hin as (Hq & k & Hk).
      destruct k as [|x k].
      * rewrite app_nil_r in Hk. subst q. by rewrite Hkind.
      * symmetry. apply (proj1 (blocked_false _ _) Hfree).
        split; [done|]. by exists (x :: k).
    + rewrite kind_add_dirs_out; [done|]. by rewrite <- list_elem_of_In.
Qed.

(** Making the directory of a file that is ready to be written *)
Lemma mkdir_parent_ready (d : Path.t) (w : Fs.world) :
  ready (Fs.tree w) d = true ->
  exists w',
    Fs.mkdir_parents (Fs.parent d) w = (Ok tt, w')
    /\ Fs.stdout w' = Fs.stdout w
    /\ Fs.requested w' = Fs.requested w
    /\ Fs.kind (Fs.tree w') (Fs.parent d) = Some Fs.Directory
    /\ Fs.kind (Fs.tree w') d = Fs.kind (Fs.tree w) d
    /\ (forall q, q ≠ d -> ~ below d q ->
                  Fs.kind (Fs.tree w') q = Fs.kind (Fs.tree w) q)
    /\ (forall q, Fs.is_regular (Fs.kind (Fs.tree w') q)
                  = Fs.is_regular (Fs.kind (Fs.tree w) q)).
Proof.
  intros (Hroot & _ & Hfree)%ready_inv.
  rewrite (parent_not_root d Hroot).
  pose proof (proj1 (blocked_false _ _) Hfree) as Habove.
  destruct (mkdir_parents_ok (removelast d) w)
    as (w' & Hrun & Hout & Hreq & Hdir & Hframe & Hreg).
  - destruct (decide (removelast d = [])) as [->|Hne]; [done|].
    apply Habove. by apply below_parent.
  - apply blocked_false. intros q Hq.
    destruct (decide (removelast d = [])) as [Hnil|Hne].
    + rewrite Hnil in Hq. destruct Hq as (Hq & k & _ & Hk). by destruct q.
    + apply Habove. eapply below_trans; [by apply below_parent | done].
  - exists w'. split; [done|]. split; [done|]. split; [done|]. split; [done|].
    split; [|split; [|done]].
    + apply Hframe. intros Hin%in_prefixes_removelast. by apply below_irrefl in Hin.
    + intros q _ Hq. apply Hframe. by rewrite in_prefixes_removelast.
Qed.

Lemma open_for_writing_ready (d : Path.t) (w : Fs.world) :
  Fs.is_root d = false ->
  (Fs.kind (Fs.tree w) d = None
   \/ exists c mode, Fs.kind (Fs.tree w) d = Some (Fs.Regular c mode)
                     /\ Fs.may_write mode = true) ->
  Fs.blocked (Fs.tree w) d = false ->
  Fs.kind (Fs.tree w) (Fs.parent d) = Some Fs.Directory ->
  Fs.open_for_writing d w
  = (Ok match Fs.kind (Fs.tree w) d with
        | Some (Fs.Regular _ mode) => Some mode
        | _ => None
        end, w).
Proof.
  intros Hroot Hkind Hfree Hparent. unfold Fs.open_for_writing.
  destruct Hkind as [-> | (c & mode & -> & ->)]; [|done].
  by rewrite Hfree, Hparent.
Qed.

(** The mode a file has after [open(d, 'w')] *)
Definition mode_after_open (t : gmap (list string) Fs.entry) (d : Path.t) : Z :=
  match Fs.kind t d with
  | Some (Fs.Regular _ mode) => mode
  | _ => Fs.new_file_mode
  end.

Lemma write_text_ready (d : Path.t) (c : string) (w : Fs.world) :
  Fs.is_root d = false ->
  (Fs.kind (Fs.tree w) d = None
   \/ exists c0 mode, Fs.kind (Fs.tree w) d = Some (Fs.Regular c0 mode)
                      /\ Fs.may_write mode = true) ->
  Fs.blocked (Fs.tree w) d = false ->
  Fs.kind (Fs.tree w) (Fs.parent d) = Some Fs.Directory ->
  Fs.write_text d c w
  = (Ok tt,
     Fs.World (<[d := Fs.Regular c (mode_after_open (Fs.tree w) d)]> (Fs.tree w))
              (Fs.stdout w) (Fs.requested w)).
Proof.
  intros Hroot Hkind Hfree Hparent. unfold Fs.write_text. fs_run.
  rewrite (open_for_writing_ready d w Hroot Hkind Hfree Hparent).
  unfold Fs.set_entry, mode_after_open.
  by destruct (Fs.kind (Fs.tree w) d) as [[|c0 mode]|].
Qed.

Lemma copy2_ready (self : TemplateProcessor) (src d : Path.t) (content : string)
    (w : Fs.world) :
  Tree.read (library self) src = Some content ->
  Fs.is_root d = false ->
  (Fs.kind (Fs.tree w) d = None
   \/ exists c0 mode, Fs.kind (Fs.tree w) d = Some (Fs.Regular c0 mode)
                      /\ Fs.may_write mode = true) ->
  Fs.blocked (Fs.tree w) d = false ->
  Fs.kind (Fs.tree w) (Fs.parent d) = Some Fs.Directory ->
  Fs.copy2 self src d w
  = (Ok tt,
     Fs.World (<[d := Fs.Regular content (Fs.source_mode src)]> (Fs.tree w))
              (Fs.stdout w) (Fs.requested w)).
Proof.
  intros Hread Hroot Hkind Hfree Hparent. unfold Fs.copy2. rewrite Hread.
  assert (Hdst : match Fs.kind (Fs.tree w) d with
                 | Some Fs.Directory => d ++ [Path.name src]
                 | _ => d
                 end = d).
  { by destruct Hkind as [-> | (c0 & mode & -> & _)]. }
  cbv zeta. rewrite Hdst. fs_run.
  by rewrite (open_for_writing_ready d w Hroot Hkind Hfree Hparent).
Qed.

Lemma placed_insert (t t1 : gmap (list string) Fs.entry) (d : Path.t)
    (c : string) (mode : Z) :
  Fs.is_root d = false ->
  (forall q, q ≠ d -> ~ below d q -> Fs.kind t1 q = Fs.kind t q) ->
  (forall q, Fs.is_regular (Fs.kind t1 q) = Fs.is_regular (Fs.kind t q)) ->
  placed t (<[d := Fs.Regular c mode]> t1) d c.
Proof.
  intros Hroot Hframe Hreg. split; [|split].
  - exists mode. by apply kind_insert_eq.
  - intros q Hq Hbelow. rewrite kind_insert_ne by done. by apply Hframe.
  - intros q Hq Hfile. rewrite kind_insert_ne by done. by rewrite Hreg.
Qed.

End FsCalls.

(** ** One pass of each loop, when its destination is ready *)

(** What a shared file leaves at its destination: the rendered text, or
    the content of the source when the engine does not render it. *)
Definition shared_written (self : TemplateProcessor) (vars : variables)
    (rel : Path.t) (content : string) : string :=
  match env self (Path.str ("shared" :: rel)) vars with
  | Rendered text => text
  | _ => content
  end.

Lemma fs_for_each_cons `{Fs.Host} {A B} (f : A -> Fs.M B) (x : A) (l : list A)
    (w : Fs.world) :
  Fs.for_each f (x :: l) w =
  match f x w with
  | (Ok y, w1) =>
      match Fs.for_each f l w1 with
      | (Ok ys, w2) => (Ok (y :: ys), w2)
      | (Raise e, w2) => (Raise e, w2)
      end
  | (Raise e, w1) => (Raise e, w1)
  end.
Proof.
  cbn [Fs.for_each]. fs_run. destruct (f x w) as [[y|e] w1]; [|done].
  by destruct (Fs.for_each f l w1) as [[ys|e] w2].
Qed.

Section FsPasses.

Context `{Fs.Host} (self : TemplateProcessor).

Lemma fs_process_template_rendered (template_path : string) (vars : variables)
    (text : string) (w : Fs.world) :
  env self template_path vars = Rendered text ->
  Fs.process_template self template_path vars w
  = (Ok text, Fs.World (Fs.tree w) (Fs.stdout w) (Fs.requested w ++ [template_path])).
Proof.
  intros Henv. unfold Fs.process_template, Fs.note_request. fs_run.
  by rewrite Henv.
Qed.

Lemma fs_process_template_fails (template_path : string) (vars : variables)
    (w : Fs.world) :
  (forall text, env self template_path vars ≠ Rendered text) ->
  exists e,
    (forall w0,
        Fs.process_template self template_path vars w0
        = (Raise e, Fs.World (Fs.tree w0) (Fs.stdout w0)
                             (Fs.requested w0 ++ [template_path])))
    /\ (e = FileNotFoundError
              ("Template '" +:+ template_path +:+ "' not found in '"
               +:+ Path.str (templates_dir self) +:+ "'")
        \/ exists msg,
            e = RuntimeError
                  ("Error processing template '" +:+ template_path +:+ "': " +:+ msg)).
Proof.
  intros Henv. unfold Fs.process_template, Fs.note_request. fs_run.
  destruct (env self template_path vars) as [text| |msg].
  - by destruct (Henv text).
  - eexists. split; [done|]. by left.
  - eexists. split; [done|]. right. by exists msg.
Qed.

Lemma blocked_preserved (t t1 : gmap (list string) Fs.entry) (d : Path.t) :
  (forall q, Fs.is_regular (Fs.kind t1 q) = Fs.is_regular (Fs.kind t q)) ->
  Fs.blocked t d = false -> Fs.blocked t1 d = false.
Proof.
  intros Hreg Hfree. apply blocked_false. intros q Hq. rewrite Hreg.
  by apply (proj1 (blocked_false _ _) Hfree).
Qed.

Lemma kind_preserved (t t1 : gmap (list string) Fs.entry) (d : Path.t) :
  Fs.kind t1 d = Fs.kind t d ->
  (Fs.kind t d = None
   \/ exists c mode, Fs.kind t d = Some (Fs.Regular c mode)
                     /\ Fs.may_write mode = true) ->
  (Fs.kind t1 d = None
   \/ exists c mode, Fs.kind t1 d = Some (Fs.Regular c mode)
                     /\ Fs.may_write mode = true).
Proof. by intros ->. Qed.

(** A pass over a project template that renders *)
Lemma fs_generate_one_ready (output_path : Path.t) (project_type : string)
    (vars : variables) (template_file text : string) (w : Fs.world) :
  let dest := output_file output_path project_type template_file in
  env self template_file vars = Rendered text ->
  ready (Fs.tree w) dest = true ->
  exists t1,
    Fs.generate_one self output_path project_type vars template_file w
    = (Ok (Path.str dest),
       Fs.World (<[dest := Fs.Regular text (mode_after_open (Fs.tree w) dest)]> t1)
                (Fs.stdout w ++ ["Generated: " +:+ Path.str dest])
                (Fs.requested w ++ [template_file]))
    /\ (forall q, q ≠ dest -> ~ below dest q -> Fs.kind t1 q = Fs.kind (Fs.tree w) q)
    /\ (forall q, Fs.is_regular (Fs.kind t1 q) = Fs.is_regular (Fs.kind (Fs.tree w) q)).
Proof.
  intros dest Henv Hready.
  pose proof (ready_inv _ _ Hready) as (Hroot & Hkind & Hfree).
  set (w0 := Fs.World (Fs.tree w) (Fs.stdout w) (Fs.requested w ++ [template_file])).
  destruct (mkdir_parent_ready dest w0 Hready)
    as (w1 & Hmkdir & Hout & Hreq & Hdir & Hsame & Hframe & Hreg).
  exists (Fs.tree w1). split; [|by split].
  unfold Fs.generate_one. fs_run.
  rewrite (fs_process_template_rendered _ _ _ _ Henv). fold w0.
  cbv zeta. fold dest. rewrite Hmkdir.
  rewrite (write_text_ready dest text w1 Hroot);
    [| by apply (kind_preserved (Fs.tree w)) | by apply (blocked_preserved (Fs.tree w))
     | done].
  unfold Fs.print. cbn [Fs.tree Fs.stdout Fs.requested].
  unfold mode_after_open. by rewrite Hsame, Hout, Hreq.
Qed.

(** The mode a shared file that renders has at its destination *)
Definition rendered_mode (t : gmap (list string) Fs.entry) (dest : Path.t) : Z :=
  if Str.eqb (Path.suffix dest) ".sh" then 493%Z else mode_after_open t dest.

(** The mode a shared file that is copied has at its destination *)
Definition copied_mode (src dest : Path.t) : Z :=
  if Str.eqb (Path.suffix dest) ".sh" then 493%Z else Fs.source_mode src.

Lemma chmod_script (dest : Path.t) (c : string) (mode : Z)
    (t : gmap (list string) Fs.entry) (out req : list string) :
  Fs.is_root dest = false ->
  (if Str.eqb (Path.suffix dest) ".sh" then Fs.chmod dest 493 else mret tt)
    (Fs.World (<[dest := Fs.Regular c mode]> t) out req)
  = (Ok tt,
     Fs.World (<[dest := Fs.Regular c
                          (if Str.eqb (Path.suffix dest) ".sh" then 493%Z else mode)]> t)
              out req).
Proof.
  intros Hroot. destruct (Str.eqb (Path.suffix dest) ".sh"); [|done].
  unfold Fs.chmod. cbn [Fs.tree Fs.stdout Fs.requested].
  rewrite kind_insert_eq by done. by rewrite insert_insert_eq.
Qed.

(** A pass over a shared file that renders *)
Lemma fs_copy_shared_one_rendered (output_path : Path.t) (vars : variables)
    (rel : Path.t) (text : string) (w : Fs.world) :
  let dest := shared_dest output_path rel in
  env self (Path.str ("shared" :: rel)) vars = Rendered text ->
  ready (Fs.tree w) dest = true ->
  exists t1,
    Fs.copy_shared_one self output_path vars rel w
    = (Ok (Path.str dest),
       Fs.World (<[dest := Fs.Regular text (rendered_mode (Fs.tree w) dest)]> t1)
                (Fs.stdout w ++ ["Processed shared file: " +:+ Path.str dest])
                (Fs.requested w ++ [Path.str ("shared" :: rel)]))
    /\ (forall q, q ≠ dest -> ~ below dest q -> Fs.kind t1 q = Fs.kind (Fs.tree w) q)
    /\ (forall q, Fs.is_regular (Fs.kind t1 q) = Fs.is_regular (Fs.kind (Fs.tree w) q)).
Proof.
  intros dest Henv Hready.
  pose proof (ready_inv _ _ Hready) as (Hroot & Hkind & Hfree).
  destruct (mkdir_parent_ready dest w Hready)
    as (w1 & Hmkdir & Hout & Hreq & Hdir & Hsame & Hframe & Hreg).
  exists (Fs.tree w1). split; [|by split].
  unfold Fs.copy_shared_one, Fs.try_except. fs_run. cbv zeta. fold dest.
  rewrite Hmkdir, (fs_process_template_rendered _ _ _ _ Henv).
  rewrite (write_text_ready dest text _ Hroot); cbn [Fs.tree Fs.stdout Fs.requested];
    [| by apply (kind_preserved (Fs.tree w)) | by apply (blocked_preserved (Fs.tree w))
     | done].
  unfold Fs.print. cbn [Fs.tree Fs.stdout Fs.requested].
  rewrite (chmod_script dest _ _ _ _ _ Hroot).
  unfold rendered_mode, mode_after_open. by rewrite Hsame, Hout, Hreq.
Qed.

(** A pass over a shared file that the engine does not render *)
Lemma fs_copy_shared_one_copied (output_path : Path.t) (vars : variables)
    (rel : Path.t) (content : string) (w : Fs.world) :
  let src_file := templates_dir self ++ "shared" :: rel in
  let dest := shared_dest output_path rel in
  (forall text, env self (Path.str ("shared" :: rel)) vars ≠ Rendered text) ->
  Tree.read (library self) ("shared" :: rel) = Some content ->
  ready (Fs.tree w) dest = true ->
  exists e t1,
    Fs.process_template self (Path.str ("shared" :: rel)) vars w
    = (Raise e, Fs.World (Fs.tree w) (Fs.stdout w)
                         (Fs.requested w ++ [Path.str ("shared" :: rel)]))
    /\ Fs.copy_shared_one self output_path vars rel w
       = (Ok (Path.str dest),
          Fs.World (<[dest := Fs.Regular content (copied_mode ("shared" :: rel) dest)]> t1)
                   (Fs.stdout w
                    ++ (if Str.eqb (Path.suffix dest) ".sh"
                        then [fallback_warning src_file e] else [])
                    ++ ["Copied shared file (fallback): " +:+ Path.str dest])
                   (Fs.requested w ++ [Path.str ("shared" :: rel)]))
    /\ (forall q, q ≠ dest -> ~ below dest q -> Fs.kind t1 q = Fs.kind (Fs.tree w) q)
    /\ (forall q, Fs.is_regular (Fs.kind t1 q) = Fs.is_regular (Fs.kind (Fs.tree w) q)).
Proof.
  intros src_file dest Henv Hread Hready.
  pose proof (ready_inv _ _ Hready) as (Hroot & Hkind & Hfree).
  destruct (mkdir_parent_ready dest w Hready)
    as (w1 & Hmkdir & Hout & Hreq & Hdir & Hsame & Hframe & Hreg).
  destruct (fs_process_template_fails (Path.str ("shared" :: rel)) vars w Henv)
    as (e & Hfails & _).
  exists e, (Fs.tree w1). split; [by rewrite Hfails|]. split; [|by split].
  unfold Fs.copy_shared_one, Fs.try_except. fs_run. cbv zeta.
  fold dest src_file.
  rewrite Hmkdir, Hfails.
  assert (Hcopy : forall out req,
             Fs.copy2 self ("shared" :: rel) dest (Fs.World (Fs.tree w1) out req)
             = (Ok tt,
                Fs.World (<[dest := Fs.Regular content (Fs.source_mode ("shared" :: rel))]>
                            (Fs.tree w1)) out req)).
  { intros out req.
    rewrite (copy2_ready self _ dest content _ Hread Hroot);
      cbn [Fs.tree Fs.stdout Fs.requested];
      [done | by apply (kind_preserved (Fs.tree w))
       | by apply (blocked_preserved (Fs.tree w)) | done]. }
  unfold copied_mode.
  destruct (Str.eqb (Path.suffix dest) ".sh") eqn:Hsh.
  - unfold Fs.print at 1. cbn [Fs.tree Fs.stdout Fs.requested].
    rewrite Hcopy. unfold Fs.print. cbn [Fs.tree Fs.stdout Fs.requested].
    unfold Fs.chmod. cbn [Fs.tree Fs.stdout Fs.requested].
    rewrite kind_insert_eq by done. rewrite insert_insert_eq.
    by rewrite Hout, Hreq, <- !app_assoc.
  - rewrite Hcopy. unfold Fs.print. cbn [Fs.tree Fs.stdout Fs.requested].
    by rewrite Hout, Hreq.
Qed.

End FsPasses.

(** ** The loops, when the destinations do not get in each other's way *)

(** From [t] to [t'] the files of [l] were written, each with its content:
    nothing changed but these files and the directories above them, and no
    regular file appeared elsewhere. *)
Definition written (t t' : gmap (list string) Fs.entry)
    (l : list (Path.t * string)) : Prop :=
  (forall d c, In (d, c) l -> exists mode, Fs.kind t' d = Some (Fs.Regular c mode))
  /\ (forall q, (forall d c, In (d, c) l -> q ≠ d /\ ~ below d q) ->
                Fs.kind t' q = Fs.kind t q)
  /\ (forall q, (forall d c, In (d, c) l -> q ≠ d) ->
                Fs.is_regular (Fs.kind t q) = false ->
                Fs.is_regular (Fs.kind t' q) = false).

(** No path of [ds] comes twice, and none lies below another. *)
Definition apart (ds : list Path.t) : bool :=
  bool_decide (NoDup ds)
  && forallb (fun d => forallb (fun q => bool_decide (q ∉ Fs.prefixes (removelast d))) ds) ds.

Lemma apart_inv (ds : list Path.t) :
  apart ds = true ->
  NoDup ds /\ forall d q, In d ds -> In q ds -> ~ below d q.
Proof.
  unfold apart. intros [Hnodup Hall]%andb_true_iff.
  apply bool_decide_eq_true in Hnodup. split; [done|].
  intros d q Hd Hq Hbelow.
  rewrite forallb_forall in Hall. specialize (Hall d Hd).
  rewrite forallb_forall in Hall. specialize (Hall q Hq).
  apply bool_decide_eq_true in Hall. apply Hall.
  by apply list_elem_of_In, in_prefixes_removelast.
Qed.

Lemma written_nil (t : gmap (list string) Fs.entry) : written t t [].
Proof. by repeat split. Qed.

Lemma written_single (t t' : gmap (list string) Fs.entry) (d : Path.t) (c : string) :
  placed t t' d c -> written t t' [(d, c)].
Proof.
  intros (Hfile & Hframe & Hreg). split; [|split].
  - intros d0 c0 [[= <- <-]|[]]. done.
  - intros q Hq. destruct (Hq d c (or_introl eq_refl)). by apply Hframe.
  - intros q Hq. apply Hreg. by apply (Hq d c (or_introl eq_refl)).
Qed.

Lemma written_app (t t1 t2 : gmap (list string) Fs.entry)
    (l1 l2 : list (Path.t * string)) :
  written t t1 l1 -> written t1 t2 l2 ->
  (forall d1 c1 d2 c2, In (d1, c1) l1 -> In (d2, c2) l2 -> d1 ≠ d2 /\ ~ below d2 d1) ->
  written t t2 (l1 ++ l2).
Proof.
  intros (Hfile1 & Hframe1 & Hreg1) (Hfile2 & Hframe2 & Hreg2) Hapart.
  split; [|split].
  - intros d c [Hin|Hin]%in_app_iff; [|by apply Hfile2].
    rewrite Hframe2; [by apply (Hfile1 d c)|].
    intros d2 c2 Hin2. by apply (Hapart d c d2 c2).
  - intros q Hq. rewrite Hframe2, Hframe1; [done| |].
    + intros d c Hin. apply (Hq d c), in_app_iff. by left.
    + intros d c Hin. apply (Hq d c), in_app_iff. by right.
  - intros q Hq Hfile. apply Hreg2.
    + intros d c Hin. apply (Hq d c), in_app_iff. by right.
    + apply Hreg1; [|done]. intros d c Hin. apply (Hq d c), in_app_iff. by left.
Qed.

Section FsLoops.

Context `{Fs.Host}.

Lemma ready_intro (t : gmap (list string) Fs.entry) (d : Path.t) :
  Fs.is_root d = false ->
  (Fs.kind t d = None
   \/ exists c mode, Fs.kind t d = Some (Fs.Regular c mode)
                     /\ Fs.may_write mode = true) ->
  Fs.blocked t d = false ->
  ready t d = true.
Proof.
  intros Hroot Hkind Hfree. unfold ready. rewrite Hroot, Hfree.
  by destruct Hkind as [-> | (c & mode & -> & ->)].
Qed.

(** A file stays ready when other files are written that are neither it,
    nor above it, nor below it. *)
Lemma ready_written (t t' : gmap (list string) Fs.entry)
    (l : list (Path.t * string)) (d : Path.t) :
  ready t d = true ->
  written t t' l ->
  (forall d1 c1, In (d1, c1) l -> d ≠ d1 /\ ~ below d1 d /\ ~ below d d1) ->
  ready t' d = true.
Proof.
  intros (Hroot & Hkind & Hfree)%ready_inv (_ & Hframe & Hreg) Hapart.
  apply ready_intro; [done| |].
  - apply (kind_preserved t); [|done]. apply Hframe.
    intros d1 c1 Hin. by destruct (Hapart d1 c1 Hin) as (? & ? & ?).
  - apply blocked_false. intros q Hq. apply Hreg.
    + intros d1 c1 Hin -> . by destruct (Hapart d1 c1 Hin) as (? & ? & ?).
    + by apply (proj1 (blocked_false _ _) Hfree).
Qed.

(** A loop whose passes each write their file, over destinations that are
    apart and ready, returns and leaves every file written. *)
Lemma fs_for_each_written {A} (f : A -> Fs.M string) (dest : A -> Path.t)
    (content : A -> string) (l : list A) :
  (forall x, In x l -> forall w,
        ready (Fs.tree w) (dest x) = true ->
        exists w', f x w = (Ok (Path.str (dest x)), w')
                   /\ placed (Fs.tree w) (Fs.tree w') (dest x) (content x)) ->
  apart (map dest l) = true ->
  forall w,
    (forall x, In x l -> ready (Fs.tree w) (dest x) = true) ->
    exists w',
      Fs.for_each f l w = (Ok (map (fun x => Path.str (dest x)) l), w')
      /\ written (Fs.tree w) (Fs.tree w') (map (fun x => (dest x, content x)) l).
Proof.
  intros Hpass [Hnodup Hapart]%apart_inv.
  induction l as [|x l IH]; intros w Hready.
  - exists w. split; [done|]. apply written_nil.
  - cbn [map] in Hnodup, Hapart. apply NoDup_cons in Hnodup as [Hfresh Hnodup].
    assert (Hother : forall y, In y l ->
               dest x ≠ dest y /\ ~ below (dest y) (dest x) /\ ~ below (dest x) (dest y)).
    { intros y Hy.
      assert (Hin : In (dest y) (map dest l)) by by apply in_map.
      split; [|split].
      - intros Heq. apply Hfresh. rewrite Heq. by apply list_elem_of_In.
      - apply Hapart; [by right | by left].
      - apply Hapart; [by left | by right]. }
    destruct (Hpass x (or_introl eq_refl) w (Hready x (or_introl eq_refl)))
      as (w1 & Hrun & Hplaced).
    destruct (IH) with (w := w1) as (w2 & Hloop & Hwritten).
    + intros y Hy. apply Hpass. by right.
    + done.
    + intros d q Hd Hq. apply Hapart; by right.
    + intros y Hy. apply (ready_written (Fs.tree w) _ [(dest x, content x)]).
      * apply Hready. by right.
      * by apply written_single.
      * intros d1 c1 [[= <- <-]|[]].
        destruct (Hother y Hy) as (Hne & Hb1 & Hb2). by repeat split.
    + exists w2. rewrite fs_for_each_cons, Hrun, Hloop. split; [done|].
      change (map (fun y => (dest y, content y)) (x :: l))
        with ([(dest x, content x)] ++ map (fun y => (dest y, content y)) l).
      apply (written_app _ (Fs.tree w1)); [by apply written_single | done |].
      intros d1 c1 d2 c2 [[= <- <-]|[]] (y & [= <- <-] & Hy)%in_map_iff.
      destruct (Hother y Hy) as (Hne & Hb1 & Hb2). by split.
Qed.

End FsLoops.

(** ** A whole run *)

(** The text the engine gives for a template, when it renders *)
Definition rendered_text (self : TemplateProcessor) (vars : variables)
    (template_file : string) : string :=
  match env self template_file vars with
  | Rendered text => text
  | _ => ""
  end.

(** What the shared file [rel] leaves at its destination *)
Definition shared_content (self : TemplateProcessor) (vars : variables)
    (rel : Path.t) : string :=
  shared_written self vars rel
    (default "" (Tree.read (library self) ("shared" :: rel))).

(** The output directory can be made and the files [ds] written: no file
    is in the way of the output directory, each of [ds] is ready and is
    neither the output directory nor above it, and [ds] are apart. *)
Definition can_generate `{Fs.Host} (t : gmap (list string) Fs.entry)
    (output_path : Path.t) (ds : list Path.t) : bool :=
  negb (Fs.is_regular (Fs.kind t output_path))
  && negb (Fs.blocked t output_path)
  && forallb (fun d => ready t d && bool_decide (d ∉ Fs.prefixes output_path)) ds
  && apart ds.

Section FsRun.

Context `{Fs.Host} (self : TemplateProcessor).

Lemma fs_get_template_files_found (project_type : string) (top : node)
    (w : Fs.world) :
  Tree.find (library self) (Path.of_string project_type) = Some top ->
  Fs.get_template_files self project_type w =
  (Ok (map (fun p => Str.join "/" (Path.of_string project_type ++ p))
           (discovered top)), w).
Proof.
  intros Hfind. unfold Fs.get_template_files. rewrite Hfind.
  by rewrite discovered_names.
Qed.

Lemma fs_generate_one_placed (output_path : Path.t) (project_type : string)
    (vars : variables) (template_file text : string) (w : Fs.world) :
  env self template_file vars = Rendered text ->
  ready (Fs.tree w) (output_file output_path project_type template_file) = true ->
  exists w',
    Fs.generate_one self output_path project_type vars template_file w
    = (Ok (Path.str (output_file output_path project_type template_file)), w')
    /\ placed (Fs.tree w) (Fs.tree w')
              (output_file output_path project_type template_file)
              (rendered_text self vars template_file).
Proof.
  intros Henv Hready.
  destruct (fs_generate_one_ready self output_path project_type vars
              template_file text w Henv Hready) as (t1 & Hrun & Hframe & Hreg).
  eexists. split; [exact Hrun|]. cbn [Fs.tree].
  unfold rendered_text. rewrite Henv.
  apply placed_insert; [|done..]. by apply ready_inv in Hready as (? & _).
Qed.

Lemma fs_copy_shared_one_placed (output_path : Path.t) (vars : variables)
    (rel : Path.t) (content : string) (w : Fs.world) :
  Tree.read (library self) ("shared" :: rel) = Some content ->
  ready (Fs.tree w) (shared_dest output_path rel) = true ->
  exists w',
    Fs.copy_shared_one self output_path vars rel w
    = (Ok (Path.str (shared_dest output_path rel)), w')
    /\ placed (Fs.tree w) (Fs.tree w') (shared_dest output_path rel)
              (shared_content self vars rel).
Proof.
  intros Hread Hready.
  pose proof (ready_inv _ _ Hready) as (Hroot & _).
  unfold shared_content, shared_written. rewrite Hread. cbn [default].
  destruct (env self (Path.str ("shared" :: rel)) vars) as [text| |msg] eqn:Henv.
  - destruct (fs_copy_shared_one_rendered self output_path vars rel text w Henv Hready)
      as (t1 & Hrun & Hframe & Hreg).
    eexists. split; [exact Hrun|]. by apply placed_insert.
  - destruct (fs_copy_shared_one_copied self output_path vars rel content w)
      as (e & t1 & _ & Hrun & Hframe & Hreg); [by rewrite Henv | done | done |].
    eexists. split; [exact Hrun|]. by apply placed_insert.
  - destruct (fs_copy_shared_one_copied self output_path vars rel content w)
      as (e & t1 & _ & Hrun & Hframe & Hreg); [by rewrite Henv | done | done |].
    eexists. split; [exact Hrun|]. by apply placed_insert.
Qed.

Lemma can_generate_inv (t : gmap (list string) Fs.entry) (output_path : Path.t)
    (ds : list Path.t) :
  can_generate t output_path ds = true ->
  Fs.is_regular (Fs.kind t output_path) = false
  /\ Fs.blocked t output_path = false
  /\ (forall d, In d ds -> ready t d = true /\ ~ In d (Fs.prefixes output_path))
  /\ apart ds = true.
Proof.
  unfold can_generate.
  intros [[[Hfile Hfree]%andb_true_iff Hall]%andb_true_iff Hapart]%andb_true_iff.
  apply negb_true_iff in Hfile, Hfree.
  split; [done|]. split; [done|]. split; [|done].
  intros d Hd. rewrite forallb_forall in Hall.
  apply Hall, andb_true_iff in Hd as [Hready Hout%bool_decide_eq_true].
  split; [done|]. by rewrite <- list_elem_of_In.
Qed.

(** Making the output directory leaves ready what was ready and is not
    on the way to it. *)
Lemma ready_after_mkdir (output_path d : Path.t) (w w1 : Fs.world) :
  ready (Fs.tree w) d = true ->
  ~ In d (Fs.prefixes output_path) ->
  (forall q, ~ In q (Fs.prefixes output_path) ->
             Fs.kind (Fs.tree w1) q = Fs.kind (Fs.tree w) q) ->
  (forall q, Fs.is_regular (Fs.kind (Fs.tree w1) q)
             = Fs.is_regular (Fs.kind (Fs.tree w) q)) ->
  ready (Fs.tree w1) d = true.
Proof.
  intros (Hroot & Hkind & Hfree)%ready_inv Hout Hframe Hreg.
  apply ready_intro; [done| |].
  - apply (kind_preserved (Fs.tree w)); [by apply Hframe | done].
  - by apply (blocked_preserved (Fs.tree w)).
Qed.

Lemma apart_app (ds1 ds2 : list Path.t) :
  apart (ds1 ++ ds2) = true ->
  apart ds1 = true /\ apart ds2 = true
  /\ forall d1 d2, In d1 ds1 -> In d2 ds2 ->
                   d1 ≠ d2 /\ ~ below d1 d2 /\ ~ below d2 d1.
Proof.
  intros Happ. pose proof (apart_inv _ Happ) as [Hnodup Hbelow].
  apply NoDup_app in Hnodup as (Hnodup1 & Hdisj & Hnodup2).
  assert (Hsub : forall ds, (forall d, In d ds -> In d (ds1 ++ ds2)) -> NoDup ds ->
                            apart ds = true).
  { intros ds Hds Hnd. unfold apart. apply andb_true_iff. split.
    - by apply bool_decide_eq_true.
    - apply forallb_forall. intros d Hd. apply forallb_forall. intros q Hq.
      apply bool_decide_eq_true. rewrite list_elem_of_In, in_prefixes_removelast.
      apply Hbelow; by apply Hds. }
  split; [|split].
  - apply Hsub; [|done]. intros d Hd. apply in_app_iff. by left.
  - apply Hsub; [|done]. intros d Hd. apply in_app_iff. by right.
  - intros d1 d2 Hd1 Hd2. split; [|split].
    + intros ->. apply (Hdisj d2); by apply list_elem_of_In.
    + apply Hbelow; apply in_app_iff; [by left | by right].
    + apply Hbelow; apply in_app_iff; [by right | by left].
Qed.

(** The files a run leaves, by destination and content *)
Definition outputs (output_path : Path.t) (project_type : string)
    (vars : variables) (templates : list string) (copy_shared : bool) :
    list (Path.t * string) :=
  map (fun tf => (output_file output_path project_type tf,
                  rendered_text self vars tf)) templates
  ++ (if copy_shared
      then map (fun rel => (shared_dest output_path rel, shared_content self vars rel))
               (shared_files self)
      else []).

Lemma outputs_dests (output_path : Path.t) (project_type : string)
    (vars : variables) (templates : list string) (copy_shared : bool) :
  map fst (outputs output_path project_type vars templates copy_shared)
  = map (output_file output_path project_type) templates
    ++ (if copy_shared then map (shared_dest output_path) (shared_files self) else []).
Proof.
  unfold outputs. rewrite map_app, map_map. f_equal.
  destruct copy_shared; [|done]. by rewrite map_map.
Qed.

(** A run whose templates all render, on a file system where the
    destinations are ready and apart, returns the destinations in order
    and leaves every file written. *)
Lemma fs_generate_project_files_written (output_dir project_type : string)
    (vars : variables) (copy_shared : bool) (top : node) (w : Fs.world) :
  let output_path := Path.of_string output_dir in
  let templates :=
    map (fun p => Str.join "/" (Path.of_string project_type ++ p)) (discovered top) in
  Tree.find (library self) (Path.of_string project_type) = Some top ->
  (copy_shared = true -> Tree.wf (library self) = true) ->
  (forall tf, In tf templates -> exists text, env self tf vars = Rendered text) ->
  can_generate (Fs.tree w) output_path
    (map fst (outputs output_path project_type vars templates copy_shared)) = true ->
  exists w1 w',
    Fs.mkdir_parents output_path w = (Ok tt, w1)
    /\ Fs.kind (Fs.tree w1) output_path = Some Fs.Directory
    /\ (forall q, ~ In q (Fs.prefixes output_path) ->
                  Fs.kind (Fs.tree w1) q = Fs.kind (Fs.tree w) q)
    /\ (forall q, Fs.is_regular (Fs.kind (Fs.tree w1) q)
                  = Fs.is_regular (Fs.kind (Fs.tree w) q))
    /\ Fs.generate_project_files self output_dir project_type vars copy_shared w
       = (Ok (map (fun d => Path.str (fst d))
                  (outputs output_path project_type vars templates copy_shared)), w')
    /\ written (Fs.tree w1) (Fs.tree w')
               (outputs output_path project_type vars templates copy_shared).
Proof.
  intros output_path templates Hfind Hwf Hrender
    (Hfile & Hfree & Hready & Hapart)%can_generate_inv.
  destruct (mkdir_parents_ok output_path w Hfile Hfree)
    as (w1 & Hmkdir & Hout & Hreq & Hdir & Hframe & Hreg).
  rewrite outputs_dests in Hapart. unfold outputs.
  assert (Hready' : forall d,
             In d (map (output_file output_path project_type) templates
                   ++ (if copy_shared
                       then map (shared_dest output_path) (shared_files self)
                       else [])) ->
             ready (Fs.tree w) d = true /\ ~ In d (Fs.prefixes output_path)).
  { intros d Hd. apply Hready. by rewrite outputs_dests. }
  clear Hready. rename Hready' into Hready.
  apply apart_app in Hapart as (Hapart1 & Hapart2 & Hcross).
  destruct (fs_for_each_written
              (Fs.generate_one self output_path project_type vars)
              (output_file output_path project_type)
              (rendered_text self vars) templates) with (w := w1)
    as (w2 & Hloop1 & Hwritten1).
  { intros tf Htf w0 Hr. destruct (Hrender tf Htf) as (text & Henv).
    by apply (fs_generate_one_placed _ _ _ _ text). }
  { done. }
  { intros tf Htf. destruct (Hready (output_file output_path project_type tf)).
    - apply in_app_iff. left. by apply in_map.
    - by apply (ready_after_mkdir output_path _ w). }
  destruct copy_shared.
  - unfold shared_files in *.
    destruct (Tree.find (library self) ["shared"]) as [shared_dir|] eqn:Hshared.
    + destruct (fs_for_each_written
                  (Fs.copy_shared_one self output_path vars)
                  (shared_dest output_path)
                  (shared_content self vars)
                  (Tree.walk_files shared_dir)) with (w := w2)
        as (w3 & Hloop2 & Hwritten2).
      { intros rel Hrel w0 Hr.
        destruct (shared_file_readable _ _ _ (Hwf eq_refl) Hshared Hrel)
          as (content & Hread).
        by apply (fs_copy_shared_one_placed _ _ _ content). }
      { done. }
      { intros rel Hrel.
        assert (Hin : In (shared_dest output_path rel)
                         (map (shared_dest output_path) (Tree.walk_files shared_dir)))
          by by apply in_map.
        destruct (Hready (shared_dest output_path rel)) as [Hr Hnot].
        { apply in_app_iff. by right. }
        apply (ready_written (Fs.tree w1) _
                 (map (fun tf => (output_file output_path project_type tf,
                                  rendered_text self vars tf)) templates)).
        - by apply (ready_after_mkdir output_path _ w).
        - done.
        - intros d1 c1 (tf & [= <- <-] & Htf)%in_map_iff.
          destruct (Hcross (output_file output_path project_type tf)
                           (shared_dest output_path rel)) as (Hne & Hb1 & Hb2);
            [by apply in_map | done |]. by repeat split. }
      exists w1, w3. split; [done|]. split; [done|]. split; [done|]. split; [done|].
      split.
      * unfold Fs.generate_project_files, Fs._copy_shared_files. fs_run.
        fold output_path. rewrite Hmkdir.
        rewrite (fs_get_template_files_found _ _ _ Hfind). fold templates.
        rewrite Hloop1, Hshared, Hloop2. by rewrite map_app, !map_map.
      * apply (written_app _ (Fs.tree w2)); [done | done |].
        intros d1 c1 d2 c2 (tf & [= <- <-] & Htf)%in_map_iff
          (rel & [= <- <-] & Hrel)%in_map_iff.
        destruct (Hcross (output_file output_path project_type tf)
                         (shared_dest output_path rel)) as (Hne & Hb1 & Hb2);
          [by apply in_map | by apply in_map |]. by split.
    + exists w1, w2. split; [done|]. split; [done|]. split; [done|]. split; [done|].
      cbn [map]. rewrite app_nil_r. split; [|done].
      unfold Fs.generate_project_files, Fs._copy_shared_files. fs_run.
      fold output_path. rewrite Hmkdir.
      rewrite (fs_get_template_files_found _ _ _ Hfind). fold templates.
      rewrite Hloop1, Hshared. by rewrite app_nil_r, map_map.
  - exists w1, w2. split; [done|]. split; [done|]. split; [done|]. split; [done|].
    rewrite app_nil_r. split; [|done].
    unfold Fs.generate_project_files. fs_run.
    fold output_path. rewrite Hmkdir.
    rewrite (fs_get_template_files_found _ _ _ Hfind). fold templates.
    rewrite Hloop1. by rewrite map_map.
Qed.

End FsRun.

(** ** The extension of a shared file *)








Lemma shared_file_read (self : TemplateProcessor) (rel : Path.t) :
  Tree.wf (library self) = true ->
  In rel (shared_files self) ->
  exists content, Tree.read (library self) ("shared" :: rel) = Some content.
Proof.
  unfold shared_files. intros Hwf Hrel.
  destruct (Tree.find (library self) ["shared"]) as [shared_dir|] eqn:Hshared; [|done].
  by apply (shared_file_readable _ shared_dir).
Qed.

(** A host on which new files get the mode 0o644, a file may be written
    when its owner may write it, and the files of the templates directory
    are read-only *)
Definition sample_host : Fs.Host :=
  {| Fs.new_file_mode := 420%Z;
     Fs.may_write mode := Z.testbit mode 7;
     Fs.source_mode _ := 292%Z |}.



(** ** A run on any file system *)

(** From [t] to [t'] nothing went away: a directory is still a directory
    and a regular file still a regular file. *)
Definition grows (t t' : gmap (list string) Fs.entry) : Prop :=
  forall q,
    (Fs.kind t q = Some Fs.Directory -> Fs.kind t' q = Some Fs.Directory)
    /\ (Fs.is_regular (Fs.kind t q) = true -> Fs.is_regular (Fs.kind t' q) = true).

(** Whatever comes of the computation, nothing goes away. *)
Definition keeps {A} (m : Fs.M A) : Prop :=
  forall w r w', m w = (r, w') -> grows (Fs.tree w) (Fs.tree w').

Lemma grows_refl (t : gmap (list string) Fs.entry) : grows t t.
Proof. by intros q. Qed.

Lemma grows_trans (t1 t2 t3 : gmap (list string) Fs.entry) :
  grows t1 t2 -> grows t2 t3 -> grows t1 t3.
Proof.
  intros H12 H23 q. destruct (H12 q) as [Hd12 Hr12], (H23 q) as [Hd23 Hr23].
  split; auto.
Qed.

Lemma grows_exists (t t' : gmap (list string) Fs.entry) (q : Path.t) :
  grows t t' -> Fs.kind t q ≠ None -> Fs.kind t' q ≠ None.
Proof.
  intros Hgrows Hq. destruct (Hgrows q) as [Hdir Hreg].
  destruct (Fs.kind t q) as [[|c mode]|] eqn:Hkind; [| |done].
  - by rewrite Hdir.
  - specialize (Hreg eq_refl). by destruct (Fs.kind t' q).
Qed.

(** Writing a regular file where no directory is *)
Lemma grows_insert (t : gmap (list string) Fs.entry) (p : Path.t) (c : string)
    (mode : Z) :
  Fs.kind t p ≠ Some Fs.Directory ->
  grows t (<[p := Fs.Regular c mode]> t).
Proof.
  intros Hp q. destruct (decide (q = p)) as [->|Hne].
  - split; [done|]. intros Hreg.
    rewrite kind_insert_eq; [done|].
    unfold Fs.kind in Hreg. by destruct (Fs.is_root p).
  - by rewrite kind_insert_ne.
Qed.

Lemma keeps_ret {A} (a : A) : keeps (mret a : Fs.M A).
Proof. intros w r w' [= <- <-]. apply grows_refl. Qed.

Lemma keeps_raise {A} (e : exn) : keeps (Fs.raise e : Fs.M A).
Proof. intros w r w' [= <- <-]. apply grows_refl. Qed.

Lemma keeps_bind {A B} (m : Fs.M A) (k : A -> Fs.M B) :
  keeps m -> (forall a, keeps (k a)) -> keeps (m ≫= k).
Proof.
  intros Hm Hk w r w'. fs_run.
  destruct (m w) as [[a|e] w1] eqn:Hrun.
  - intros Hk'. eapply grows_trans; [by eapply Hm | by eapply Hk].
  - intros [= <- <-]. by eapply Hm.
Qed.

Lemma keeps_try {A} (body : Fs.M A) (handler : exn -> Fs.M A) :
  keeps body -> (forall e, keeps (handler e)) -> keeps (Fs.try_except body handler).
Proof.
  intros Hbody Hhandler w r w'. unfold Fs.try_except.
  destruct (body w) as [[a|e] w1] eqn:Hrun.
  - intros [= <- <-]. by eapply Hbody.
  - intros Hh. eapply grows_trans; [by eapply Hbody | by eapply Hhandler].
Qed.

Lemma keeps_for_each {A B} (f : A -> Fs.M B) (l : list A) :
  (forall x, keeps (f x)) -> keeps (Fs.for_each f l).
Proof.
  intros Hf. induction l as [|x l IH].
  - apply keeps_ret.
  - cbn [Fs.for_each]. apply keeps_bind; [done|]. intros y.
    apply keeps_bind; [done|]. intros ys. apply keeps_ret.
Qed.

Lemma keeps_print (line : string) : keeps (Fs.print line).
Proof. intros w r w' [= <- <-]. apply grows_refl. Qed.

Lemma keeps_note_request (template_path : string) :
  keeps (Fs.note_request template_path).
Proof. intros w r w' [= <- <-]. apply grows_refl. Qed.

Section FsAnywhere.

Context `{Fs.Host}.

Lemma keeps_mkdir_parents (p : Path.t) : keeps (Fs.mkdir_parents p).
Proof.
  intros w r w'. unfold Fs.mkdir_parents.
  destruct (Fs.kind (Fs.tree w) p) as [[|c mode]|] eqn:Hkind;
    [intros [= <- <-]; apply grows_refl..|].
  destruct (Fs.blocked (Fs.tree w) p) eqn:Hfree;
    intros [= <- <-]; [apply grows_refl|].
  cbn [Fs.tree]. intros q.
  destruct (decide (q ∈ Fs.prefixes p)) as [Hin%list_elem_of_In|Hout].
  - rewrite kind_add_dirs_in by done. split; [done|]. intros Hreg.
    apply in_prefixes in Hin as (Hq & k & Hk).
    destruct k as [|x k].
    + rewrite app_nil_r in Hk. subst q. by rewrite Hkind in Hreg.
    + rewrite (proj1 (blocked_false _ _) Hfree q) in Hreg; [done|].
      split; [done|]. by exists (x :: k).
  - rewrite kind_add_dirs_out; [done|]. by rewrite <- list_elem_of_In.
Qed.

(** What [open(p, 'w')] tells when it returns *)
Lemma open_for_writing_inv (p : Path.t) (w : Fs.world) (r : result (option Z))
    (w' : Fs.world) :
  Fs.open_for_writing p w = (r, w') ->
  w' = w
  /\ forall old, r = Ok old ->
                 Fs.is_root p = false /\ Fs.kind (Fs.tree w) p ≠ Some Fs.Directory.
Proof.
  unfold Fs.open_for_writing.
  assert (Hroot : Fs.kind (Fs.tree w) p ≠ Some Fs.Directory -> Fs.is_root p = false).
  { unfold Fs.kind. by destruct (Fs.is_root p). }
  destruct (Fs.kind (Fs.tree w) p) as [[|c mode]|] eqn:Hkind.
  - intros [= <- <-]. by split.
  - destruct (Fs.may_write mode); intros [= <- <-]; (split; [done|]);
      [|done]. intros old _. split; [by apply Hroot | done].
  - destruct (Fs.blocked (Fs.tree w) p); [intros [= <- <-]; by split|].
    destruct (Fs.kind (Fs.tree w) (Fs.parent p)) as [[|c mode]|];
      intros [= <- <-]; (split; [done|]); [|done..].
    intros old _. split; [by apply Hroot | done].
Qed.

(** What writing a file leaves: the file when it returns, nothing new
    when it raises *)
Lemma write_text_inv (p : Path.t) (content : string) (w : Fs.world)
    (r : result unit) (w' : Fs.world) :
  Fs.write_text p content w = (r, w') ->
  match r with
  | Ok _ =>
      Fs.is_root p = false
      /\ Fs.kind (Fs.tree w) p ≠ Some Fs.Directory
      /\ exists mode,
          w' = Fs.World (<[p := Fs.Regular content mode]> (Fs.tree w))
                        (Fs.stdout w) (Fs.requested w)
  | Raise _ => w' = w
  end.
Proof.
  unfold Fs.write_text. fs_run.
  destruct (Fs.open_for_writing p w) as [[old|e] w1] eqn:Hopen;
    apply open_for_writing_inv in Hopen as [-> Hok].
  - unfold Fs.set_entry. intros [= <- <-].
    destruct (Hok old eq_refl) as [Hroot Hdir]. split; [done|]. split; [done|].
    by eexists.
  - by intros [= <- <-].
Qed.

Lemma keeps_write_text (p : Path.t) (content : string) :
  keeps (Fs.write_text p content).
Proof.
  intros w r w' Hrun. apply write_text_inv in Hrun.
  destruct r as [[]|e].
  - destruct Hrun as (_ & Hdir & mode & ->). by apply grows_insert.
  - subst w'. apply grows_refl.
Qed.

(** What the copy leaves: the file at the destination, or in it when the
    destination is a directory *)
Lemma copy2_inv (self : TemplateProcessor) (src dest : Path.t) (w : Fs.world)
    (r : result unit) (w' : Fs.world) :
  Fs.copy2 self src dest w = (r, w') ->
  match r with
  | Ok _ =>
      exists content dst,
        Tree.read (library self) src = Some content
        /\ dst = match Fs.kind (Fs.tree w) dest with
                 | Some Fs.Directory => dest ++ [Path.name src]
                 | _ => dest
                 end
        /\ Fs.is_root dst = false
        /\ Fs.kind (Fs.tree w) dst ≠ Some Fs.Directory
        /\ w' = Fs.World (<[dst := Fs.Regular content (Fs.source_mode src)]> (Fs.tree w))
                         (Fs.stdout w) (Fs.requested w)
  | Raise _ => w' = w
  end.
Proof.
  unfold Fs.copy2.
  destruct (Tree.read (library self) src) as [content|]; [|by intros [= <- <-]].
  cbv zeta. fs_run.
  destruct (Fs.open_for_writing _ w) as [[old|e] w1] eqn:Hopen;
    apply open_for_writing_inv in Hopen as [-> Hok].
  - unfold Fs.set_entry. intros [= <- <-].
    destruct (Hok old eq_refl) as [Hroot Hdir]. by eexists _, _.
  - by intros [= <- <-].
Qed.

Lemma keeps_copy2 (self : TemplateProcessor) (src dest : Path.t) :
  keeps (Fs.copy2 self src dest).
Proof.
  intros w r w' Hrun. apply copy2_inv in Hrun.
  destruct r as [[]|e].
  - destruct Hrun as (content & dst & _ & _ & _ & Hdir & ->).
    by apply grows_insert.
  - subst w'. apply grows_refl.
Qed.

Lemma keeps_chmod (p : Path.t) (mode : Z) : keeps (Fs.chmod p mode).
Proof.
  intros w r w'. unfold Fs.chmod.
  destruct (Fs.kind (Fs.tree w) p) as [[|c old]|] eqn:Hkind;
    intros [= <- <-]; try apply grows_refl.
  apply grows_insert. by rewrite Hkind.
Qed.

Lemma keeps_process_template (self : TemplateProcessor) (template_path : string)
    (vars : variables) :
  keeps (Fs.process_template self template_path vars).
Proof.
  unfold Fs.process_template. apply keeps_bind; [apply keeps_note_request|].
  intros []. destruct (env self template_path vars);
    [apply keeps_ret | apply keeps_raise..].
Qed.

Lemma keeps_generate_one (self : TemplateProcessor) (output_path : Path.t)
    (project_type : string) (vars : variables) (template_file : string) :
  keeps (Fs.generate_one self output_path project_type vars template_file).
Proof.
  unfold Fs.generate_one.
  apply keeps_bind; [apply keeps_process_template|]. intros content. cbv zeta.
  apply keeps_bind; [apply keeps_mkdir_parents|]. intros _.
  apply keeps_bind; [apply keeps_write_text|]. intros _.
  apply keeps_bind; [apply keeps_print|]. intros _. apply keeps_ret.
Qed.

Lemma keeps_copy_shared_one (self : TemplateProcessor) (output_path : Path.t)
    (vars : variables) (rel : Path.t) :
  keeps (Fs.copy_shared_one self output_path vars rel).
Proof.
  unfold Fs.copy_shared_one. cbv zeta.
  apply keeps_bind; [apply keeps_mkdir_parents|]. intros _.
  apply keeps_bind.
  - apply keeps_try.
    + apply keeps_bind; [apply keeps_process_template|]. intros content.
      apply keeps_bind; [apply keeps_write_text|]. intros _. apply keeps_print.
    + intros e. apply keeps_bind.
      * destruct (Str.eqb _ ".sh"); [apply keeps_print | apply keeps_ret].
      * intros _. apply keeps_bind; [apply keeps_copy2|]. intros _.
        apply keeps_print.
  - intros _. apply keeps_bind.
    + destruct (Str.eqb _ ".sh"); [apply keeps_chmod | apply keeps_ret].
    + intros _. apply keeps_ret.
Qed.

End FsAnywhere.

Lemma fs_bind_inv {A B} (m : Fs.M A) (k : A -> Fs.M B) (w : Fs.world)
    (r : result B) (w' : Fs.world) :
  (m ≫= k) w = (r, w') ->
  (exists a w1, m w = (Ok a, w1) /\ k a w1 = (r, w'))
  \/ (exists e, m w = (Raise e, w') /\ r = Raise e).
Proof.
  fs_run. destruct (m w) as [[a|e] w1].
  - intros Hk. left. by exists a, w1.
  - intros [= <- <-]. right. by exists e.
Qed.

Lemma fs_bind_ok_inv {A B} (m : Fs.M A) (k : A -> Fs.M B) (w : Fs.world)
    (b : B) (w' : Fs.world) :
  (m ≫= k) w = (Ok b, w') ->
  exists a w1, m w = (Ok a, w1) /\ k a w1 = (Ok b, w').
Proof. by intros [Hok | (e & _ & [=])]%fs_bind_inv. Qed.

Lemma fs_try_inv {A} (body : Fs.M A) (handler : exn -> Fs.M A) (w : Fs.world)
    (r : result A) (w' : Fs.world) :
  Fs.try_except body handler w = (r, w') ->
  (exists a, body w = (Ok a, w') /\ r = Ok a)
  \/ (exists e w1, body w = (Raise e, w1) /\ handler e w1 = (r, w')).
Proof.
  unfold Fs.try_except. destruct (body w) as [[a|e] w1].
  - intros [= <- <-]. left. by exists a.
  - intros Hh. right. by exists e, w1.
Qed.

Section FsReturns.

Context `{Fs.Host} (self : TemplateProcessor).

Lemma process_template_inv (template_path : string) (vars : variables)
    (w : Fs.world) (r : result string) (w' : Fs.world) :
  Fs.process_template self template_path vars w = (r, w') ->
  w' = Fs.World (Fs.tree w) (Fs.stdout w) (Fs.requested w ++ [template_path])
  /\ (forall text, r = Ok text -> env self template_path vars = Rendered text).
Proof.
  unfold Fs.process_template, Fs.note_request. fs_run.
  destruct (env self template_path vars) as [text| |msg];
    intros [= <- <-]; (split; [done|]); intros text' [=]. by subst.
Qed.

Lemma mkdir_parents_inv (p : Path.t) (w : Fs.world) (r : result unit)
    (w' : Fs.world) :
  Fs.mkdir_parents p w = (r, w') ->
  Fs.stdout w' = Fs.stdout w /\ Fs.requested w' = Fs.requested w.
Proof.
  unfold Fs.mkdir_parents.
  destruct (Fs.kind (Fs.tree w) p) as [[|c mode]|]; [by intros [= <- <-]..|].
  by destruct (Fs.blocked (Fs.tree w) p); intros [= <- <-].
Qed.

Lemma chmod_inv (p : Path.t) (mode : Z) (w : Fs.world) (r : result unit)
    (w' : Fs.world) :
  Fs.chmod p mode w = (r, w') ->
  Fs.stdout w' = Fs.stdout w /\ Fs.requested w' = Fs.requested w.
Proof.
  unfold Fs.chmod.
  by destruct (Fs.kind (Fs.tree w) p) as [[|c old]|]; intros [= <- <-].
Qed.

(** A pass over a project template that returns: the template rendered,
    and its destination is a regular file that holds the text. *)
Lemma fs_generate_one_inv (output_path : Path.t) (project_type : string)
    (vars : variables) (template_file : string) (w : Fs.world) (y : string)
    (w' : Fs.world) :
  let dest := output_file output_path project_type template_file in
  Fs.generate_one self output_path project_type vars template_file w = (Ok y, w') ->
  y = Path.str dest
  /\ Fs.requested w' = Fs.requested w ++ [template_file]
  /\ (exists text mode,
         env self template_file vars = Rendered text
         /\ Fs.kind (Fs.tree w') dest = Some (Fs.Regular text mode)).
Proof.
  intros dest. unfold Fs.generate_one. cbv zeta. fold dest.
  intros (content & w0 & Hrender & Hrun)%fs_bind_ok_inv.
  apply process_template_inv in Hrender as [-> Henv].
  apply fs_bind_ok_inv in Hrun as ([] & w1 & Hmkdir & Hrun).
  apply mkdir_parents_inv in Hmkdir as [_ Hreq]. cbn [Fs.requested] in Hreq.
  apply fs_bind_ok_inv in Hrun as ([] & w2 & Hwrite & Hrun).
  apply write_text_inv in Hwrite as (Hroot & _ & mode & ->).
  apply fs_bind_ok_inv in Hrun as ([] & w3 & [= <-] & [= <- <-]).
  cbn [Fs.tree Fs.requested]. split; [done|]. split; [done|].
  exists content, mode. split; [by apply Henv|]. by apply kind_insert_eq.
Qed.

(** A pass over a shared file that returns: its destination is there. *)
Lemma fs_copy_shared_one_inv (output_path : Path.t) (vars : variables)
    (rel : Path.t) (w : Fs.world) (y : string) (w' : Fs.world) :
  let dest := shared_dest output_path rel in
  Fs.copy_shared_one self output_path vars rel w = (Ok y, w') ->
  y = Path.str dest
  /\ Fs.requested w' = Fs.requested w ++ [Path.str ("shared" :: rel)]
  /\ Fs.kind (Fs.tree w') dest ≠ None.
Proof.
  intros dest. unfold Fs.copy_shared_one. cbv zeta. fold dest.
  intros ([] & w1 & Hmkdir & Hrun)%fs_bind_ok_inv.
  apply mkdir_parents_inv in Hmkdir as [_ Hreq1].
  apply fs_bind_ok_inv in Hrun as ([] & w2 & Htry & Hrun).
  apply fs_bind_ok_inv in Hrun as ([] & w3 & Hlate & [= <- <-]).
  split; [done|].
  assert (Hreq3 : Fs.requested w3 = Fs.requested w2
                  /\ grows (Fs.tree w2) (Fs.tree w3)).
  { destruct (Str.eqb (Path.suffix dest) ".sh").
    - split; [by apply chmod_inv in Hlate as [_ ?]|].
      by apply keeps_chmod in Hlate.
    - injection Hlate as <-. split; [done|]. apply grows_refl. }
  destruct Hreq3 as [Hreq3 Hgrows]. rewrite Hreq3.
  cut (Fs.requested w2 = Fs.requested w ++ [Path.str ("shared" :: rel)]
       /\ Fs.kind (Fs.tree w2) dest ≠ None).
  { intros [Hreq2 Hthere]. split; [done|]. by apply (grows_exists (Fs.tree w2)). }
  clear Hlate Hreq3 Hgrows w3.
  assert (Hcopy : forall e w0,
             Fs.requested w0 = Fs.requested w ++ [Path.str ("shared" :: rel)] ->
             ((if Str.eqb (Path.suffix dest) ".sh"
               then Fs.print (fallback_warning (templates_dir self ++ "shared" :: rel) e)
               else mret tt);;
              Fs.copy2 self ("shared" :: rel) dest;;
              Fs.print ("Copied shared file (fallback): " +:+ Path.str dest)) w0
             = (Ok tt, w2) ->
             Fs.requested w2 = Fs.requested w ++ [Path.str ("shared" :: rel)]
             /\ Fs.kind (Fs.tree w2) dest ≠ None).
  { intros e w0 Hreq0 ([] & w4 & Hwarn & Hrest)%fs_bind_ok_inv.
    assert (Hw4 : Fs.tree w4 = Fs.tree w0 /\ Fs.requested w4 = Fs.requested w0).
    { destruct (Str.eqb (Path.suffix dest) ".sh"); by injection Hwarn as <-. }
    destruct Hw4 as [Htree4 Hreq4].
    apply fs_bind_ok_inv in Hrest as ([] & w5 & Hcopy & [= <-]).
    apply copy2_inv in Hcopy as (content & dst & _ & Hdst & Hroot & _ & ->).
    cbn [Fs.tree Fs.requested]. split; [congruence|].
    destruct (Fs.kind (Fs.tree w4) dest) as [[|c mode]|] eqn:Hkind.
    - unfold Fs.kind in *. destruct (Fs.is_root dest); [done|].
      rewrite lookup_insert_ne; [by rewrite Hkind|].
      subst dst. intros Heq%(f_equal length). rewrite length_app in Heq.
      cbn in Heq. lia.
    - subst dst. by rewrite kind_insert_eq.
    - subst dst. by rewrite kind_insert_eq. }
  apply fs_try_inv in Htry as [([] & Hbody & _) | (e & w0 & Hbody & Hhandler)].
  - apply fs_bind_ok_inv in Hbody as (content & w0 & Hrender & Hbody).
    apply process_template_inv in Hrender as [-> _].
    apply fs_bind_ok_inv in Hbody as ([] & w4 & Hwrite & [= <-]).
    apply write_text_inv in Hwrite as (Hroot & _ & mode & ->).
    cbn [Fs.tree Fs.requested]. split; [by rewrite Hreq1|].
    by rewrite kind_insert_eq.
  - apply (Hcopy e w0); [|done].
    apply fs_bind_inv in Hbody
      as [(content & w4 & Hrender & Hbody) | (e' & Hrender & _)].
    + apply process_template_inv in Hrender as [-> _].
      apply fs_bind_inv in Hbody as [([] & w5 & _ & [=]) | (e' & Hwrite & _)].
      apply write_text_inv in Hwrite as ->. cbn [Fs.requested]. by rewrite Hreq1.
    + apply process_template_inv in Hrender as [-> _]. cbn [Fs.requested].
      by rewrite Hreq1.
Qed.

End FsReturns.

(** ** Each file of a walk comes once *)

Lemma filenames_NoDup (es : list (string * node)) :
  NoDup (map fst es) -> NoDup (Tree.filenames es).
Proof.
  unfold Tree.filenames. induction es as [|[name n] es IH]; [done|].
  cbn [map fst]. intros [Hfresh Hnodup]%NoDup_cons.
  rewrite filter_cons. case_decide; [|by apply IH].
  cbn [map fst]. apply NoDup_cons. split; [|by apply IH].
  intros Hin. apply Hfresh.
  apply list_elem_of_In, in_map_iff in Hin as ([name' n'] & Hname & Hin).
  cbn in Hname. subst name'.
  apply list_elem_of_In, list_elem_of_filter in Hin as [_ Hin].
  apply list_elem_of_In, in_map_iff. exists (name, n'). split; [done|].
  by apply list_elem_of_In.
Qed.

Lemma file_at_nonempty (n : node) (q : Path.t) : Tree.file_at n q -> q ≠ [].
Proof. by destruct 1. Qed.

Lemma walk_paths_below_NoDup (es : list (string * node)) :
  NoDup (map fst es) ->
  List.Forall (fun e => forall root, NoDup (walk_paths root (snd e))) es ->
  forall root,
    NoDup (flat_map (fun e => walk_paths (root ++ [fst e]) (snd e)) es).
Proof.
  induction es as [|e es IH]; intros Hnames Hall root; [by apply NoDup_nil|].
  cbn [map] in Hnames. apply NoDup_cons in Hnames as [Hfresh Hnames].
  apply List.Forall_cons_iff in Hall as [He Hall].
  cbn [flat_map]. apply NoDup_app. split; [by apply He|]. split; [|by apply IH].
  intros p Hp%list_elem_of_In Hp'%list_elem_of_In.
  apply in_walk_paths in Hp as (q & -> & Hq).
  apply in_flat_map in Hp' as (e' & He' & Hp').
  apply in_walk_paths in Hp' as (q' & Heq & Hq').
  rewrite <- !app_assoc in Heq. apply app_inv_head in Heq.
  injection Heq as Hname _. apply Hfresh.
  rewrite Hname. apply list_elem_of_In. by apply in_map.
Qed.

Lemma walk_paths_NoDup (n : node) :
  Tree.wf n = true -> forall root, NoDup (walk_paths root n).
Proof.
  induction n as [content|es IH] using node_induction; intros Hwf root.
  - apply NoDup_nil. done.
  - apply wf_dir in Hwf as [Hnames Hchildren].
    rewrite walk_paths_dir. apply NoDup_app. split; [|split].
    + apply (NoDup_fmap_2_strong (fun f => root ++ [f])); [|by apply filenames_NoDup].
      intros f1 f2 _ _ Heq. apply app_inv_head in Heq. by injection Heq.
    + intros p Hp%list_elem_of_In Hp'%list_elem_of_In.
      apply in_map_iff in Hp as (f & <- & _).
      apply in_flat_map in Hp' as (e & He & Hp').
      apply in_walk_paths in Hp' as (q & Heq & Hq%file_at_nonempty).
      rewrite <- app_assoc in Heq. apply app_inv_head in Heq.
      cbn in Heq. injection Heq as _ Hnil. by destruct q.
    + apply walk_paths_below_NoDup; [done|].
      rewrite List.Forall_forall in IH. apply List.Forall_forall.
      intros [name child] Hin. cbn [snd]. apply (IH _ Hin).
      by apply (Hchildren name).
Qed.

(** The files of a walk: each file below the top, once *)
Lemma walk_files_once (n : node) :
  Tree.wf n = true ->
  NoDup (Tree.walk_files n)
  /\ forall p, In p (Tree.walk_files n) <-> Tree.file_at n p.
Proof.
  intros Hwf. split.
  - by apply (walk_paths_NoDup n Hwf []).
  - intros p. change (Tree.walk_files n) with (walk_paths [] n).
    rewrite in_walk_paths. split.
    + by intros (q & -> & Hq).
    + intros Hp. by exists p.
Qed.

Lemma discovered_sublist (triples : list (Path.t * list string * list string)) :
  flat_map
    (fun '(r, _, files) =>
       map (fun f => r ++ [f])
           (filter (fun f => Str.endswith f marker = true) files))
    triples
  `sublist_of`
  flat_map (fun '(r, _, files) => map (fun f => r ++ [f]) files) triples.
Proof.
  induction triples as [|[[r dirs] files] triples IH]; [done|].
  cbn [flat_map]. apply sublist_app; [|done].
  apply (fmap_sublist (fun f => r ++ [f])), sublist_filter.
Qed.

(** The templates discovered: each file below the category whose name
    ends with the marker, once *)
Lemma discovered_once (top : node) :
  Tree.wf top = true ->
  NoDup (discovered top)
  /\ forall p, In p (discovered top) <-> Tree.file_at top p /\ ends_with_marker p.
Proof.
  intros Hwf. split; [|apply in_discovered].
  apply (sublist_NoDup _ (Tree.walk_files top)).
  - by apply walk_files_once.
  - apply discovered_sublist.
Qed.

(** ** A run that returns *)

Lemma find_wf (n : node) (p : Path.t) (m : node) :
  Tree.wf n = true -> Tree.find n p = Some m -> Tree.wf m = true.
Proof.
  revert n. induction p as [|name p IH]; intros n Hwf; cbn [Tree.find].
  - by intros [= <-].
  - destruct n as [content|es]; [done|].
    destruct (Tree.entry name es) as [child|] eqn:Hentry; [|done].
    apply IH. apply wf_dir in Hwf as [_ Hchildren].
    apply (Hchildren name). by apply entry_in.
Qed.

Section FsRunReturns.

Context `{Fs.Host} (self : TemplateProcessor).

(** A loop that returns: each pass returned, one entry per element in the
    order of the list, and what a pass left is still there. *)
Lemma fs_for_each_inv {A} (f : A -> Fs.M string) (g r : A -> string)
    (P : A -> gmap (list string) Fs.entry -> Prop) (l : list A) :
  (forall x, keeps (f x)) ->
  (forall x w y w1,
      f x w = (Ok y, w1) ->
      y = g x /\ Fs.requested w1 = Fs.requested w ++ [r x] /\ P x (Fs.tree w1)) ->
  (forall x t t', P x t -> grows t t' -> P x t') ->
  forall w ys w',
    Fs.for_each f l w = (Ok ys, w') ->
    ys = map g l
    /\ Fs.requested w' = Fs.requested w ++ map r l
    /\ (forall x, In x l -> P x (Fs.tree w')).
Proof.
  intros Hkeeps Hpass Hmono.
  induction l as [|x l IH]; intros w ys w'.
  - intros [= <- <-]. by rewrite app_nil_r.
  - cbn [Fs.for_each].
    intros (y & w1 & Hx & Hrest)%fs_bind_ok_inv.
    apply fs_bind_ok_inv in Hrest as (ys' & w2 & Hl & [= <- <-]).
    apply Hpass in Hx as (-> & Hreq1 & HP).
    pose proof (keeps_for_each f l Hkeeps _ _ _ Hl) as Hgrows.
    apply IH in Hl as (-> & Hreq2 & HPl).
    split; [done|]. split; [by rewrite Hreq2, Hreq1, <- app_assoc|].
    intros x' [<- | Hin]; [by apply (Hmono x (Fs.tree w1)) | by apply HPl].
Qed.

Lemma mkdir_parents_ok_inv (p : Path.t) (w w' : Fs.world) :
  Fs.mkdir_parents p w = (Ok tt, w') ->
  Fs.kind (Fs.tree w') p = Some Fs.Directory.
Proof.
  unfold Fs.mkdir_parents.
  destruct (Fs.kind (Fs.tree w) p) as [[|c mode]|] eqn:Hkind; [by intros [= <-]|done|].
  destruct (Fs.blocked (Fs.tree w) p); [done|]. intros [= <-]. cbn [Fs.tree].
  apply kind_add_dirs_in, in_prefixes_self. by intros ->.
Qed.

(** A run that returns, on any file system: the list is the destinations
    of the project templates in discovery order, then those of the shared
    files in traversal order; the engine was asked for the templates in
    that order; every project template rendered and its destination is a
    regular file; every shared destination is there. *)
Lemma fs_generate_project_files_inv (output_dir project_type : string)
    (vars : variables) (copy_shared : bool) (top : node) (w : Fs.world)
    (l : list string) (w' : Fs.world) :
  let output_path := Path.of_string output_dir in
  let templates :=
    map (fun p => Str.join "/" (Path.of_string project_type ++ p)) (discovered top) in
  let shared := if copy_shared then shared_files self else [] in
  Tree.find (library self) (Path.of_string project_type) = Some top ->
  Fs.generate_project_files self output_dir project_type vars copy_shared w
  = (Ok l, w') ->
  l = map (fun tf => Path.str (output_file output_path project_type tf)) templates
      ++ map (fun rel => Path.str (shared_dest output_path rel)) shared
  /\ Fs.requested w'
     = Fs.requested w ++ templates
       ++ map (fun rel => Path.str ("shared" :: rel)) shared
  /\ Fs.kind (Fs.tree w') output_path = Some Fs.Directory
  /\ (forall tf, In tf templates ->
        (exists text, env self tf vars = Rendered text)
        /\ Fs.is_regular
             (Fs.kind (Fs.tree w') (output_file output_path project_type tf)) = true)
  /\ (forall rel, In rel shared ->
        Fs.kind (Fs.tree w') (shared_dest output_path rel) ≠ None).
Proof.
  intros output_path templates shared Hfind. unfold Fs.generate_project_files.
  cbv zeta. fold output_path.
  intros ([] & w1 & Hmkdir & Hrun)%fs_bind_ok_inv.
  pose proof (mkdir_parents_ok_inv _ _ _ Hmkdir) as Hdir.
  apply mkdir_parents_inv in Hmkdir as [_ Hreq1].
  apply fs_bind_ok_inv in Hrun as (tfs & w1' & Hfound & Hrun).
  rewrite (fs_get_template_files_found self _ _ _ Hfind) in Hfound.
  injection Hfound as <- <-. fold templates in Hrun.
  apply fs_bind_ok_inv in Hrun as (generated & w2 & Hloop1 & Hrun).
  pose proof (keeps_for_each _ _ (keeps_generate_one self output_path project_type vars)
                _ _ _ Hloop1) as Hgrows1.
  apply (fs_for_each_inv _
           (fun tf => Path.str (output_file output_path project_type tf))
           (fun tf => tf)
           (fun tf t =>
              (exists text, env self tf vars = Rendered text)
              /\ Fs.is_regular
                   (Fs.kind t (output_file output_path project_type tf)) = true))
    in Hloop1 as (-> & Hreq2 & Hproject).
  2: { apply keeps_generate_one. }
  2: { intros tf w0 y w0' Hpass.
       apply fs_generate_one_inv in Hpass as (-> & Hreq & text & mode & Henv & Hkind).
       split; [done|]. split; [done|]. split; [by exists text|]. by rewrite Hkind. }
  2: { intros tf t t' [Henv Hreg] Hgrows. split; [done|].
       by apply (Hgrows _). }
  rewrite map_id in Hreq2.
  assert (Hshared :
            exists entries w3,
              l = map (fun tf => Path.str (output_file output_path project_type tf))
                      templates ++ entries
              /\ w' = w3
              /\ entries = map (fun rel => Path.str (shared_dest output_path rel)) shared
              /\ Fs.requested w3
                 = Fs.requested w2
                   ++ map (fun rel => Path.str ("shared" :: rel)) shared
              /\ (forall rel, In rel shared ->
                    Fs.kind (Fs.tree w3) (shared_dest output_path rel) ≠ None)
              /\ grows (Fs.tree w2) (Fs.tree w3)).
  { unfold shared. destruct copy_shared.
    - apply fs_bind_ok_inv in Hrun as (entries & w3 & Hloop2 & [= <- <-]).
      exists entries, w3. split; [done|]. split; [done|].
      unfold Fs._copy_shared_files, shared_files in *.
      destruct (Tree.find (library self) ["shared"]) as [shared_dir|].
      + pose proof (keeps_for_each _ _ (keeps_copy_shared_one self output_path vars)
                      _ _ _ Hloop2) as Hgrows2.
        apply (fs_for_each_inv _
                 (fun rel => Path.str (shared_dest output_path rel))
                 (fun rel => Path.str ("shared" :: rel))
                 (fun rel t => Fs.kind t (shared_dest output_path rel) ≠ None))
          in Hloop2 as (-> & Hreq3 & Hthere).
        * done.
        * apply keeps_copy_shared_one.
        * intros rel w0 y w0' Hpass.
          by apply fs_copy_shared_one_inv in Hpass as (-> & Hreq & Hthere).
        * intros rel t t' Hthere Hgrows. by apply (grows_exists t).
      + injection Hloop2 as <- <-. cbn [map]. rewrite app_nil_r.
        repeat split; done.
    - injection Hrun as <- <-. exists [], w2. cbn [map]. rewrite !app_nil_r.
      repeat split; done. }
  destruct Hshared as (entries & w3 & -> & -> & -> & Hreq3 & Hthere & Hgrows2).
  split; [done|]. split; [by rewrite Hreq3, Hreq2, Hreq1, <- app_assoc|].
  split; [by apply Hgrows2, Hgrows1|].
  split; [|done].
  intros tf Htf. destruct (Hproject tf Htf) as [Henv Hreg]. split; [done|].
  by apply (Hgrows2 _).
Qed.

End FsRunReturns.

(** C10. With the shared files asked for, the list that project generation
    returns is the destinations of the project templates, in the order of
    discovery, followed by the destinations of the shared files, in the
    order of the traversal; discovery lists each template below the
    category once and the traversal each file below the shared directory
    once, so that the list has one entry per file processed.  On any file
    system, a run that returns has asked the engine for the project
    templates first and the shared files afterwards, every project template
    has rendered and its destination is a regular file, and every shared
    destination is there.  When every project template renders and the
    destinations can be written without one getting in the way of another,
    the run returns, every project destination holds the text rendered
    from its template, and every shared destination holds the rendered
    text or, when the engine does not render the file, the content of the
    source. *)
Theorem generate_project_files_order `{Fs.Host} (self : TemplateProcessor)
    (output_dir project_type : string) (vars : variables) (top : node)
    (w : Fs.world) :
  let output_path := Path.of_string output_dir in
  let templates :=
    map (fun p => Str.join "/" (Path.of_string project_type ++ p)) (discovered top) in
  let project_dest := output_file output_path project_type in
  let dests :=
    map project_dest templates
    ++ map (shared_dest output_path) (shared_files self) in
  let run := Fs.generate_project_files self output_dir project_type vars true in
  Tree.find (library self) (Path.of_string project_type) = Some top ->
  Tree.wf (library self) = true ->
  (NoDup (discovered top)
   /\ forall p, In p (discovered top) <-> Tree.file_at top p /\ ends_with_marker p)
  /\ (forall shared_dir,
         Tree.find (library self) ["shared"] = Some shared_dir ->
         NoDup (shared_files self)
         /\ forall rel, In rel (shared_files self) <-> Tree.file_at shared_dir rel)
  /\ (forall l w',
         run w = (Ok l, w') ->
         l = map Path.str dests
         /\ Fs.requested w'
            = Fs.requested w ++ templates
              ++ map (fun rel => Path.str ("shared" :: rel)) (shared_files self)
         /\ (forall tf, In tf templates ->
               (exists text, env self tf vars = Rendered text)
               /\ Fs.is_regular (Fs.kind (Fs.tree w') (project_dest tf)) = true)
         /\ (forall rel, In rel (shared_files self) ->
               Fs.kind (Fs.tree w') (shared_dest output_path rel) ≠ None))
  /\ ((forall tf, In tf templates -> exists text, env self tf vars = Rendered text) ->
      can_generate (Fs.tree w) output_path dests = true ->
      exists w',
        run w = (Ok (map Path.str dests), w')
        /\ (forall tf, In tf templates ->
              exists text mode,
                env self tf vars = Rendered text
                /\ Fs.kind (Fs.tree w') (project_dest tf)
                   = Some (Fs.Regular text mode))
        /\ (forall rel, In rel (shared_files self) ->
              exists content mode,
                Tree.read (library self) ("shared" :: rel) = Some content
                /\ Fs.kind (Fs.tree w') (shared_dest output_path rel)
                   = Some (Fs.Regular (shared_written self vars rel content) mode))).
Proof.
  intros output_path templates project_dest dests run Hfind Hwf.
  split; [|split; [|split]].
  - apply discovered_once. by apply (find_wf (library self) (Path.of_string project_type)).
  - intros shared_dir Hshared. unfold shared_files. rewrite Hshared.
    apply walk_files_once. by apply (find_wf (library self) ["shared"]).
  - intros l w' Hrun.
    destruct (fs_generate_project_files_inv self output_dir project_type vars true
                top w l w' Hfind Hrun) as (-> & Hreq & _ & Hproject & Hshared).
    split; [|done]. unfold dests. rewrite map_app.
    f_equal; symmetry; apply map_map.
  - intros Hrender Hcan.
    destruct (fs_generate_project_files_written self output_dir project_type vars
                true top w Hfind (fun _ => Hwf) Hrender)
      as (w1 & w' & _ & _ & _ & _ & Hrun & Hfiles & _ & _).
    { by rewrite outputs_dests. }
    exists w'. split; [|split].
    + unfold run. rewrite Hrun. f_equal. f_equal.
      rewrite <- (map_map fst Path.str). f_equal. apply outputs_dests.
    + intros tf Htf. destruct (Hrender tf Htf) as (text & Henv).
      destruct (Hfiles (project_dest tf) (rendered_text self vars tf))
        as (mode & Hkind).
      { apply in_app_iff. left. apply in_map_iff. by exists tf. }
      exists text, mode. split; [done|].
      unfold rendered_text in Hkind. by rewrite Henv in Hkind.
    + intros rel Hrel. destruct (shared_file_read self rel Hwf Hrel) as (content & Hread).
      destruct (Hfiles (shared_dest output_path rel) (shared_content self vars rel))
        as (mode & Hkind).
      { apply in_app_iff. right. apply in_map_iff. by exists rel. }
      exists content, mode. split; [done|].
      unfold shared_content in Hkind. by rewrite Hread in Hkind.
Qed.

Lemma generate_project_files_order_witness :
  exists w',
    @Fs.generate_project_files sample_host sample_processor "out" "console" ∅ true
      Fs.empty_world
    = (Ok ["out/CMakeLists.txt"; "out/src/main.cpp";
           "out/build.sh"; "out/run.sh"; "out/cmake/Warnings.cmake"], w')
    /\ (exists mode,
          Fs.kind (Fs.tree w') ["out"; "src"; "main.cpp"]
          = Some (Fs.Regular "rendered console/src/main.cpp.template" mode))
    /\ (exists mode,
          Fs.kind (Fs.tree w') ["out"; "build.sh"]
          = Some (Fs.Regular "cmake --build {{ build_dir }" mode))
    /\ (exists mode,
          Fs.kind (Fs.tree w') ["out"; "run.sh"]
          = Some (Fs.Regular "rendered shared/run.sh" mode)).
Proof.
  destruct (@generate_project_files_order sample_host sample_processor "out"
              "console" ∅
              (Dir [("CMakeLists.txt.template", File "project({{ project_name }})");
                    ("README.md", File "read me");
                    ("src", Dir [("main.cpp.template", File "int main() {}")])])
              Fs.empty_world eq_refl eq_refl)
    as (_ & _ & _ & Hruns).
  destruct Hruns as (w' & Hrun & Hproject & Hshared).
  - intros tf [<- | [<- | []]]; eexists; reflexivity.
  - reflexivity.
  - exists w'. split; [exact Hrun|]. split; [|split].
    + destruct (Hproject "console/src/main.cpp.template")
        as (text & mode & [= <-] & Hkind); [right; left; reflexivity|].
      by exists mode.
    + destruct (Hshared ["build.sh.template"])
        as (content & mode & [= <-] & Hkind); [left; reflexivity|].
      by exists mode.
    + destruct (Hshared ["run.sh"])
        as (content & mode & [= <-] & Hkind); [right; left; reflexivity|].
      by exists mode.
Defined.

(** * Further properties on the file system *)

(** X13. One pass over a shared file that can be read, its destination
    ready: the pass returns; the destination holds the rendered text when
    the engine renders the file and the content of the source when it does
    not; a script ends with the mode 0o755 either way, and another file has
    the mode of the source when it was copied, and the mode it had, or the
    mode of a new file, when it was rendered; the engine is asked once;
    nothing else changes but the directories above the destination. *)
Theorem fs_copy_shared_one_outcome `{Fs.Host} (self : TemplateProcessor)
    (output_path : Path.t) (vars : variables) (rel : Path.t) (content : string)
    (w : Fs.world) :
  let dest := shared_dest output_path rel in
  Tree.read (library self) ("shared" :: rel) = Some content ->
  ready (Fs.tree w) dest = true ->
  exists w',
    Fs.copy_shared_one self output_path vars rel w = (Ok (Path.str dest), w')
    /\ Fs.kind (Fs.tree w') dest
       = Some (Fs.Regular
                 (shared_written self vars rel content)
                 (if Str.eqb (Path.suffix dest) ".sh" then 493%Z
                  else match env self (Path.str ("shared" :: rel)) vars with
                       | Rendered _ => mode_after_open (Fs.tree w) dest
                       | _ => Fs.source_mode ("shared" :: rel)
                       end))
    /\ Fs.requested w' = Fs.requested w ++ [Path.str ("shared" :: rel)]
    /\ (forall q, q ≠ dest -> ~ below dest q ->
                  Fs.kind (Fs.tree w') q = Fs.kind (Fs.tree w) q)
    /\ (forall q, q ≠ dest ->
                  Fs.is_regular (Fs.kind (Fs.tree w') q)
                  = Fs.is_regular (Fs.kind (Fs.tree w) q)).
Proof.
  intros dest Hread Hready.
  pose proof (ready_inv _ _ Hready) as (Hroot & _).
  assert (Hend : forall t1 c mode,
             (forall q, q ≠ dest -> ~ below dest q ->
                        Fs.kind t1 q = Fs.kind (Fs.tree w) q) ->
             (forall q, Fs.is_regular (Fs.kind t1 q)
                        = Fs.is_regular (Fs.kind (Fs.tree w) q)) ->
             Fs.kind (<[dest := Fs.Regular c mode]> t1) dest = Some (Fs.Regular c mode)
             /\ (forall q, q ≠ dest -> ~ below dest q ->
                           Fs.kind (<[dest := Fs.Regular c mode]> t1) q
                           = Fs.kind (Fs.tree w) q)
             /\ (forall q, q ≠ dest ->
                           Fs.is_regular (Fs.kind (<[dest := Fs.Regular c mode]> t1) q)
                           = Fs.is_regular (Fs.kind (Fs.tree w) q))).
  { intros t1 c mode Hframe Hreg.
    split; [by apply kind_insert_eq|]. split.
    - intros q Hq Hbelow. rewrite kind_insert_ne by done. by apply Hframe.
    - intros q Hq. rewrite kind_insert_ne by done. apply Hreg. }
  unfold shared_written.
  destruct (env self (Path.str ("shared" :: rel)) vars) as [text| |msg] eqn:Henv.
  - destruct (fs_copy_shared_one_rendered self output_path vars rel text w Henv Hready)
      as (t1 & Hrun & Hframe & Hreg).
    eexists. split; [exact Hrun|]. cbn [Fs.tree Fs.requested].
    destruct (Hend t1 text (rendered_mode (Fs.tree w) dest) Hframe Hreg)
      as (Hkind & Hrest).
    split; [exact Hkind|]. split; [done|]. exact Hrest.
  - destruct (fs_copy_shared_one_copied self output_path vars rel content w)
      as (e & t1 & _ & Hrun & Hframe & Hreg); [by rewrite Henv | done | done |].
    eexists. split; [exact Hrun|]. cbn [Fs.tree Fs.requested].
    destruct (Hend t1 content (copied_mode ("shared" :: rel) dest) Hframe Hreg)
      as (Hkind & Hrest).
    split; [exact Hkind|]. split; [done|]. exact Hrest.
  - destruct (fs_copy_shared_one_copied self output_path vars rel content w)
      as (e & t1 & _ & Hrun & Hframe & Hreg); [by rewrite Henv | done | done |].
    eexists. split; [exact Hrun|]. cbn [Fs.tree Fs.requested].
    destruct (Hend t1 content (copied_mode ("shared" :: rel) dest) Hframe Hreg)
      as (Hkind & Hrest).
    split; [exact Hkind|]. split; [done|]. exact Hrest.
Qed.

Lemma fs_copy_shared_one_outcome_witness :
  exists w',
    @Fs.copy_shared_one sample_host sample_processor ["out"] ∅
      ["cmake"; "Warnings.cmake"] Fs.empty_world
    = (Ok "out/cmake/Warnings.cmake", w')
    /\ Fs.kind (Fs.tree w') ["out"; "cmake"; "Warnings.cmake"]
       = Some (Fs.Regular "add_compile_options(-Wall)" 292)
    /\ Fs.kind (Fs.tree w') ["out"; "cmake"] = Some Fs.Directory.
Proof.
  destruct (@fs_copy_shared_one_outcome sample_host sample_processor ["out"] ∅
              ["cmake"; "Warnings.cmake"] "add_compile_options(-Wall)"
              Fs.empty_world eq_refl eq_refl)
    as (w' & Hrun & Hkind & _).
  exists w'. split; [exact Hrun|]. split; [exact Hkind|].
  vm_compute in Hrun. by injection Hrun as <-.
Defined.

(** X14. Processing the shared files returns whatever the engine does with
    them, when no directory lists a name twice and the destinations are
    ready and apart: one entry per shared file in the order of the
    traversal; afterwards every destination holds the rendered text of its
    file or, the engine not rendering it, the content of the source, and
    nothing else has changed but the directories above the destinations.
    Without a shared directory the empty list comes back and nothing
    changes. *)
Theorem fs_copy_shared_files_returns `{Fs.Host} (self : TemplateProcessor)
    (output_path : Path.t) (vars : variables) (w : Fs.world) :
  (Tree.wf (library self) = true ->
   (forall rel, In rel (shared_files self) ->
                ready (Fs.tree w) (shared_dest output_path rel) = true) ->
   apart (map (shared_dest output_path) (shared_files self)) = true ->
   exists w',
     Fs._copy_shared_files self output_path vars w
     = (Ok (map (fun rel => Path.str (shared_dest output_path rel))
                (shared_files self)), w')
     /\ (forall rel, In rel (shared_files self) ->
           exists content mode,
             Tree.read (library self) ("shared" :: rel) = Some content
             /\ Fs.kind (Fs.tree w') (shared_dest output_path rel)
                = Some (Fs.Regular (shared_written self vars rel content) mode))
     /\ (forall q,
           (forall rel, In rel (shared_files self) ->
                        q ≠ shared_dest output_path rel
                        /\ ~ below (shared_dest output_path rel) q) ->
           Fs.kind (Fs.tree w') q = Fs.kind (Fs.tree w) q))
  /\ (Tree.find (library self) ["shared"] = None ->
      Fs._copy_shared_files self output_path vars w = (Ok [], w)).
Proof.
  split.
  - intros Hwf Hready Hapart.
    destruct (fs_for_each_written
                (Fs.copy_shared_one self output_path vars)
                (shared_dest output_path)
                (shared_content self vars)
                (shared_files self)) with (w := w)
      as (w' & Hloop & Hfiles & Hframe & _).
    + intros rel Hrel w0 Hr.
      destruct (shared_file_read self rel Hwf Hrel) as (content & Hread).
      by apply (fs_copy_shared_one_placed _ _ _ _ content).
    + done.
    + done.
    + exists w'. split; [|split].
      * unfold Fs._copy_shared_files. unfold shared_files in Hloop |- *.
        destruct (Tree.find (library self) ["shared"]); [done|].
        by injection Hloop as <-.
      * intros rel Hrel.
        destruct (shared_file_read self rel Hwf Hrel) as (content & Hread).
        destruct (Hfiles (shared_dest output_path rel) (shared_content self vars rel))
          as (mode & Hkind).
        { apply in_map_iff. by exists rel. }
        exists content, mode. split; [done|].
        unfold shared_content in Hkind. by rewrite Hread in Hkind.
      * intros q Hq. apply Hframe.
        intros d c (rel & [= <- <-] & Hrel)%in_map_iff. by apply Hq.
  - intros Hnone. unfold Fs._copy_shared_files. by rewrite Hnone.
Qed.

Lemma fs_copy_shared_files_returns_witness :
  exists w',
    @Fs._copy_shared_files sample_host sample_processor ["out"] ∅ Fs.empty_world
    = (Ok ["out/build.sh"; "out/run.sh"; "out/cmake/Warnings.cmake"], w')
    /\ exists mode,
        Fs.kind (Fs.tree w') ["out"; "cmake"; "Warnings.cmake"]
        = Some (Fs.Regular "add_compile_options(-Wall)" mode).
Proof.
  destruct (proj1 (@fs_copy_shared_files_returns sample_host sample_processor
                     ["out"] ∅ Fs.empty_world))
    as (w' & Hrun & Hfiles & _).
  - reflexivity.
  - intros rel [<- | [<- | [<- | []]]]; reflexivity.
  - reflexivity.
  - exists w'. split; [exact Hrun|].
    destruct (Hfiles ["cmake"; "Warnings.cmake"])
      as (content & mode & [= <-] & Hkind); [right; right; left; reflexivity|].
    by exists mode.
Defined.

(** X12. For a category that is not in the templates directory the run
    raises, yet the output directory has been made by then: when nothing
    is in the way of the output directory the error is the one of
    discovery and the output directory is there; in every case nothing is
    printed, the engine is not asked, and no regular file is made or
    changed. *)
Theorem fs_generate_unknown_category `{Fs.Host} (self : TemplateProcessor)
    (output_dir project_type : string) (vars : variables) (copy_shared : bool)
    (w : Fs.world) :
  let output_path := Path.of_string output_dir in
  Tree.find (library self) (Path.of_string project_type) = None ->
  exists e w',
    Fs.generate_project_files self output_dir project_type vars copy_shared w
    = (Raise e, w')
    /\ Fs.stdout w' = Fs.stdout w
    /\ Fs.requested w' = Fs.requested w
    /\ (forall q, Fs.is_regular (Fs.kind (Fs.tree w) q) = true ->
                  Fs.kind (Fs.tree w') q = Fs.kind (Fs.tree w) q)
    /\ (forall q, Fs.is_regular (Fs.kind (Fs.tree w') q) = true ->
                  Fs.is_regular (Fs.kind (Fs.tree w) q) = true)
    /\ (Fs.is_regular (Fs.kind (Fs.tree w) output_path) = false ->
        Fs.blocked (Fs.tree w) output_path = false ->
        e = ValueError ("Project type '" +:+ project_type +:+ "' not found in templates")
        /\ Fs.kind (Fs.tree w') output_path = Some Fs.Directory).
Proof.
  intros output_path Hnone.
  assert (Hdiscovery : forall w1,
             Fs.get_template_files self project_type w1
             = (Raise (ValueError ("Project type '" +:+ project_type
                                   +:+ "' not found in templates")), w1)).
  { intros w1. unfold Fs.get_template_files. by rewrite Hnone. }
  unfold Fs.generate_project_files. cbv zeta. fold output_path. fs_run.
  destruct (Fs.is_regular (Fs.kind (Fs.tree w) output_path)) eqn:Hfile.
  - unfold Fs.mkdir_parents.
    destruct (Fs.kind (Fs.tree w) output_path) as [[|c mode]|]; [done| |done].
    eexists _, w. by repeat split.
  - destruct (Fs.blocked (Fs.tree w) output_path) eqn:Hfree.
    + unfold Fs.mkdir_parents.
      destruct (Fs.kind (Fs.tree w) output_path) as [[|c mode]|] eqn:Hkind; [|done|].
      * rewrite Hdiscovery. eexists _, w. by repeat split.
      * rewrite Hfree. eexists _, w. by repeat split.
    + destruct (mkdir_parents_ok output_path w Hfile Hfree)
        as (w1 & -> & Hout & Hreq & Hdir & Hframe & Hreg).
      rewrite Hdiscovery. eexists _, w1.
      split; [done|]. split; [done|]. split; [done|]. split; [|split].
      * intros q Hq. apply Hframe. intros Hin.
        apply in_prefixes in Hin as (Hne & k & Hk).
        destruct k as [|x k].
        -- rewrite app_nil_r in Hk. subst q. by rewrite Hfile in Hq.
        -- rewrite (proj1 (blocked_false _ _) Hfree q) in Hq; [done|].
           split; [done|]. by exists (x :: k).
      * intros q. by rewrite Hreg.
      * done.
Qed.

Lemma fs_generate_unknown_category_witness :
  exists w',
    @Fs.generate_project_files sample_host sample_processor "out/deep" "library" ∅
      true Fs.empty_world
    = (Raise (ValueError "Project type 'library' not found in templates"), w')
    /\ Fs.kind (Fs.tree w') ["out"; "deep"] = Some Fs.Directory.
Proof.
  destruct (@fs_generate_unknown_category sample_host sample_processor "out/deep"
              "library" ∅ true Fs.empty_world eq_refl)
    as (e & w' & Hrun & _ & _ & _ & _ & Hthere).
  destruct (Hthere eq_refl eq_refl) as [-> Hdir].
  by exists w'.
Defined.

(** X11. Generation without the shared files, every template rendering and
    the destinations ready and apart: the run returns the destinations in
    discovery order; each destination holds the text rendered from its
    template; the engine was asked for the project templates and for
    nothing else; and what is neither a destination, nor a directory above
    one, nor on the way to the output directory is as it was. *)
Theorem fs_generate_project_only `{Fs.Host} (self : TemplateProcessor)
    (output_dir project_type : string) (vars : variables) (top : node)
    (w : Fs.world) :
  let output_path := Path.of_string output_dir in
  let templates :=
    map (fun p => Str.join "/" (Path.of_string project_type ++ p)) (discovered top) in
  let dests := map (output_file output_path project_type) templates in
  Tree.find (library self) (Path.of_string project_type) = Some top ->
  (forall tf, In tf templates -> exists text, env self tf vars = Rendered text) ->
  can_generate (Fs.tree w) output_path dests = true ->
  exists w',
    Fs.generate_project_files self output_dir project_type vars false w
    = (Ok (map Path.str dests), w')
    /\ (forall tf, In tf templates ->
          exists text mode,
            env self tf vars = Rendered text
            /\ Fs.kind (Fs.tree w') (output_file output_path project_type tf)
               = Some (Fs.Regular text mode))
    /\ Fs.requested w' = Fs.requested w ++ templates
    /\ (forall q,
          ~ In q (Fs.prefixes output_path) ->
          (forall d, In d dests -> q ≠ d /\ ~ below d q) ->
          Fs.kind (Fs.tree w') q = Fs.kind (Fs.tree w) q)
    /\ (forall q,
          ~ In q dests ->
          Fs.is_regular (Fs.kind (Fs.tree w) q) = false ->
          Fs.is_regular (Fs.kind (Fs.tree w') q) = false).
Proof.
  intros output_path templates dests Hfind Hrender Hcan.
  destruct (fs_generate_project_files_written self output_dir project_type vars
              false top w Hfind) as
    (w1 & w' & _ & _ & Hframe1 & Hreg1 & Hrun & Hfiles & Hframe & Hreg);
    [done | done | by rewrite outputs_dests, app_nil_r |].
  fold output_path templates in Hrun, Hfiles, Hframe, Hreg.
  assert (Hin : forall d c,
             In (d, c) (outputs self output_path project_type vars templates false) ->
             In d dests).
  { intros d c Hd. unfold dests. rewrite <- (app_nil_r (map _ templates)).
    rewrite <- (outputs_dests self _ _ vars _ false).
    apply in_map_iff. by exists (d, c). }
  exists w'. split; [|split; [|split; [|split]]].
  - rewrite Hrun. f_equal. f_equal. rewrite <- (map_map fst Path.str). f_equal.
    by rewrite outputs_dests, app_nil_r.
  - intros tf Htf. destruct (Hrender tf Htf) as (text & Henv).
    destruct (Hfiles (output_file output_path project_type tf)
                     (rendered_text self vars tf)) as (mode & Hkind).
    { apply in_app_iff. left. apply in_map_iff. by exists tf. }
    exists text, mode. split; [done|].
    unfold rendered_text in Hkind. by rewrite Henv in Hkind.
  - destruct (fs_generate_project_files_inv self output_dir project_type vars false
                top w _ w' Hfind Hrun) as (_ & Hreq & _).
    cbn [map] in Hreq. by rewrite app_nil_r in Hreq.
  - intros q Hout Hq. rewrite Hframe; [by apply Hframe1|].
    intros d c Hd. apply Hq. by apply (Hin d c).
  - intros q Hq Hfile. apply Hreg; [|by rewrite Hreg1].
    intros d c Hd ->. apply Hq. by apply (Hin d c).
Qed.

Lemma fs_generate_project_only_witness :
  exists w',
    @Fs.generate_project_files sample_host sample_processor "out" "console" ∅ false
      Fs.empty_world
    = (Ok ["out/CMakeLists.txt"; "out/src/main.cpp"], w')
    /\ Fs.requested w'
       = ["console/CMakeLists.txt.template"; "console/src/main.cpp.template"]
    /\ Fs.kind (Fs.tree w') ["out"; "build.sh"] = None.
Proof.
  destruct (@fs_generate_project_only sample_host sample_processor "out" "console" ∅
              (Dir [("CMakeLists.txt.template", File "project({{ project_name }})");
                    ("README.md", File "read me");
                    ("src", Dir [("main.cpp.template", File "int main() {}")])])
              Fs.empty_world eq_refl)
    as (w' & Hrun & _ & Hreq & Hframe & _).
  - intros tf [<- | [<- | []]]; eexists; reflexivity.
  - reflexivity.
  - exists w'. split; [exact Hrun|]. split; [exact Hreq|].
    rewrite Hframe; [reflexivity | |].
    + intros [[=] | []].
    + intros d [<- | [<- | []]]; (split; [discriminate|]);
        intros (_ & k & _ & [=]).
Defined.

(** ** Running twice *)

Lemma can_generate_intro `{Fs.Host} (t : gmap (list string) Fs.entry)
    (output_path : Path.t) (ds : list Path.t) :
  Fs.is_regular (Fs.kind t output_path) = false ->
  Fs.blocked t output_path = false ->
  (forall d, In d ds -> ready t d = true /\ ~ In d (Fs.prefixes output_path)) ->
  apart ds = true ->
  can_generate t output_path ds = true.
Proof.
  intros Hfile Hfree Hready Hapart. unfold can_generate.
  rewrite Hfile, Hfree, Hapart. cbn [negb andb]. rewrite andb_true_r.
  apply forallb_forall. intros d Hd. destruct (Hready d Hd) as [Hr Hout].
  rewrite Hr. cbn [andb]. apply bool_decide_eq_true. by rewrite list_elem_of_In.
Qed.

(** X15. A run that returned can be repeated on what it left, provided the
    files it left may be written: the second run returns the same list,
    and every destination holds the same content after it as before it. *)
Theorem fs_generate_project_files_twice `{Fs.Host} (self : TemplateProcessor)
    (output_dir project_type : string) (vars : variables) (top : node)
    (w w1 : Fs.world) (l : list string) :
  let output_path := Path.of_string output_dir in
  let templates :=
    map (fun p => Str.join "/" (Path.of_string project_type ++ p)) (discovered top) in
  let dests :=
    map (output_file output_path project_type) templates
    ++ map (shared_dest output_path) (shared_files self) in
  Tree.find (library self) (Path.of_string project_type) = Some top ->
  Tree.wf (library self) = true ->
  (forall tf, In tf templates -> exists text, env self tf vars = Rendered text) ->
  can_generate (Fs.tree w) output_path dests = true ->
  Fs.generate_project_files self output_dir project_type vars true w = (Ok l, w1) ->
  (forall d c mode, In d dests ->
      Fs.kind (Fs.tree w1) d = Some (Fs.Regular c mode) -> Fs.may_write mode = true) ->
  exists w2,
    Fs.generate_project_files self output_dir project_type vars true w1 = (Ok l, w2)
    /\ forall d, In d dests ->
         exists c mode1 mode2,
           Fs.kind (Fs.tree w1) d = Some (Fs.Regular c mode1)
           /\ Fs.kind (Fs.tree w2) d = Some (Fs.Regular c mode2).
Proof.
  intros output_path templates dests Hfind Hwf Hrender Hcan Hrun Hwritable.
  pose proof (can_generate_inv _ _ _ Hcan) as (Hfile & Hfree & Hready & Hapart).
  pose proof (apart_inv _ Hapart) as [_ Hbelow].
  destruct (fs_generate_project_files_written self output_dir project_type vars
              true top w Hfind (fun _ => Hwf) Hrender)
    as (w0 & w1' & _ & _ & _ & Hreg0 & Hrun1 & Hfiles1 & _ & Hreg1).
  { by rewrite outputs_dests. }
  fold output_path templates in Hrun1, Hfiles1, Hreg1.
  rewrite Hrun in Hrun1. injection Hrun1 as -> <-.
  pose proof (fs_generate_project_files_inv self output_dir project_type vars true
                top w _ w1 Hfind Hrun) as (_ & _ & Hdir & _).
  fold output_path in Hdir.
  assert (Hdests : forall d,
             In d dests <->
             exists c, In (d, c) (outputs self output_path project_type vars
                                    templates true)).
  { intros d. unfold dests. rewrite <- (outputs_dests self _ _ vars _ true).
    rewrite in_map_iff. split.
    - intros ([d' c] & <- & Hin). by exists c.
    - intros (c & Hin). by exists (d, c). }
  assert (Hclean : forall q,
             ~ In q dests ->
             Fs.is_regular (Fs.kind (Fs.tree w) q) = false ->
             Fs.is_regular (Fs.kind (Fs.tree w1) q) = false).
  { intros q Hq Hnot. apply Hreg1; [|by rewrite Hreg0].
    intros d c Hd ->. apply Hq, Hdests. by exists c. }
  destruct (fs_generate_project_files_written self output_dir project_type vars
              true top w1 Hfind (fun _ => Hwf) Hrender)
    as (w0' & w2 & _ & _ & _ & _ & Hrun2 & Hfiles2 & _).
  { rewrite outputs_dests. fold output_path templates dests.
    apply can_generate_intro; [by rewrite Hdir | | | done].
    - apply blocked_false. intros q Hq. apply Hclean.
      + intros Hd. destruct (Hready q Hd) as [_ Hout]. apply Hout.
        apply in_prefixes. destruct Hq as (Hne & k & _ & ->).
        split; [done|]. by exists k.
      + by apply (proj1 (blocked_false _ _) Hfree).
    - intros d Hd. destruct (Hready d Hd) as [Hr Hout]. split; [|done].
      apply ready_inv in Hr as (Hroot & _ & Hfree_d).
      apply Hdests in Hd as Hdc. destruct Hdc as (c & Hdc).
      destruct (Hfiles1 d c Hdc) as (mode & Hkind).
      apply ready_intro; [done | |].
      + right. exists c, mode. split; [done|]. by apply (Hwritable d c mode).
      + apply blocked_false. intros q Hq. apply Hclean.
        * intros Hqd. by apply (Hbelow d q). 
        * by apply (proj1 (blocked_false _ _) Hfree_d). }
  fold output_path templates in Hrun2, Hfiles2.
  exists w2. split; [done|].
  intros d (c & Hdc)%Hdests.
  destruct (Hfiles1 d c Hdc) as (mode1 & Hkind1).
  destruct (Hfiles2 d c Hdc) as (mode2 & Hkind2).
  by exists c, mode1, mode2.
Qed.

(** The sample host with the process as the superuser, who may write
    every file *)
Definition superuser_host : Fs.Host :=
  {| Fs.new_file_mode := 420%Z;
     Fs.may_write _ := true;
     Fs.source_mode _ := 292%Z |}.

Lemma fs_generate_project_files_twice_witness :
  exists w1 w2,
    @Fs.generate_project_files superuser_host sample_processor "out" "console" ∅
      true Fs.empty_world
    = (Ok ["out/CMakeLists.txt"; "out/src/main.cpp";
           "out/build.sh"; "out/run.sh"; "out/cmake/Warnings.cmake"], w1)
    /\ @Fs.generate_project_files superuser_host sample_processor "out" "console" ∅
         true w1
       = (Ok ["out/CMakeLists.txt"; "out/src/main.cpp";
              "out/build.sh"; "out/run.sh"; "out/cmake/Warnings.cmake"], w2).
Proof.
  assert (Hrun :
            @Fs.generate_project_files superuser_host sample_processor "out"
              "console" ∅ true Fs.empty_world
            = (Ok ["out/CMakeLists.txt"; "out/src/main.cpp";
                   "out/build.sh"; "out/run.sh"; "out/cmake/Warnings.cmake"],
               snd (@Fs.generate_project_files superuser_host sample_processor
                      "out" "console" ∅ true Fs.empty_world))).
  { vm_compute. reflexivity. }
  destruct (@fs_generate_project_files_twice superuser_host sample_processor "out"
              "console" ∅
              (Dir [("CMakeLists.txt.template", File "project({{ project_name }})");
                    ("README.md", File "read me");
                    ("src", Dir [("main.cpp.template", File "int main() {}")])])
              Fs.empty_world
              (snd (@Fs.generate_project_files superuser_host sample_processor
                      "out" "console" ∅ true Fs.empty_world))
              ["out/CMakeLists.txt"; "out/src/main.cpp";
               "out/build.sh"; "out/run.sh"; "out/cmake/Warnings.cmake"]
              eq_refl eq_refl)
    as (w2 & Hrun2 & _).
  - intros tf [<- | [<- | []]]; eexists; reflexivity.
  - reflexivity.
  - exact Hrun.
  - intros d c mode _ _. reflexivity.
  - eexists _, w2. split; [exact Hrun | exact Hrun2].
Defined.




(** ** A write that fails inside the [try] *)

Lemma name_not_root (p : Path.t) : Path.name p ≠ "/".
Proof.
  unfold Path.name. destruct (last p) as [n|]; [|done].
  destruct (Str.eqb n "/") eqn:Hn; [done|].
  intros ->. by rewrite (proj2 (eqb_true "/" "/") eq_refl) in Hn.
Qed.

(** X22. The [except] clause takes an error of the write for a failure of
    the template: when a shared file renders but a directory sits at its
    destination, the write raises [IsADirectoryError] inside the [try],
    and the pass goes on with the copy, which puts the source, not
    rendered, into that directory under the name of the source; the pass
    returns the destination as if it had been written, and the rendered
    text is lost. *)
Theorem fs_copy_shared_one_write_fails `{Fs.Host} (self : TemplateProcessor)
    (output_path : Path.t) (vars : variables) (rel : Path.t)
    (text content : string) (w : Fs.world) :
  let src_file := templates_dir self ++ "shared" :: rel in
  let dest := shared_dest output_path rel in
  let inside := dest ++ [Path.name ("shared" :: rel)] in
  env self (Path.str ("shared" :: rel)) vars = Rendered text ->
  Tree.read (library self) ("shared" :: rel) = Some content ->
  Fs.kind (Fs.tree w) dest = Some Fs.Directory ->
  Fs.kind (Fs.tree w) (Fs.parent dest) = Some Fs.Directory ->
  Fs.kind (Fs.tree w) inside = None ->
  Fs.blocked (Fs.tree w) inside = false ->
  exists w',
    Fs.copy_shared_one self output_path vars rel w = (Ok (Path.str dest), w')
    /\ Fs.tree w'
       = <[inside := Fs.Regular content (Fs.source_mode ("shared" :: rel))]> (Fs.tree w)
    /\ Fs.stdout w'
       = Fs.stdout w
         ++ (if Str.eqb (Path.suffix dest) ".sh"
             then [fallback_warning src_file
                     (IsADirectoryError (os_error "21" "Is a directory" dest))]
             else [])
         ++ ["Copied shared file (fallback): " +:+ Path.str dest]
    /\ Fs.kind (Fs.tree w') dest = Some Fs.Directory.
Proof.
  intros src_file dest inside Henv Hread Hdir Hparent Hnone Hfree.
  assert (Hinside : inside ≠ dest).
  { unfold inside. intros Heq%(f_equal length). rewrite length_app in Heq.
    cbn in Heq. lia. }
  assert (Hroot : Fs.is_root inside = false).
  { unfold Fs.is_root. apply bool_decide_eq_false. unfold inside.
    intros [Hnil | Hone].
    - by destruct dest.
    - destruct dest as [|x [|y dest]]; [|done..].
      injection Hone as Hname. by apply name_not_root in Hname. }
  assert (Hparent_inside : Fs.parent inside = dest).
  { rewrite (parent_not_root _ Hroot). unfold inside. by rewrite removelast_last. }
  assert (Hkept : Fs.kind (<[inside := Fs.Regular content
                                         (Fs.source_mode ("shared" :: rel))]>
                             (Fs.tree w)) dest = Some Fs.Directory).
  { by rewrite kind_insert_ne. }
  assert (Hcopy : forall out req,
             Fs.copy2 self ("shared" :: rel) dest (Fs.World (Fs.tree w) out req)
             = (Ok tt,
                Fs.World (<[inside := Fs.Regular content
                                        (Fs.source_mode ("shared" :: rel))]>
                            (Fs.tree w)) out req)).
  { intros out req. unfold Fs.copy2. rewrite Hread. cbv beta zeta.
    cbn [Fs.tree]. rewrite Hdir. fold inside. fs_run.
    unfold Fs.open_for_writing. cbn [Fs.tree].
    by rewrite Hnone, Hfree, Hparent_inside, Hdir. }
  exists (Fs.World
            (<[inside := Fs.Regular content (Fs.source_mode ("shared" :: rel))]>
               (Fs.tree w))
            (Fs.stdout w
             ++ (if Str.eqb (Path.suffix dest) ".sh"
                 then [fallback_warning src_file
                         (IsADirectoryError (os_error "21" "Is a directory" dest))]
                 else [])
             ++ ["Copied shared file (fallback): " +:+ Path.str dest])
            (Fs.requested w ++ [Path.str ("shared" :: rel)])).
  split; [|by split].
  unfold Fs.copy_shared_one, Fs.try_except. fs_run. cbv zeta.
  fold dest src_file.
  unfold Fs.mkdir_parents at 1. rewrite Hparent.
  rewrite (fs_process_template_rendered self _ _ _ _ Henv).
  unfold Fs.write_text, Fs.open_for_writing. fs_run. cbn [Fs.tree].
  rewrite Hdir.
  destruct (Str.eqb (Path.suffix dest) ".sh") eqn:Hsh.
  - unfold Fs.print at 1. cbn [Fs.tree Fs.stdout Fs.requested].
    rewrite Hcopy. unfold Fs.print. cbn [Fs.tree Fs.stdout Fs.requested].
    unfold Fs.chmod. cbn [Fs.tree]. rewrite Hkept. by rewrite <- app_assoc.
  - rewrite Hcopy. unfold Fs.print. cbn [Fs.tree Fs.stdout Fs.requested].
    reflexivity.
Qed.

Lemma fs_copy_shared_one_write_fails_witness :
  exists w',
    @Fs.copy_shared_one sample_host sample_processor ["out"] ∅ ["run.sh"]
      (Fs.World {[ ["out"] := Fs.Directory; ["out"; "run.sh"] := Fs.Directory ]} [] [])
    = (Ok "out/run.sh", w')
    /\ Fs.kind (Fs.tree w') ["out"; "run.sh"; "run.sh"]
       = Some (Fs.Regular "exec ./app" 292)
    /\ Fs.kind (Fs.tree w') ["out"; "run.sh"] = Some Fs.Directory.
Proof.
  destruct (@fs_copy_shared_one_write_fails sample_host sample_processor ["out"] ∅
              ["run.sh"] "rendered shared/run.sh" "exec ./app"
              (Fs.World {[ ["out"] := Fs.Directory;
                           ["out"; "run.sh"] := Fs.Directory ]} [] [])
              eq_refl eq_refl)
    as (w' & Hrun & Htree & _ & Hdir); [by vm_compute..|].
  exists w'. split; [exact Hrun|]. split; [|exact Hdir].
  rewrite Htree. by vm_compute.
Defined.

(** ** A project template that does not render, on any file system *)

Section FsAborts.

Context `{Fs.Host} (self : TemplateProcessor).





End FsAborts.



(** ** Something in the way of a destination *)

(** X24. The directory of a shared file is made before the [try]: a
    regular file where that directory should be is fatal, whether the file
    renders or not; the pass raises [FileExistsError], the engine is not
    asked, and nothing changes. *)
Theorem fs_copy_shared_one_file_in_the_way `{Fs.Host} (self : TemplateProcessor)
    (output_path : Path.t) (vars : variables) (rel : Path.t) (w : Fs.world) :
  let dest := shared_dest output_path rel in
  Fs.is_regular (Fs.kind (Fs.tree w) (Fs.parent dest)) = true ->
  Fs.copy_shared_one self output_path vars rel w
  = (Raise (FileExistsError (os_error "17" "File exists" (Fs.parent dest))), w).
Proof.
  intros dest Hfile. unfold Fs.copy_shared_one. fs_run. cbv zeta. fold dest.
  unfold Fs.mkdir_parents.
  by destruct (Fs.kind (Fs.tree w) (Fs.parent dest)) as [[|c mode]|].
Qed.

Lemma fs_copy_shared_one_file_in_the_way_witness :
  @Fs.copy_shared_one sample_host sample_processor ["out"] ∅
    ["cmake"; "Warnings.cmake"]
    (Fs.World {[ ["out"] := Fs.Directory;
                 ["out"; "cmake"] := Fs.Regular "include(Warnings)" 420 ]} [] [])
  = (Raise (FileExistsError "[Errno 17] File exists: 'out/cmake'"),
     Fs.World {[ ["out"] := Fs.Directory;
                 ["out"; "cmake"] := Fs.Regular "include(Warnings)" 420 ]} [] []).
Proof.
  apply (@fs_copy_shared_one_file_in_the_way sample_host sample_processor ["out"] ∅
           ["cmake"; "Warnings.cmake"]).
  by vm_compute.
Defined.

(** X25. A directory at the destination of a project template is fatal:
    the template is rendered, the write raises [IsADirectoryError], and
    nothing is written.  A template whose name is the marker alone has the
    output directory itself as its destination and always ends so. *)
Theorem fs_generate_one_directory_in_the_way `{Fs.Host} (self : TemplateProcessor)
    (output_path : Path.t) (project_type : string) (vars : variables)
    (template_file text : string) (w : Fs.world) :
  let dest := output_file output_path project_type template_file in
  env self template_file vars = Rendered text ->
  Fs.kind (Fs.tree w) dest = Some Fs.Directory ->
  Fs.kind (Fs.tree w) (Fs.parent dest) = Some Fs.Directory ->
  Fs.generate_one self output_path project_type vars template_file w
  = (Raise (IsADirectoryError (os_error "21" "Is a directory" dest)),
     Fs.World (Fs.tree w) (Fs.stdout w) (Fs.requested w ++ [template_file])).
Proof.
  intros dest Henv Hdir Hparent. unfold Fs.generate_one. fs_run. cbv zeta.
  fold dest. rewrite (fs_process_template_rendered self _ _ _ _ Henv).
  unfold Fs.mkdir_parents. cbn [Fs.tree]. rewrite Hparent.
  unfold Fs.write_text, Fs.open_for_writing. fs_run. cbn [Fs.tree].
  by rewrite Hdir.
Qed.

Lemma fs_generate_one_directory_in_the_way_witness :
  output_file ["out"] "console" "console/.template" = ["out"]
  /\ @Fs.generate_one sample_host sample_processor ["out"] "console" ∅
       "console/.template" (Fs.World {[ ["out"] := Fs.Directory ]} [] [])
     = (Raise (IsADirectoryError "[Errno 21] Is a directory: 'out'"),
        Fs.World {[ ["out"] := Fs.Directory ]} [] ["console/.template"]).
Proof.
  split; [reflexivity|].
  apply (@fs_generate_one_directory_in_the_way sample_host sample_processor ["out"]
           "console" ∅ "console/.template" "rendered console/.template").
  - reflexivity.
  - by vm_compute.
  - by vm_compute.
Defined.
